(** * Snapshot pipeline of the report system: content servers, readiness
      probing and capture

    A shallow embedding of
      - storyteller/algorithm/utils/html2image.py
          (SimpleHTTPServerHandler, start_http_server,
           convert_html_file_to_image and the readiness script it injects,
           window.checkVegaRenderStatus; what window.forceRenderCharts does
           to the page is the rendering library's business and shows only
           in the pages the environment presents afterwards);
      - storyteller/algorithm/utils/html_server.py
          (SimpleHTTPServerWithContentTypes, find_free_port, is_port_in_use,
           serve_directory),
    and, further down, of html_to_image, convert_html_to_image and
    test_html_to_image, of window.forceRenderCharts as a script of its
    own, of get_project_root and of the file check of main.

    Python control flow (return, raise, try/except/finally, with) is kept as
    it is written, through a small completion monad over an explicit world:
    the kernel's socket table, the ordered trace of library calls, and what
    was printed. What the libraries answer (does this call raise, what does
    the page look like now) is read from an environment record, one entry per
    call site of the source.

    [Program] has the two modules on a machine where print always comes
    back and os.path.relpath has a value. [Console] has
    convert_html_file_to_image once more with print, traceback.print_exc
    and os.path.relpath able to raise; the statements about what reaches
    the caller, about release and about order are made there, and
    [Console] is shown to coincide with [Program] where both come back. *)

From Stdlib Require Import List String Ascii ZArith Bool Lia Arith DecimalString.
Import ListNotations.
Local Open Scope string_scope.
Local Open Scope list_scope.

Set Implicit Arguments.
Set Warnings "-register-all".

(* ================================================================== *)
(** ** The page: a DOM tree and the selectors the scripts use          *)
(* ================================================================== *)

Module Dom.

(** An element: tag name, id attribute (empty when absent), class list,
    src attribute, children in document order. *)
Inductive node : Type :=
| Element (tag : string) (id : string) (classes : list string)
          (src : option string) (children : list node).

Definition tag (n : node) : string :=
  match n with Element t _ _ _ _ => t end.
Definition id (n : node) : string :=
  match n with Element _ i _ _ _ => i end.
Definition classes (n : node) : list string :=
  match n with Element _ _ c _ _ => c end.
Definition src (n : node) : option string :=
  match n with Element _ _ _ s _ => s end.
Definition children (n : node) : list node :=
  match n with Element _ _ _ _ k => k end.

(** The element and everything below it, in document (pre-)order. *)
Fixpoint subtree (n : node) : list node :=
  match n with
  | Element _ _ _ _ kids =>
      n :: (fix all (l : list node) : list node :=
              match l with
              | [] => []
              | k :: l' => subtree k ++ all l'
              end) kids
  end.

(** What [e.querySelector] searches: the descendants of [e], not [e]. *)
Definition descendants (n : node) : list node :=
  flat_map subtree (children n).

(** [sub] occurs somewhere in [s] (the [*=] attribute operator). *)
Fixpoint contains (sub s : string) : bool :=
  String.prefix sub s
  || match s with
     | EmptyString => false
     | String _ s' => contains sub s'
     end.

Definition mem_string (x : string) (l : list string) : bool :=
  existsb (String.eqb x) l.

(** The selectors that occur in the source: [canvas], [svg], [img]
    (by tag); [.vega-embed], [.marks], [.chart-container] (by class);
    [script[src*="vega-embed"]] (tag and attribute substring). *)
Inductive selector : Type :=
| ByTag (t : string)
| ByClass (c : string)
| ByTagSrcContains (t : string) (sub : string).

Definition matches (sel : selector) (n : node) : bool :=
  match sel with
  | ByTag t => String.eqb (tag n) t
  | ByClass c => mem_string c (classes n)
  | ByTagSrcContains t sub =>
      String.eqb (tag n) t
      && match src n with
         | Some s => contains sub s
         | None => false
         end
  end.

Definition querySelectorAll (sel : selector) (n : node) : list node :=
  filter (matches sel) (descendants n).

Definition querySelector (sel : selector) (n : node) : option node :=
  hd_error (querySelectorAll sel n).

(** JavaScript's [!!x] on the result of querySelector. *)
Definition truthy (r : option node) : bool :=
  match r with Some _ => true | None => false end.

End Dom.

(** The state of the loaded page that the Python side can observe through
    [page.evaluate]: whether the global [vegaEmbed] is defined, the Document
    node (its only child is the root element, so that the root element is
    itself among the nodes [document.querySelector] searches), and
    [document.documentElement.scrollHeight]. *)
Record page : Type := {
  vegaEmbed_defined : bool;
  document : Dom.node;
  scrollHeight : Z
}.

(* ================================================================== *)
(** ** window.checkVegaRenderStatus (html2image.py, lines 226-255)     *)
(* ================================================================== *)

Module Readiness.
Import Dom.

Record detail : Type := {
  d_id : string;
  hasCanvas : bool;
  hasMarks : bool;
  hasSVG : bool
}.

Record render_status : Type := {
  allRendered : bool;
  details : list detail;
  count : nat
}.

Definition decimal (i : nat) : string :=
  NilEmpty.string_of_uint (Nat.to_uint i).

(** [container.id || `container-${i}`]: the empty string is falsy. *)
Definition container_label (c : node) (i : nat) : string :=
  if String.eqb (id c) "" then ("container-" ++ decimal i)%string else id c.

Definition inspect (c : node) (i : nat) : detail :=
  {| d_id := container_label c i;
     hasCanvas := truthy (querySelector (ByTag "canvas") c);
     hasMarks := truthy (querySelector (ByClass "marks") c);
     hasSVG := truthy (querySelector (ByTag "svg") c) |}.

(** The body of the [forEach] callback: push the detail, and clear
    [allRendered] when none of the three signals is there. *)
Definition visit (acc : bool * list detail) (c : node) (i : nat)
  : bool * list detail :=
  let d := inspect c i in
  (if negb (hasCanvas d || hasMarks d || hasSVG d) then false else fst acc,
   snd acc ++ [d]).

(** [containers.forEach((container, i) => ...)], [i] counting from
    [start]. *)
Fixpoint forEach (cs : list node) (start : nat) (acc : bool * list detail)
  : bool * list detail :=
  match cs with
  | [] => acc
  | c :: rest => forEach rest (S start) (visit acc c start)
  end.

Definition checkVegaRenderStatus (p : page) : render_status :=
  let containers := querySelectorAll (ByClass "vega-embed") (document p) in
  let r := forEach containers 0 (true, []) in
  {| allRendered := fst r; details := snd r; count := List.length containers |}.

(** The containers the detector discovers on a page. *)
Definition discovered (p : page) : list node :=
  querySelectorAll (ByClass "vega-embed") (document p).

(** The three completion signals of one container, as properties of the
    DOM below it. *)
Definition has_canvas (c : node) : Prop :=
  exists n, In n (descendants c) /\ tag n = "canvas".
Definition has_svg (c : node) : Prop :=
  exists n, In n (descendants c) /\ tag n = "svg".
Definition has_marks (c : node) : Prop :=
  exists n, In n (descendants c) /\ In "marks" (classes n).

(** What the loop treats as a rendered container. *)
Definition rendered (c : node) : bool :=
  let d := inspect c 0 in hasCanvas d || hasMarks d || hasSVG d.

End Readiness.

(* ================================================================== *)
(** ** The request handlers and their response headers                 *)
(* ================================================================== *)

Module Http.

Definition header : Type := (string * string)%type.

(** The two subclasses of http.server.SimpleHTTPRequestHandler. *)
Inductive handler_class : Type :=
| SimpleHTTPServerHandler            (* html2image.py, line 12 *)
| SimpleHTTPServerWithContentTypes.  (* html_server.py, line 19 *)

(** The part of a handler instance that decides what goes on the wire:
    the version of the request being answered, the pending header buffer,
    and the header blocks already flushed, one per response.
    [request_version] is what parse_request left: the last word of a
    request line of three words, and "HTTP/0.9" (default_request_version)
    for a request line without a version or one that could not be parsed;
    the empty string for a request line that was too long. *)
Record handler : Type := {
  cls : handler_class;
  request_version : string;
  headers_buffer : list header;
  wfile : list (list header)
}.

Definition fresh (c : handler_class) (version : string) : handler :=
  {| cls := c; request_version := version;
     headers_buffer := []; wfile := [] |}.

(** [self.request_version != 'HTTP/0.9']. *)
Definition sends_headers (h : handler) : bool :=
  negb (String.eqb (request_version h) "HTTP/0.9").

(** BaseHTTPRequestHandler.send_header (http/server.py, line 516): queue
    one header, unless the request is an HTTP/0.9 one. Keyword and value
    are byte strings here, so that the latin-1 encoding of line 522 cannot
    fail. *)
Definition send_header (k v : string) (h : handler) : handler :=
  if sends_headers h then
    {| cls := cls h;
       request_version := request_version h;
       headers_buffer := headers_buffer h ++ [(k, v)];
       wfile := wfile h |}
  else h.

(** BaseHTTPRequestHandler.end_headers (line 530): flush the buffer as one
    block, unless the request is an HTTP/0.9 one. *)
Definition base_end_headers (h : handler) : handler :=
  if sends_headers h then
    {| cls := cls h;
       request_version := request_version h;
       headers_buffer := [];
       wfile := wfile h ++ [headers_buffer h] |}
  else h.

(** [self.end_headers()], dispatched on the class. SimpleHTTPServerHandler
    overrides it (lines 19-24); SimpleHTTPServerWithContentTypes defines
    only extensions_map, __init__ and log_message, and inherits it. *)
Definition end_headers (h : handler) : handler :=
  match cls h with
  | SimpleHTTPServerHandler =>
      base_end_headers
        (send_header "Access-Control-Allow-Headers" "Origin, Content-Type, Accept"
           (send_header "Access-Control-Allow-Methods" "GET, POST, OPTIONS"
              (send_header "Access-Control-Allow-Origin" "*" h)))
  | SimpleHTTPServerWithContentTypes => base_end_headers h
  end.

(** One response as the inherited methods (send_head, send_error,
    list_directory) emit it: the headers they choose, queued in order, and
    then [self.end_headers()]. *)
Definition respond (hs : list header) (h : handler) : handler :=
  end_headers (fold_left (fun acc kv => send_header (fst kv) (snd kv) acc) hs h).

Definition header_names (block : list header) : list string :=
  map fst block.

Definition has_header (k : string) (block : list header) : bool :=
  existsb (String.eqb k) (header_names block).

(** The three headers the override adds. *)
Definition cors_headers : list header :=
  [("Access-Control-Allow-Origin", "*");
   ("Access-Control-Allow-Methods", "GET, POST, OPTIONS");
   ("Access-Control-Allow-Headers", "Origin, Content-Type, Accept")].

End Http.

(* ================================================================== *)
(** ** Python exceptions, paths and URLs                               *)
(* ================================================================== *)

Module Py.

(** The exceptions that reach this code. [OSError] carries errno (what
    socket.bind raises); [RuntimeError port] is the one serve_directory
    raises itself at line 70, its message says that [port] is occupied;
    [LibraryError] stands for any other subclass of Exception a library call
    raises (playwright errors and timeouts, requests and urllib errors,
    ImportError); [KeyboardInterrupt] derives from BaseException only, so
    [except Exception] lets it through. *)
Inductive exc : Type :=
| OSError (errno : Z)
| RuntimeError (port : Z)
| LibraryError (what : string)
| KeyboardInterrupt.

Definition EADDRINUSE : Z := 98.

(** [isinstance(e, Exception)]. *)
Definition is_Exception (e : exc) : bool :=
  match e with
  | KeyboardInterrupt => false
  | _ => true
  end.

(** The two exceptions that report an occupied port. *)
Definition reports_port_in_use (e : exc) : bool :=
  match e with
  | OSError n => Z.eqb n EADDRINUSE
  | RuntimeError _ => true
  | _ => false
  end.

(** A path after os.path.abspath, as its components below the root
    directory. *)
Definition path : Type := list string.

(** [os.path.commonprefix] on two component lists. *)
Fixpoint commonprefix (a b : path) : path :=
  match a, b with
  | x :: a', y :: b' => if String.eqb x y then x :: commonprefix a' b' else []
  | _, _ => []
  end.

(** posixpath.relpath, after both arguments went through abspath. *)
Definition relpath (p start : path) : path :=
  let i := List.length (commonprefix start p) in
  let rel_list := repeat ".." (List.length start - i) ++ skipn i p in
  match rel_list with
  | [] => ["."]
  | _ => rel_list
  end.

(** [root] is [p] or one of its ancestors. *)
Fixpoint is_descendant (p root : path) : bool :=
  match root, p with
  | [], _ => true
  | r :: root', x :: p' => String.eqb r x && is_descendant p' root'
  | _ :: _, [] => false
  end.

(** [f"http://localhost:{port}/{rel_path}"], the segments of [rel_path]
    kept apart. *)
Record url : Type := {
  url_port : Z;
  url_path : path
}.

End Py.

(* ================================================================== *)
(** ** The kernel's socket table                                       *)
(* ================================================================== *)

Module Net.
Import Py.

(** The address a socket is bound to. With AF_INET, the host "localhost"
    is the loopback address and the empty host is INADDR_ANY, every
    interface of the machine. *)
Inductive addr : Type :=
| Loopback
| AnyInterface
| Interface (name : string).

Definition resolve (host : string) : addr :=
  if String.eqb host "" then AnyInterface
  else if String.eqb host "localhost" then Loopback
  else Interface host.

Record socket : Type := {
  s_addr : addr;
  s_port : Z;
  s_listening : bool
}.

Definition table : Type := list socket.

(** Two bound addresses collide (no SO_REUSEADDR: TCPServer leaves
    allow_reuse_address False). *)
Definition overlaps (a b : addr) : bool :=
  match a, b with
  | AnyInterface, _ => true
  | _, AnyInterface => true
  | Loopback, Loopback => true
  | Interface x, Interface y => String.eqb x y
  | _, _ => false
  end.

(** bind() on [(a, p)] would fail with EADDRINUSE. *)
Definition in_use (a : addr) (p : Z) (t : table) : bool :=
  existsb (fun s => Z.eqb (s_port s) p && overlaps a (s_addr s)) t.

(** connect_ex(('localhost', p)) == 0. *)
Definition accepts_on_localhost (p : Z) (t : table) : bool :=
  existsb (fun s => Z.eqb (s_port s) p && s_listening s
                    && overlaps Loopback (s_addr s)) t.

(** The port the kernel hands out for port 0: some port no socket of the
    table has (here the one after the largest, from the dynamic range). *)
Definition ephemeral_port (t : table) : Z :=
  Z.succ (fold_right Z.max 49151%Z (map s_port t)).

(** bind() then listen(): the actual port and the new table, or EADDRINUSE
    and the table unchanged. *)
Definition bind_listen (a : addr) (p : Z) (t : table) : (Z + exc) * table :=
  if Z.eqb p 0 then
    let q := ephemeral_port t in
    (inl q, {| s_addr := a; s_port := q; s_listening := true |} :: t)
  else if in_use a p t then (inr (OSError EADDRINUSE), t)
  else (inl p, {| s_addr := a; s_port := p; s_listening := true |} :: t).

Definition addr_eqb (a b : addr) : bool :=
  match a, b with
  | Loopback, Loopback => true
  | AnyInterface, AnyInterface => true
  | Interface x, Interface y => String.eqb x y
  | _, _ => false
  end.

(** close(): the socket bound to [(a, p)] leaves the table; closing twice
    does nothing more. *)
Fixpoint close (a : addr) (p : Z) (t : table) : table :=
  match t with
  | [] => []
  | s :: t' =>
      if addr_eqb (s_addr s) a && Z.eqb (s_port s) p then t'
      else s :: close a p t'
  end.

(** A socketserver.TCPServer object: where it listens, and the handler
    class and directory its requests are served with. *)
Record httpd : Type := {
  server_addr : addr;
  server_port : Z;
  server_handler : Http.handler_class;
  server_directory : path
}.

End Net.

(* ================================================================== *)
(** ** Call sites, the world and the environment                       *)
(* ================================================================== *)

Module World.
Import Py.

(** Every place where the source leaves the process, named by its line.
    [L..] are lines of html2image.py, [H..] lines of html_server.py. *)
Inductive site : Type :=
(* start_http_server *)
| L45_TCPServer
| L53_thread_start
| L56_sleep
(* convert_html_file_to_image *)
| L147_import_requests
| L151_requests_get (port : Z)
| L162_sync_playwright_enter
| L164_launch
| L171_new_context
| L175_new_page
| L178_goto (u : url)
| L186_wait_for_load_state
| L191_wait_for_load_state
| L196_evaluate_has_vega
| L211_wait_for_function
| L217_wait_for_selector
| L225_add_script_tag
| L291_wait_for_timeout
| L294_checkVegaRenderStatus
| L306_forceRenderCharts
| L311_wait_for_timeout
| L314_checkVegaRenderStatus
| L322_forceRenderCharts
| L323_wait_for_timeout
| L327_evaluate_has_images
| L331_wait_for_selector
| L337_wait_for_timeout
| L342_evaluate_scrollHeight
| L343_set_viewport_size (height : Z)
| L346_screenshot (out : string)
| L358_browser_close
| L162_sync_playwright_exit
| L368_shutdown
| L369_server_close
(* serve_directory *)
| H41_find_free_port
| H47_connect_ex (port : Z)
| H74_TCPServer
| H78_thread_start
| H91_urlopen (attempt : nat)
| H94_sleep (attempt : nat)
| H100_shutdown
| H101_server_close
| H74_TCPServer_exit.

(** What print writes. The diagnostics carry what they are about; the
    output that only [debug] (or [not quiet]) enables is kept by its line. *)
Inductive message : Type :=
| Started_on_port (port : Z)          (* html2image.py, line 49 *)
| Server_status_not_200 (status : Z)  (* line 156 *)
| Cannot_connect_to_server (e : exc)  (* line 158 *)
| Error_during_screenshot (e : exc)   (* line 353, with the traceback *)
| Error_starting_server (e : exc)     (* line 360, with the traceback *)
| Verbose (line : nat).

Record world : Type := {
  sockets : Net.table;
  trace : list site;
  stdout : list message;
  (** the local variable [httpd] of convert_html_file_to_image, assigned at
      lines 133 and 135 and read in the [finally] at line 366 *)
  httpd_var : option Net.httpd
}.

Definition initial (t : Net.table) : world :=
  {| sockets := t; trace := []; stdout := []; httpd_var := None |}.

(** What the surroundings answer. *)
Record env : Type := {
  (** the exception the library call at a site raises, if it does *)
  raises : site -> option exc;
  (** [response.status_code] at line 152 *)
  status_code : Z;
  (** the page as the evaluate at a site finds it *)
  page_at : site -> page;
  (** the directory three levels above html2image.py, made absolute
      (line 130) *)
  project_root : path;
  (** os.getcwd() *)
  getcwd : path;
  (** os.path.abspath *)
  abspath : string -> path;
  (** os.path.splitext(p)[0] *)
  splitext_root : string -> string
}.

(** How a block of statements ends: by running off its end, by [return],
    or by an exception on its way up. *)
Inductive completion (R A : Type) : Type :=
| Normal (a : A)
| Returned (r : R)
| Raised (e : exc).

Arguments Normal {R A} a.
Arguments Returned {R A} r.
Arguments Raised {R A} e.

Definition M (R A : Type) : Type := world -> completion R A * world.

Definition ret {R A : Type} (a : A) : M R A :=
  fun w => (Normal a, w).

Definition bind {R A B : Type} (m : M R A) (k : A -> M R B) : M R B :=
  fun w =>
    match m w with
    | (Normal a, w') => k a w'
    | (Returned r, w') => (Returned r, w')
    | (Raised e, w') => (Raised e, w')
    end.

Definition return_ {R A : Type} (r : R) : M R A :=
  fun w => (Returned r, w).

Definition raise {R A : Type} (e : exc) : M R A :=
  fun w => (Raised e, w).

(** [try: body / except Exception as e: handler]. *)
Definition try_except {R A : Type} (body : M R A) (handler : exc -> M R A)
  : M R A :=
  fun w =>
    match body w with
    | (Raised e, w') =>
        if is_Exception e then handler e w' else (Raised e, w')
    | other => other
    end.

(** [try: body / except: handler], the bare clause, which catches all. *)
Definition try_except_all {R A : Type} (body : M R A) (handler : M R A)
  : M R A :=
  fun w =>
    match body w with
    | (Raised _, w') => handler w'
    | other => other
    end.

(** [try: body / finally: fin]. The way the body ended is resumed after
    [fin], unless [fin] itself returns or raises. *)
Definition try_finally {R A : Type} (body : M R A) (fin : M R unit)
  : M R A :=
  fun w =>
    let (c, w') := body w in
    match fin w' with
    | (Normal _, w'') => (c, w'')
    | (Returned r, w'') => (Returned r, w'')
    | (Raised e, w'') => (Raised e, w'')
    end.

(** [with cm as x: body], for a context manager whose __exit__ does not
    swallow exceptions. *)
Definition with_ {R A X : Type} (enter : M R X) (exit : X -> M R unit)
    (body : X -> M R A) : M R A :=
  bind enter (fun x => try_finally (body x) (exit x)).

(** What a call of a function gives its caller. *)
Inductive result (R : Type) : Type :=
| Value (r : R)
| Uncaught (e : exc).

Arguments Value {R} r.
Arguments Uncaught {R} e.

(** Run a function body from the outside. The bodies here end every path
    in [return] or in an exception, none runs off its end: their type says
    so. *)
Definition run {R : Type} (body : M R Empty_set) (w : world)
  : result R * world :=
  match body w with
  | (Normal a, _) => match a with end
  | (Returned r, w') => (Value r, w')
  | (Raised e, w') => (Uncaught e, w')
  end.

(** The same from inside another body. *)
Definition invoke {R R' : Type} (body : M R' Empty_set) : M R R' :=
  fun w =>
    match run body w with
    | (Value r, w') => (Normal r, w')
    | (Uncaught e, w') => (Raised e, w')
    end.

Definition log (s : site) : world -> world :=
  fun w => {| sockets := sockets w; trace := trace w ++ [s];
              stdout := stdout w; httpd_var := httpd_var w |}.

(** print(...) on a stdout that takes the line. [Console.say] is the
    statement on a stdout that can raise on it. *)
Definition print {R : Type} (m : message) : M R unit :=
  fun w => (Normal tt,
            {| sockets := sockets w; trace := trace w;
               stdout := stdout w ++ [m]; httpd_var := httpd_var w |}).

(** [if debug: print(...)] at the given line. *)
Definition verbose {R : Type} (debug : bool) (line : nat) : M R unit :=
  if debug then print (Verbose line) else ret tt.

Definition set_httpd {R : Type} (h : option Net.httpd) : M R unit :=
  fun w => (Normal tt,
            {| sockets := sockets w; trace := trace w;
               stdout := stdout w; httpd_var := h |}).

Definition get_httpd {R : Type} : M R (option Net.httpd) :=
  fun w => (Normal (httpd_var w), w).

Definition set_sockets (t : Net.table) : world -> world :=
  fun w => {| sockets := t; trace := trace w;
              stdout := stdout w; httpd_var := httpd_var w |}.

End World.

Declare Scope py_scope.
Delimit Scope py_scope with py.
Notation "x <- m ;; k" := (World.bind m (fun x => k))
  (at level 61, m at next level, right associativity) : py_scope.
Notation "m ;; k" := (World.bind m (fun _ => k))
  (at level 61, right associativity) : py_scope.

(* ================================================================== *)
(** ** The programs                                                    *)
(* ================================================================== *)

Module Program.
Import Py World.
Local Open Scope py_scope.

Section WithEnv.

Variable E : env.

(** A library call that has no result this code looks at: it is traced,
    and raises when the environment says so. *)
Definition call {R : Type} (s : site) : M R unit :=
  fun w =>
    match raises E s with
    | Some e => (Raised e, log s w)
    | None => (Normal tt, log s w)
    end.

(** [page.evaluate(script)]: the call, then the value of the script on
    the page as it is at that moment. *)
Definition evaluate {R A : Type} (s : site) (script : page -> A) : M R A :=
  call s ;; ret (script (page_at E s)).

(** [socketserver.TCPServer((host, port), handler)]: the constructor binds
    and listens. *)
Definition TCPServer {R : Type} (s : site) (host : string) (port : Z)
    (handler : Http.handler_class) (directory : path) : M R Net.httpd :=
  fun w =>
    let w1 := log s w in
    match raises E s with
    | Some e => (Raised e, w1)
    | None =>
        match Net.bind_listen (Net.resolve host) port (sockets w1) with
        | (inl actual, t) =>
            (Normal {| Net.server_addr := Net.resolve host;
                       Net.server_port := actual;
                       Net.server_handler := handler;
                       Net.server_directory := directory |},
             set_sockets t w1)
        | (inr e, _) => (Raised e, w1)
        end
    end.

(** [httpd.server_close()]: closes the listening socket. *)
Definition server_close {R : Type} (s : site) (h : Net.httpd) : M R unit :=
  call s ;;
  (fun w => (Normal tt,
             set_sockets (Net.close (Net.server_addr h) (Net.server_port h)
                                    (sockets w)) w)).

(** *** html2image.py: start_http_server (lines 30-58) *)

Definition start_http_server (root_dir : path) (port : Z)
  : M (Z * Net.httpd) Empty_set :=
  httpd <- TCPServer L45_TCPServer "localhost" port
             Http.SimpleHTTPServerHandler root_dir ;;
  let actual_port := Net.server_port httpd in
  print (Started_on_port actual_port) ;;
  call L53_thread_start ;;
  call L56_sleep ;;
  return_ (actual_port, httpd).

(** *** html_server.py: find_free_port, is_port_in_use (lines 38-47) *)

(** Binds [('', 0)], reads the port back, and closes the socket again. *)
Definition find_free_port {R : Type} : M R Z :=
  call H41_find_free_port ;;
  (fun w => (Normal (Net.ephemeral_port (sockets w)), w)).

Definition is_port_in_use {R : Type} (port : Z) : M R bool :=
  call (H47_connect_ex port) ;;
  (fun w => (Normal (Net.accepts_on_localhost port (sockets w)), w)).

(** *** html_server.py: serve_directory (lines 49-103) *)

(** The loop of lines 89-94, from iteration [i] with [n] iterations left:
    [break] on the first urlopen that does not raise, sleep after one that
    does. *)
Fixpoint wait_for_server {R : Type} (i n : nat) : M R unit :=
  match n with
  | O => ret tt
  | S n' =>
      broke <- try_except
                 (call (H91_urlopen i) ;; ret true)
                 (fun _ => call (H94_sleep i) ;; ret false) ;;
      if broke : bool then ret tt else wait_for_server (S i) n'
  end.

(** The generator behind @contextmanager, with the body of the caller's
    [with] block as [body]: it runs where the generator yields. *)
Definition serve_directory {R A : Type} (directory : option string)
    (port : option Z) (quiet : bool) (body : url -> M R A) : M R A :=
  let directory :=
    match directory with
    | None => getcwd E
    | Some d => abspath E d
    end in
  port <- match port with
          | None => find_free_port
          | Some p =>
              used <- is_port_in_use p ;;
              if used : bool then raise (RuntimeError p) else ret p
          end ;;
  with_ (TCPServer H74_TCPServer "" port
           Http.SimpleHTTPServerWithContentTypes directory)
        (server_close H74_TCPServer_exit)
        (fun httpd =>
           call H78_thread_start ;;
           verbose (negb quiet) 81 ;;
           verbose (negb quiet) 82 ;;
           let server_url := {| url_port := port; url_path := [] |} in
           try_finally
             (wait_for_server 0 5 ;;
              body server_url)
             (call H100_shutdown ;;
              server_close H101_server_close httpd ;;
              verbose (negb quiet) 103)).

(** *** html2image.py: convert_html_file_to_image (lines 109-373) *)

(** The probe of lines 196-204. *)
Definition has_vega_script (p : page) : bool :=
  let hasVegaEmbed := vegaEmbed_defined p in
  let hasVegaEmbedTag :=
    Dom.truthy (Dom.querySelector (Dom.ByTagSrcContains "script" "vega-embed")
                                  (document p)) in
  hasVegaEmbed || hasVegaEmbedTag.

(** [!!document.querySelector('img')], line 327. *)
Definition has_images_script (p : page) : bool :=
  Dom.truthy (Dom.querySelector (Dom.ByTag "img") (document p)).

(** Lines 302-303: one line printed per container. *)
Fixpoint print_details {R : Type} (ds : list Readiness.detail) : M R unit :=
  match ds with
  | [] => ret tt
  | _ :: ds' => print (Verbose 303) ;; print_details ds'
  end.

(** Lines 206-323, the branch taken when the library was detected. *)
Definition wait_for_charts (debug : bool) : M (option string) unit :=
  verbose debug 208 ;;
  call L211_wait_for_function ;;
  try_except
    (call L217_wait_for_selector ;;
     verbose debug 219)
    (fun _ => verbose debug 222) ;;
  call L225_add_script_tag ;;
  call L291_wait_for_timeout ;;
  render_status <- evaluate L294_checkVegaRenderStatus
                     Readiness.checkVegaRenderStatus ;;
  (if debug : bool then
     print (Verbose 297) ;;
     if Readiness.allRendered render_status then print (Verbose 299)
     else print (Verbose 301) ;;
          print_details (Readiness.details render_status)
   else ret tt) ;;
  call L306_forceRenderCharts ;;
  verbose debug 308 ;;
  call L311_wait_for_timeout ;;
  render_status_after <- evaluate L314_checkVegaRenderStatus
                           Readiness.checkVegaRenderStatus ;;
  verbose debug 316 ;;
  if negb (Readiness.allRendered render_status_after) then
    verbose debug 321 ;;
    call L322_forceRenderCharts ;;
    call L323_wait_for_timeout
  else ret tt.

(** Lines 170-350, the body of the inner [try]. *)
Definition load_and_capture (u : url) (output_path : string) (debug : bool)
  : M (option string) Empty_set :=
  call L171_new_context ;;
  call L175_new_page ;;
  call (L178_goto u) ;;
  verbose debug 183 ;;
  call L186_wait_for_load_state ;;
  verbose debug 188 ;;
  call L191_wait_for_load_state ;;
  verbose debug 193 ;;
  has_vega <- evaluate L196_evaluate_has_vega has_vega_script ;;
  (if has_vega : bool then wait_for_charts debug else ret tt) ;;
  try_except
    (has_images <- evaluate L327_evaluate_has_images has_images_script ;;
     if has_images : bool then
       verbose debug 330 ;;
       call L331_wait_for_selector
     else ret tt)
    (fun _ => verbose debug 334) ;;
  call L337_wait_for_timeout ;;
  verbose debug 339 ;;
  height <- evaluate L342_evaluate_scrollHeight scrollHeight ;;
  call (L343_set_viewport_size height) ;;
  call (L346_screenshot output_path) ;;
  verbose debug 348 ;;
  return_ (Some output_path).

(** Lines 161-358: the browser, from launch to close. *)
Definition with_browser (u : url) (output_path : string) (debug : bool)
  : M (option string) Empty_set :=
  with_ (call L162_sync_playwright_enter)
        (fun _ => call L162_sync_playwright_exit)
        (fun _ =>
           call L164_launch ;;
           try_finally
             (try_except
                (load_and_capture u output_path debug)
                (fun e =>
                   print (Error_during_screenshot e) ;;
                   return_ None))
             (call L358_browser_close)).

(** Lines 146-159: the probe of the server's root. *)
Definition check_server (port : Z) (debug : bool) : M (option string) unit :=
  call L147_import_requests ;;
  try_except
    (call (L151_requests_get port) ;;
     if Z.eqb (status_code E) 200 then verbose debug 154
     else print (Server_status_not_200 (status_code E)))
    (fun e =>
       print (Cannot_connect_to_server e) ;;
       return_ None).

(** Lines 137-358: from the URL of the document to the captured image.
    os.path.relpath is taken at its value; it raises ValueError for an
    empty path, which [Console.capture_through] has. *)
Definition capture_through (port : Z) (html_file output_path : string)
    (debug : bool) : M (option string) Empty_set :=
  let rel_path := relpath (abspath E html_file) (project_root E) in
  let u := {| url_port := port; url_path := rel_path |} in
  verbose debug 142 ;;
  verbose debug 143 ;;
  verbose debug 144 ;;
  check_server port debug ;;
  with_browser u output_path debug.

(** Lines 135-358, the body of the outer [try]. *)
Definition serve_and_capture (html_file output_path : string) (debug : bool)
  : M (option string) Empty_set :=
  started <- invoke (start_http_server (project_root E) 0) ;;
  set_httpd (Some (snd started)) ;;
  capture_through (fst started) html_file output_path debug.

(** Lines 364-373, the outer [finally]. *)
Definition close_server (debug : bool) : M (option string) unit :=
  httpd <- get_httpd ;;
  match httpd with
  | Some h =>
      try_except_all
        (call L368_shutdown ;;
         server_close L369_server_close h ;;
         verbose debug 371)
        (ret tt)
  | None => ret tt
  end.

Definition convert_html_file_to_image (html_file : string)
    (output_path : option string) (debug : bool)
  : M (option string) Empty_set :=
  let output_path :=
    match output_path with
    | None => (splitext_root E html_file ++ ".png")%string
    | Some p => p
    end in
  verbose debug 126 ;;
  verbose debug 127 ;;
  set_httpd None ;;
  try_finally
    (try_except
       (serve_and_capture html_file output_path debug)
       (fun e =>
          print (Error_starting_server e) ;;
          return_ None))
    (close_server debug).

End WithEnv.

End Program.

(* ================================================================== *)
(** ** Vocabulary of the statements                                    *)
(* ================================================================== *)

Module Spec.
Import Py World Program.

(** How many of the calls in a trace satisfy [f]. *)
Definition count_sites (f : site -> bool) (d : list site) : nat :=
  List.length (filter f d).

(** The two places that run [window.forceRenderCharts()]. *)
Definition is_forceRenderCharts (s : site) : bool :=
  match s with
  | L306_forceRenderCharts | L322_forceRenderCharts => true
  | _ => false
  end.

(** Launching the browser, closing it, shutting the server down. *)
Definition is_lifecycle (s : site) : bool :=
  match s with
  | L164_launch | L358_browser_close | L368_shutdown => true
  | _ => false
  end.

Definition lifecycle (d : list site) : list site :=
  filter is_lifecycle d.

(** The liveness probes: requests.get at line 151 of html2image.py,
    urlopen at line 91 of html_server.py. *)
Definition is_probe (s : site) : bool :=
  match s with
  | L151_requests_get _ | H91_urlopen _ => true
  | _ => false
  end.

(** The calls whose exception nothing catches on the spot: all but the two
    selector waits and the image probe (their [except] only logs) and the
    server teardown (under the bare [except: pass]). *)
Definition critical (s : site) : bool :=
  match s with
  | L217_wait_for_selector | L327_evaluate_has_images
  | L331_wait_for_selector | L368_shutdown | L369_server_close => false
  | _ => true
  end.

(** Nothing raises. *)
Definition no_faults (E : env) : Prop :=
  forall s, raises E s = None.

(** [m] leaves sockets and the [httpd] variable alone, only appends to the
    trace, and appends at most [n] calls that satisfy [f]. *)
Definition appends {R A : Type} (f : site -> bool) (n : nat) (m : M R A)
  : Prop :=
  forall w,
    sockets (snd (m w)) = sockets w /\
    httpd_var (snd (m w)) = httpd_var w /\
    exists d, trace (snd (m w)) = trace w ++ d /\ count_sites f d <= n.

(** Every critical call of [d] came back without an exception. *)
Definition all_ok (E : env) (d : list site) : Prop :=
  forall s, In s d -> critical s = true -> raises E s = None.

(** [m] hands out a path only if it is [out] and nothing critical failed
    on the way; it runs on only if nothing critical failed. *)
Definition careful {A : Type} (E : env) (out : string)
    (m : M (option string) A) : Prop :=
  forall w,
    exists d, trace (snd (m w)) = trace w ++ d /\
      match fst (m w) with
      | Normal _ => all_ok E d
      | Returned (Some p) => p = out /\ all_ok E d
      | Returned None => True
      | Raised _ => True
      end.

(** [m] never ends in [return]. *)
Definition no_return {R A : Type} (m : M R A) : Prop :=
  forall w r, fst (m w) <> Returned r.

(** The browser's part of a trace: no launch at all, a launch that raised,
    or a launch followed by the close. *)
Definition browser_released (E : env) (d : list site) : Prop :=
  lifecycle d = []
  \/ (lifecycle d = [L164_launch] /\ raises E L164_launch <> None)
  \/ lifecycle d = [L164_launch; L358_browser_close].

(** [m] leaves sockets and the [httpd] variable alone, and whatever it
    launches it closes. *)
Definition scoped {R A : Type} (E : env) (m : M R A) : Prop :=
  forall w,
    sockets (snd (m w)) = sockets w /\
    httpd_var (snd (m w)) = httpd_var w /\
    exists d, trace (snd (m w)) = trace w ++ d /\ browser_released E d.

(** What lines 206-323 call when nothing raises: the second
    forceRenderCharts and its wait only after a check that still reports
    containers without a signal. *)
Definition charts_calls (E : env) : list site :=
  [L211_wait_for_function; L217_wait_for_selector; L225_add_script_tag;
   L291_wait_for_timeout; L294_checkVegaRenderStatus; L306_forceRenderCharts;
   L311_wait_for_timeout; L314_checkVegaRenderStatus]
  ++ (if Readiness.allRendered
           (Readiness.checkVegaRenderStatus (page_at E L314_checkVegaRenderStatus))
      then []
      else [L322_forceRenderCharts; L323_wait_for_timeout]).

(** The URL of line 139, for the server on [port]. *)
Definition document_url (E : env) (port : Z) (html_file : string) : url :=
  {| url_port := port;
     url_path := relpath (abspath E html_file) (project_root E) |}.

(** What lines 137-358 call, in order, when nothing raises. *)
Definition capture_calls (E : env) (port : Z) (html_file out : string)
  : list site :=
  [L147_import_requests; L151_requests_get port; L162_sync_playwright_enter;
   L164_launch; L171_new_context; L175_new_page;
   L178_goto (document_url E port html_file);
   L186_wait_for_load_state; L191_wait_for_load_state; L196_evaluate_has_vega]
  ++ (if has_vega_script (page_at E L196_evaluate_has_vega)
      then charts_calls E else [])
  ++ L327_evaluate_has_images
     :: (if has_images_script (page_at E L327_evaluate_has_images)
         then [L331_wait_for_selector] else [])
  ++ [L337_wait_for_timeout; L342_evaluate_scrollHeight;
      L343_set_viewport_size
        (scrollHeight (page_at E L342_evaluate_scrollHeight));
      L346_screenshot out; L358_browser_close; L162_sync_playwright_exit].

(** Everything a run calls, in order, when nothing raises. *)
Definition calls_when_quiet (E : env) (port : Z) (html_file out : string)
  : list site :=
  [L45_TCPServer; L53_thread_start; L56_sleep]
  ++ capture_calls E port html_file out
  ++ [L368_shutdown; L369_server_close].

(** [m] ends as [c], leaves sockets and the [httpd] variable alone, and
    adds exactly the calls [d] to the trace, from whatever world it starts. *)
Definition quietly {R A : Type} (m : M R A) (c : completion R A)
    (d : list site) : Prop :=
  forall w,
    fst (m w) = c /\
    sockets (snd (m w)) = sockets w /\
    httpd_var (snd (m w)) = httpd_var w /\
    trace (snd (m w)) = trace w ++ d.

(** A run of convert_html_file_to_image, seen from the caller. *)
Definition convert (E : env) (html_file : string) (output_path : option string)
    (debug : bool) (w : world) : result (option string) * world :=
  run (convert_html_file_to_image E html_file output_path debug) w.

(** The output path of line 123. *)
Definition resolved_output (E : env) (html_file : string)
    (output_path : option string) : string :=
  match output_path with
  | None => (splitext_root E html_file ++ ".png")%string
  | Some p => p
  end.

End Spec.

(* ================================================================== *)
(** ** Concrete pages and environments                                 *)
(* ================================================================== *)

Module Examples.
Import Py World.

Definition element (t : string) (cls : list string) (kids : list Dom.node)
  : Dom.node :=
  Dom.Element t "" cls None kids.

(** One chart container, and nothing drawn in it. *)
Definition stalled_page : page :=
  {| vegaEmbed_defined := true;
     document :=
       element "#document" []
         [element "html" []
            [element "body" [] [element "div" ["vega-embed"] []]]];
     scrollHeight := 900 |}.

(** One chart container with its canvas. *)
Definition drawn_page : page :=
  {| vegaEmbed_defined := true;
     document :=
       element "#document" []
         [element "html" []
            [element "body" []
               [element "div" ["vega-embed"] [element "canvas" [] []]]]];
     scrollHeight := 900 |}.

(** The project lives in /srv/project; the report below it, and a file
    that is not. *)
Definition report : string := "output/report.html".
Definition stray : string := "/tmp/report.html".

Definition abspath_here (p : string) : path :=
  if String.eqb p stray then ["tmp"; "report.html"]
  else ["srv"; "project"; "output"; "report.html"].

Definition splitext_here (p : string) : string :=
  if String.eqb p stray then "/tmp/report" else "output/report".

(** Nothing raises; the chart never renders. *)
Definition quiet_env : env :=
  {| raises := fun _ => None;
     status_code := 200;
     page_at := fun _ => stalled_page;
     project_root := ["srv"; "project"];
     getcwd := ["srv"; "project"];
     abspath := abspath_here;
     splitext_root := splitext_here |}.

Definition with_faults (faults : site -> option exc) : env :=
  {| raises := faults;
     status_code := 200;
     page_at := fun _ => drawn_page;
     project_root := ["srv"; "project"];
     getcwd := ["srv"; "project"];
     abspath := abspath_here;
     splitext_root := splitext_here |}.

(** The probe of line 151 cannot connect. *)
Definition unreachable_env : env :=
  with_faults (fun s =>
    match s with
    | L151_requests_get _ => Some (LibraryError "ConnectionError")
    | _ => None
    end).

(** The screenshot of line 346 cannot be written. *)
Definition unwritable_env : env :=
  with_faults (fun s =>
    match s with
    | L346_screenshot _ => Some (LibraryError "PermissionError")
    | _ => None
    end).

(** No urlopen of serve_directory ever gets through. *)
Definition never_up_env : env :=
  with_faults (fun s =>
    match s with
    | H91_urlopen _ => Some (LibraryError "URLError")
    | _ => None
    end).

(** Port 8000 is taken by a listener on every interface. *)
Definition busy_table : Net.table :=
  [{| Net.s_addr := Net.AnyInterface; Net.s_port := 8000;
      Net.s_listening := true |}].

End Examples.

(* ================================================================== *)
(** ** Further vocabulary for convert_html_file_to_image               *)
(* ================================================================== *)

Module Runs.
Import Py World Program Spec.

(** Everything lines 206-323 call: the waits for the library and its
    container, the script injection, the checks and the forced renders. *)
Definition is_chart_step (s : site) : bool :=
  match s with
  | L211_wait_for_function | L217_wait_for_selector | L225_add_script_tag
  | L291_wait_for_timeout | L294_checkVegaRenderStatus
  | L306_forceRenderCharts | L311_wait_for_timeout
  | L314_checkVegaRenderStatus | L322_forceRenderCharts
  | L323_wait_for_timeout => true
  | _ => false
  end.



Definition is_goto (s : site) : bool :=
  match s with L178_goto _ => true | _ => false end.


(** The last three steps of a capture: measuring the document, resizing
    the viewport, taking the screenshot. *)
Definition is_capture_step (s : site) : bool :=
  match s with
  | L342_evaluate_scrollHeight | L343_set_viewport_size _
  | L346_screenshot _ => true
  | _ => false
  end.

(** The socket start_http_server leaves in a table [t] when asked for
    port 0. *)
Definition served_socket (t : Net.table) : Net.socket :=
  {| Net.s_addr := Net.Loopback; Net.s_port := Net.ephemeral_port t;
     Net.s_listening := true |}.

(** What the caller of convert_html_file_to_image gets when lines 137-358
    end as [c]: a returned value as it is, an Exception as None (line 363),
    anything else as the exception itself. *)
Definition outcome (c : completion (option string) Empty_set)
  : result (option string) :=
  match c with
  | Normal a => match a with end
  | Returned r => Value r
  | Raised e => if is_Exception e then Value None else Uncaught e
  end.

(** What lines 364-373 call: server_close only after a shutdown that came
    back. *)
Definition teardown_calls (E : env) : list site :=
  match raises E L368_shutdown with
  | Some _ => [L368_shutdown]
  | None => [L368_shutdown; L369_server_close]
  end.

(** The socket table they leave, from the table [t] the call started with:
    the server's socket is gone only when both calls came back. *)
Definition sockets_after_teardown (E : env) (t : Net.table) : Net.table :=
  match raises E L368_shutdown, raises E L369_server_close with
  | None, None => t
  | _, _ => served_socket t :: t
  end.

(** Every call that nothing catches on the spot comes back normally, and
    what the others raise is an Exception. *)
Definition only_caught_faults (E : env) : Prop :=
  (forall s, critical s = true -> raises E s = None) /\
  (forall s e, raises E s = Some e -> is_Exception e = true) /\
  raises E L368_shutdown = None /\
  raises E L369_server_close = None.

(** [m] leaves sockets and the [httpd] variable alone, and the calls it
    adds, seen through [g], have the shape [Q]. *)
Definition shaped {R A : Type} (g : site -> bool) (Q : list site -> Prop)
    (m : M R A) : Prop :=
  forall w,
    sockets (snd (m w)) = sockets w /\
    httpd_var (snd (m w)) = httpd_var w /\
    exists d, trace (snd (m w)) = trace w ++ d /\ Q (filter g d).

(** The capture steps of a run, in the order the source has them, cut off
    wherever the run stopped. *)
Definition capture_order (E : env) (out : string) (l : list site) : Prop :=
  let h := scrollHeight (page_at E L342_evaluate_scrollHeight) in
  l = []
  \/ l = [L342_evaluate_scrollHeight]
  \/ l = [L342_evaluate_scrollHeight; L343_set_viewport_size h]
  \/ l = [L342_evaluate_scrollHeight; L343_set_viewport_size h;
          L346_screenshot out].

(** Two worlds that differ at most in what was printed. *)
Definition same_but_stdout (w1 w2 : world) : Prop :=
  sockets w1 = sockets w2 /\ trace w1 = trace w2 /\
  httpd_var w1 = httpd_var w2.

(** Started in such worlds, [m1] and [m2] end the same way in such
    worlds. *)
Definition agree {R A : Type} (m1 m2 : M R A) : Prop :=
  forall w1 w2,
    same_but_stdout w1 w2 ->
    fst (m1 w1) = fst (m2 w2) /\ same_but_stdout (snd (m1 w1)) (snd (m2 w2)).

(** [m] does nothing but print. *)
Definition silent {R : Type} (m : M R unit) : Prop :=
  forall w, fst (m w) = Normal tt /\ same_but_stdout (snd (m w)) w.

(** The lines a failure prints: lines 158, 353 and 360. *)
Definition is_diagnostic (msg : message) : bool :=
  match msg with
  | Cannot_connect_to_server _ | Error_during_screenshot _
  | Error_starting_server _ => true
  | _ => false
  end.

(** [m] only adds to what was printed, and when it returns None one of the
    lines it added is a diagnostic. *)
Definition loud {A : Type} (m : M (option string) A) : Prop :=
  forall w,
    exists out,
      stdout (snd (m w)) = stdout w ++ out /\
      (fst (m w) = Returned None -> existsb is_diagnostic out = true).

(** A [with] block that only reports what it was given and what it sees:
    the URL and the socket table. *)
Definition look_around (u : url) : M (url * Net.table) Empty_set :=
  fun w => (Returned (u, sockets w), w).

(** The calls of [k] attempts of the loop of lines 89-94 that all failed,
    from attempt [i] on: each urlopen followed by its sleep. *)
Definition failed_attempts (i k : nat) : list site :=
  flat_map (fun j => [H91_urlopen j; H94_sleep j]) (seq i k).

(** The socket serve_directory listens on, on port [q]. *)
Definition directory_socket (q : Z) : Net.socket :=
  {| Net.s_addr := Net.AnyInterface; Net.s_port := q;
     Net.s_listening := true |}.


(** A page without the library: no global, no script tag, one image. *)
Definition plain_page : page :=
  {| vegaEmbed_defined := false;
     document :=
       Examples.element "#document" []
         [Examples.element "html" []
            [Examples.element "body" [] [Examples.element "img" [] []]]];
     scrollHeight := 600 |}.

Definition plain_env : env :=
  {| raises := fun _ => None;
     status_code := 404;
     page_at := fun _ => plain_page;
     project_root := ["srv"; "project"];
     getcwd := ["srv"; "project"];
     abspath := Examples.abspath_here;
     splitext_root := Examples.splitext_here |}.


(** httpd.shutdown() raises. *)
Definition stuck_env : env :=
  Examples.with_faults (fun s =>
    match s with
    | L368_shutdown => Some (LibraryError "shutdown")
    | _ => None
    end).

(** browser.close() raises. *)
Definition unclosable_env : env :=
  Examples.with_faults (fun s =>
    match s with
    | L358_browser_close => Some (LibraryError "TargetClosedError")
    | _ => None
    end).

(** The server of serve_directory answers from the third probe on. *)
Definition slow_start_env : env :=
  Examples.with_faults (fun s =>
    match s with
    | H91_urlopen j =>
        if Nat.ltb j 2 then Some (LibraryError "URLError") else None
    | _ => None
    end).

(** Port 8000 is bound on the loopback address by a socket that does not
    listen. *)
Definition idle_table : Net.table :=
  [{| Net.s_addr := Net.Loopback; Net.s_port := 8000;
      Net.s_listening := false |}].

(** page.goto is interrupted from the keyboard. *)
Definition interrupted_env : env :=
  Examples.with_faults (fun s =>
    match s with
    | L178_goto _ => Some KeyboardInterrupt
    | _ => None
    end).

(** The container never attaches and no image becomes visible. *)
Definition impatient_env : env :=
  {| raises := fun s =>
       match s with
       | L217_wait_for_selector | L331_wait_for_selector =>
           Some (LibraryError "TimeoutError")
       | _ => None
       end;
     status_code := 200;
     page_at := fun _ => plain_page;
     project_root := ["srv"; "project"];
     getcwd := ["srv"; "project"];
     abspath := Examples.abspath_here;
     splitext_root := Examples.splitext_here |}.

End Runs.

(* ================================================================== *)
(** ** html_server.py: get_project_root and the file check of main     *)
(* ================================================================== *)

Module Cli.
Import Py.

(** os.path.dirname on a normalised absolute path: the path without its
    last component; the root directory is its own parent. *)
Definition dirname (p : path) : path := removelast p.

Definition path_eqb (a b : path) : bool :=
  if list_eq_dec string_dec a b then true else false.

(** The loop of lines 109-115, with at most [fuel] iterations: [Some r] is
    what the function returns ([r] is None for Python's None), and None
    stands for a loop that has not returned by then. [exists_] is
    os.path.exists. *)
Fixpoint climb (exists_ : path -> bool) (fuel : nat) (current_path : path)
  : option (option path) :=
  match fuel with
  | O => None
  | S fuel' =>
      let parent := dirname current_path in
      if path_eqb parent current_path then Some None
      else if exists_ (parent ++ ["storyteller"]) then Some (Some parent)
      else climb exists_ fuel' parent
  end.

(** get_project_root, for a module that lies in the directory [here]
    (line 107). *)
Definition get_project_root (exists_ : path -> bool) (here : path)
  : option (option path) :=
  climb exists_ (S (List.length here)) here.

(** A tree in which only /srv/project holds an entry named storyteller,
    and the directory of html_server.py in it. *)
Definition project_tree (p : path) : bool :=
  path_eqb p ["srv"; "project"; "storyteller"].

Definition utils_directory : path :=
  ["srv"; "project"; "storyteller"; "algorithm"; "utils"].

(** The string os.path.abspath returns for a path. *)
Fixpoint render_components (p : path) : string :=
  match p with
  | [] => ""
  | c :: p' => ("/" ++ c ++ render_components p')%string
  end.

Definition render (p : path) : string :=
  match p with
  | [] => "/"
  | _ => render_components p
  end.

(** Lines 142-146 of main: the path webbrowser.open is given, after the
    URL of the server, or None when the error of line 146 is printed
    instead. [startswith] compares the two strings. *)
Definition file_target (file_path dir_path : path) : option path :=
  if String.prefix (render dir_path) (render file_path)
  then Some (relpath file_path dir_path)
  else None.

End Cli.

(* ================================================================== *)
(** ** window.forceRenderCharts (html2image.py, lines 258-287)         *)
(* ================================================================== *)

Module Rerender.
Import Dom.

(** One value of window.chartInstances: something falsy, or a chart with
    or without a view; the boolean of a view tells whether the statements
    under [try] (resize().run() and the log of chart.el.id) get through. *)
Inductive instance : Type :=
| Falsy
| Chart (view : option bool).

Inductive event : Type :=
| Resize_run (i : nat)        (* chart.view.resize().run(), i-th value *)
| Console_error (i : nat)     (* the catch clause *)
| Dispatch_resize (i : nat).  (* window.dispatchEvent, i-th container *)

(** The callback of the first forEach, on the [i]-th value. *)
Definition redraw (i : nat) (c : instance) : list event :=
  match c with
  | Chart (Some true) => [Resize_run i]
  | Chart (Some false) => [Resize_run i; Console_error i]
  | _ => []
  end.

(** The callback of the second forEach, on the [i]-th container. *)
Definition nudge (i : nat) (container : node) : list event :=
  if negb (truthy (querySelector (ByTag "canvas") container))
  then [Dispatch_resize i]
  else [].

Fixpoint forEach {X : Type} (f : nat -> X -> list event) (xs : list X)
    (start : nat) : list event :=
  match xs with
  | [] => []
  | x :: rest => f start x ++ forEach f rest (S start)
  end.

(** What the function does, for [chartInstances] the values of
    window.chartInstances (None when the global is not set), and what it
    returns. *)
Definition forceRenderCharts (chartInstances : option (list instance))
    (p : page) : list event * string :=
  (match chartInstances with
   | Some charts => forEach redraw charts 0
   | None => []
   end
   ++ forEach nudge (querySelectorAll (ByClass "vega-embed") (document p)) 0,
   "已尝试重新渲染所有图表").

Definition is_dispatch (e : event) : bool :=
  match e with Dispatch_resize _ => true | _ => false end.

End Rerender.

(* ================================================================== *)
(** ** html2image.py: html_to_image (lines 60-103)                     *)
(* ================================================================== *)

Module Snapshot.
Import Py World.

(** The calls of html_to_image, in the order of the source. *)
Inductive step : Type :=
| Playwright_enter                      (* line 73 *)
| Launch                                (* line 75 *)
| New_page                              (* line 76 *)
| Set_viewport_size (width height : Z)  (* lines 79 and 87 *)
| Set_content (html : string)           (* line 82 *)
| Evaluate_scrollHeight                 (* line 86 *)
| Makedirs (dir : string)               (* line 92 *)
| Screenshot (path : string)            (* line 96 *)
| Close                                 (* line 102 *)
| Playwright_exit.                      (* leaving line 73 *)

Record surroundings : Type := {
  (** the exception the call raises, if it does *)
  fails : step -> option exc;
  (** document.documentElement.scrollHeight of the loaded content *)
  measured : Z;
  (** os.path.join(os.path.dirname(__file__), "../../../output/temp") *)
  output_dir : string
}.

(** A computation that appends its calls to a trace and ends in a value or
    in an exception. *)
Definition T (A : Type) : Type := list step -> result A * list step.

Definition unit_ {A : Type} (a : A) : T A := fun tr => (Value a, tr).

Definition then_ {A B : Type} (m : T A) (k : A -> T B) : T B :=
  fun tr =>
    match m tr with
    | (Value a, tr') => k a tr'
    | (Uncaught e, tr') => (Uncaught e, tr')
    end.

Section WithSurroundings.

Variable S : surroundings.

Definition act (s : step) : T unit :=
  fun tr =>
    (match fails S s with
     | Some e => Uncaught e
     | None => Value tt
     end, tr ++ [s]).

(** [async with async_playwright() as p: body]. *)
Definition with_playwright {A : Type} (body : T A) : T A :=
  then_ (act Playwright_enter)
    (fun _ tr =>
       let (r, tr') := body tr in
       match act Playwright_exit tr' with
       | (Value _, tr'') => (r, tr'')
       | (Uncaught e, tr'') => (Uncaught e, tr'')
       end).

(** [height or 800]: None and 0 are falsy. *)
Definition or_800 (height : option Z) : Z :=
  match height with
  | None => 800
  | Some h => if Z.eqb h 0 then 800 else h
  end.

Definition html_to_image (html_content : string)
    (output_path : option string) (width : Z) (height : option Z)
  : T string :=
  with_playwright
    (then_ (act Launch) (fun _ =>
     then_ (act New_page) (fun _ =>
     then_ (act (Set_viewport_size width (or_800 height))) (fun _ =>
     then_ (act (Set_content html_content)) (fun _ =>
     then_ (match height with
            | None =>
                then_ (act Evaluate_scrollHeight) (fun _ =>
                act (Set_viewport_size width (measured S)))
            | Some _ => unit_ tt
            end) (fun _ =>
     then_ (match output_path with
            | None =>
                then_ (act (Makedirs (output_dir S))) (fun _ =>
                unit_ (output_dir S ++ "/report_snapshot.png")%string)
            | Some p => unit_ p
            end) (fun output_path =>
     then_ (act (Screenshot output_path)) (fun _ =>
     then_ (act Close) (fun _ =>
     unit_ output_path))))))))).

(** convert_html_to_image (lines 105-107): width and height are left at
    their defaults. *)
Definition convert_html_to_image (html_content : string)
    (output_path : option string) : T string :=
  html_to_image html_content output_path 1280 None.

End WithSurroundings.

(** The content cannot be loaded. *)
Definition offline : surroundings :=
  {| fails := fun s =>
       match s with
       | Set_content _ => Some (LibraryError "TimeoutError")
       | _ => None
       end;
     measured := 2400;
     output_dir := "/srv/project/output/temp" |}.

End Snapshot.

(* ================================================================== *)
(** ** convert_html_file_to_image where print and relpath can raise    *)
(* ================================================================== *)

Module Console.
Import Py World Program Spec Runs.
Local Open Scope py_scope.

(** [Program] takes print for a statement that always comes back and
    os.path.relpath for a function that always has a value. That is so on
    a terminal that takes every line and for a path that is not empty; it
    is not so everywhere. This module has the programs of html2image.py
    once more, statement by statement, with both able to raise; the
    library calls, the monad and the world are those of [Program]. What
    stays a plain value here is total on strings: os.path.splitext (line
    123), the f-strings, and line 130, where __file__ is an absolute path
    (Python 3.9 and later), so that os.path.abspath does not ask for the
    working directory. *)
Record platform : Type := {
  (** the exception sys.stdout raises on a line, given what it has taken
      so far: UnicodeEncodeError when its encoding cannot take the text
      (every line this module prints holds Chinese text, some an emoji),
      BrokenPipeError or ValueError when it is closed; None when the line
      goes through *)
  refuses : list message -> message -> option exc;
  (** the exception traceback.print_exc() raises when it writes to
      sys.stderr (lines 355 and 362), if it does *)
  stderr_refuses : option exc;
  (** ntpath only: the document is on another drive than the project root.
      posixpath has no drives *)
  on_another_drive : string -> bool
}.

(** Every line goes through, to stdout and to stderr. *)
Definition takes_every_line (P : platform) : Prop :=
  (forall out m, refuses P out m = None) /\ stderr_refuses P = None.

(** os.path.relpath(html_file, project_root) has a value: posixpath.relpath
    raises ValueError for an empty path (posixpath.py, line 487), ntpath's
    also for a path on another drive than [start]. *)
Definition relpath_defined (P : platform) (html_file : string) : Prop :=
  html_file <> "" /\ on_another_drive P html_file = false.

(** [e] is an exception that writing a line can raise on [P]. *)
Definition raised_by_print (P : platform) (e : exc) : Prop :=
  (exists out m, refuses P out m = Some e) \/ stderr_refuses P = Some e.

Section WithPlatform.

Variable P : platform.
Variable E : env.

(** print(...): the line is appended to what was printed, unless stdout
    raises on it. *)
Definition say {R : Type} (m : message) : M R unit :=
  fun w =>
    match refuses P (stdout w) m with
    | Some e => (Raised e, w)
    | None => print m w
    end.

(** [if debug: print(...)] at the given line. *)
Definition verbose {R : Type} (debug : bool) (line : nat) : M R unit :=
  if debug then say (Verbose line) else ret tt.

(** traceback.print_exc(), lines 355 and 362. *)
Definition print_exc {R : Type} : M R unit :=
  fun w =>
    match stderr_refuses P with
    | Some e => (Raised e, w)
    | None => (Normal tt, w)
    end.

(** os.path.relpath(html_file, project_root), line 138. *)
Definition os_path_relpath {R : Type} (html_file : string) : M R path :=
  if String.eqb html_file "" || on_another_drive P html_file
  then raise (LibraryError "ValueError")
  else ret (relpath (abspath E html_file) (project_root E)).

(** *** start_http_server (lines 30-58) *)

Definition start_http_server (root_dir : path) (port : Z)
  : M (Z * Net.httpd) Empty_set :=
  httpd <- TCPServer E L45_TCPServer "localhost" port
             Http.SimpleHTTPServerHandler root_dir ;;
  let actual_port := Net.server_port httpd in
  say (Started_on_port actual_port) ;;
  call E L53_thread_start ;;
  call E L56_sleep ;;
  return_ (actual_port, httpd).

(** *** convert_html_file_to_image (lines 109-373) *)

(** Lines 302-303: one line printed per container. *)
Fixpoint print_details {R : Type} (ds : list Readiness.detail) : M R unit :=
  match ds with
  | [] => ret tt
  | _ :: ds' => say (Verbose 303) ;; print_details ds'
  end.

(** Lines 206-323, the branch taken when the library was detected. *)
Definition wait_for_charts (debug : bool) : M (option string) unit :=
  verbose debug 208 ;;
  call E L211_wait_for_function ;;
  try_except
    (call E L217_wait_for_selector ;;
     verbose debug 219)
    (fun _ => verbose debug 222) ;;
  call E L225_add_script_tag ;;
  call E L291_wait_for_timeout ;;
  render_status <- evaluate E L294_checkVegaRenderStatus
                     Readiness.checkVegaRenderStatus ;;
  (if debug : bool then
     say (Verbose 297) ;;
     if Readiness.allRendered render_status then say (Verbose 299)
     else say (Verbose 301) ;;
          print_details (Readiness.details render_status)
   else ret tt) ;;
  call E L306_forceRenderCharts ;;
  verbose debug 308 ;;
  call E L311_wait_for_timeout ;;
  render_status_after <- evaluate E L314_checkVegaRenderStatus
                           Readiness.checkVegaRenderStatus ;;
  verbose debug 316 ;;
  if negb (Readiness.allRendered render_status_after) then
    verbose debug 321 ;;
    call E L322_forceRenderCharts ;;
    call E L323_wait_for_timeout
  else ret tt.

(** Lines 170-350, the body of the inner [try]. *)
Definition load_and_capture (u : url) (output_path : string) (debug : bool)
  : M (option string) Empty_set :=
  call E L171_new_context ;;
  call E L175_new_page ;;
  call E (L178_goto u) ;;
  verbose debug 183 ;;
  call E L186_wait_for_load_state ;;
  verbose debug 188 ;;
  call E L191_wait_for_load_state ;;
  verbose debug 193 ;;
  has_vega <- evaluate E L196_evaluate_has_vega has_vega_script ;;
  (if has_vega : bool then wait_for_charts debug else ret tt) ;;
  try_except
    (has_images <- evaluate E L327_evaluate_has_images has_images_script ;;
     if has_images : bool then
       verbose debug 330 ;;
       call E L331_wait_for_selector
     else ret tt)
    (fun _ => verbose debug 334) ;;
  call E L337_wait_for_timeout ;;
  verbose debug 339 ;;
  height <- evaluate E L342_evaluate_scrollHeight scrollHeight ;;
  call E (L343_set_viewport_size height) ;;
  call E (L346_screenshot output_path) ;;
  verbose debug 348 ;;
  return_ (Some output_path).

(** Lines 161-358: the browser, from launch to close. *)
Definition with_browser (u : url) (output_path : string) (debug : bool)
  : M (option string) Empty_set :=
  with_ (call E L162_sync_playwright_enter)
        (fun _ => call E L162_sync_playwright_exit)
        (fun _ =>
           call E L164_launch ;;
           try_finally
             (try_except
                (load_and_capture u output_path debug)
                (fun e =>
                   say (Error_during_screenshot e) ;;
                   print_exc ;;
                   return_ None))
             (call E L358_browser_close)).

(** Lines 146-159: the probe of the server's root. *)
Definition check_server (port : Z) (debug : bool) : M (option string) unit :=
  call E L147_import_requests ;;
  try_except
    (call E (L151_requests_get port) ;;
     if Z.eqb (status_code E) 200 then verbose debug 154
     else say (Server_status_not_200 (status_code E)))
    (fun e =>
       say (Cannot_connect_to_server e) ;;
       return_ None).

(** Lines 137-358: from the URL of the document to the captured image. *)
Definition capture_through (port : Z) (html_file output_path : string)
    (debug : bool) : M (option string) Empty_set :=
  rel_path <- os_path_relpath html_file ;;
  let u := {| url_port := port; url_path := rel_path |} in
  verbose debug 142 ;;
  verbose debug 143 ;;
  verbose debug 144 ;;
  check_server port debug ;;
  with_browser u output_path debug.

(** Lines 135-358, the body of the outer [try]. *)
Definition serve_and_capture (html_file output_path : string) (debug : bool)
  : M (option string) Empty_set :=
  started <- invoke (start_http_server (project_root E) 0) ;;
  set_httpd (Some (snd started)) ;;
  capture_through (fst started) html_file output_path debug.

(** Lines 364-373, the outer [finally]. *)
Definition close_server (debug : bool) : M (option string) unit :=
  httpd <- get_httpd ;;
  match httpd with
  | Some h =>
      try_except_all
        (call E L368_shutdown ;;
         server_close E L369_server_close h ;;
         verbose debug 371)
        (ret tt)
  | None => ret tt
  end.

Definition convert_html_file_to_image (html_file : string)
    (output_path : option string) (debug : bool)
  : M (option string) Empty_set :=
  let output_path :=
    match output_path with
    | None => (splitext_root E html_file ++ ".png")%string
    | Some p => p
    end in
  verbose debug 126 ;;
  verbose debug 127 ;;
  set_httpd None ;;
  try_finally
    (try_except
       (serve_and_capture html_file output_path debug)
       (fun e =>
          say (Error_starting_server e) ;;
          print_exc ;;
          return_ None))
    (close_server debug).

(** A run of convert_html_file_to_image, seen from the caller. *)
Definition convert (html_file : string) (output_path : option string)
    (debug : bool) (w : world) : result (option string) * world :=
  run (convert_html_file_to_image html_file output_path debug) w.

(** What the caller of a body gets when the body ends as [c]. *)
Definition reaches_caller {R : Type} (c : completion R Empty_set)
  : result R :=
  match c with
  | Normal a => match a with end
  | Returned r => Value r
  | Raised e => Uncaught e
  end.

(** What the caller gets when an exception [e] reaches one of the
    [except Exception] clauses of lines 352 and 359: None, unless [e] is no
    Exception, or printing the diagnostic raises in its turn. *)
Definition handled (e : exc) (r : result (option string)) : Prop :=
  if is_Exception e
  then r = Value None \/ (exists e', r = Uncaught e' /\ raised_by_print P e')
  else r = Uncaught e.

(** What the caller gets when lines 137-358 end as [c]. *)
Definition after_capture (c : completion (option string) Empty_set)
    (r : result (option string)) : Prop :=
  match c with
  | Normal a => match a with end
  | Returned v => r = Value v
  | Raised e => handled e r
  end.

End WithPlatform.

(** [m] and [m'] do the same from every world. *)
Definition same {R A : Type} (m m' : M R A) : Prop :=
  forall w, m w = m' w.

(** The calls of [d] that [g] selects are the first of [xs], in the order
    of [xs]; all of them when the block runs off its end. *)
Definition ordered {R A : Type} (g : site -> bool) (xs : list site)
    (m : M R A) : Prop :=
  forall w,
    sockets (snd (m w)) = sockets w /\
    httpd_var (snd (m w)) = httpd_var w /\
    exists d,
      trace (snd (m w)) = trace w ++ d /\
      (exists rest, xs = filter g d ++ rest) /\
      (forall a, fst (m w) = Normal a -> filter g d = xs).

(** The first calls of the chart steps, in their order. *)
Definition begins_charts (E : env) (l : list site) : Prop :=
  exists rest, charts_calls E = l ++ rest.

(** The calls outside the tolerated waits come back, and what the tolerated
    waits of lines 217, 327 and 331 raise is an Exception. *)
Definition capture_goes_through (E : env) : Prop :=
  (forall s, critical s = true -> raises E s = None) /\
  (forall s e,
     In s [L217_wait_for_selector; L327_evaluate_has_images;
           L331_wait_for_selector] ->
     raises E s = Some e -> is_Exception e = true).



(** A UTF-8 terminal on a POSIX machine. *)
Definition terminal : platform :=
  {| refuses := fun _ _ => None;
     stderr_refuses := None;
     on_another_drive := fun _ => false |}.

(** A stdout whose encoding is ASCII: none of the lines of this module can
    be encoded. stderr escapes what it cannot encode. *)
Definition ascii_stdout : platform :=
  {| refuses := fun _ _ => Some (LibraryError "UnicodeEncodeError");
     stderr_refuses := None;
     on_another_drive := fun _ => false |}.

(** The chart never renders and the screenshot cannot be written. *)
Definition stalled_unwritable_env : env :=
  {| raises := fun s =>
       match s with
       | L346_screenshot _ => Some (LibraryError "PermissionError")
       | _ => None
       end;
     status_code := 200;
     page_at := fun _ => Examples.stalled_page;
     project_root := ["srv"; "project"];
     getcwd := ["srv"; "project"];
     abspath := Examples.abspath_here;
     splitext_root := Examples.splitext_here |}.

(** The chart never renders, its container never attaches and no image
    becomes visible: the waits of lines 217 and 331 time out. *)
Definition impatient_stalled_env : env :=
  {| raises := fun s =>
       match s with
       | L217_wait_for_selector | L331_wait_for_selector =>
           Some (LibraryError "TimeoutError")
       | _ => None
       end;
     status_code := 200;
     page_at := fun _ => Examples.stalled_page;
     project_root := ["srv"; "project"];
     getcwd := ["srv"; "project"];
     abspath := Examples.abspath_here;
     splitext_root := Examples.splitext_here |}.


(** Port 8000 is bound on one interface of the machine, not the loopback
    one. *)
Definition elsewhere_table : Net.table :=
  [{| Net.s_addr := Net.Interface "192.168.1.5"; Net.s_port := 8000;
      Net.s_listening := true |}].

End Console.

(* ================================================================== *)
(** ** html2image.py: test_html_to_image (lines 375-407)               *)
(* ================================================================== *)

Module Selftest.
Import Py World Spec.

(** What the function prints (lines 387, 390, 392, 407) and the commands
    it gets started. *)
Inductive event : Type :=
| Print_missing (html : string)
| Print_starting (html : string)
| Print_done (output_path : option string)
| Command_started (argv : list string)
| Print_cannot_open (e : exc).

Record host : Type := {
  (** os.path.exists *)
  exists_ : string -> bool;
  (** platform.system() *)
  system : string;
  (** the exception subprocess.call raises on a list of strings, if any
      (FileNotFoundError when the command is missing); None when the
      command was started and waited for *)
  call_raises : list string -> option exc;
  (** the exception sys.stdout raises on a line of this function, if it
      does *)
  line_refused : event -> option exc
}.

(** The arguments as strings, when none of them is None. *)
Fixpoint all_strings (argv : list (option string)) : option (list string) :=
  match argv with
  | [] => Some []
  | None :: _ => None
  | Some a :: rest =>
      match all_strings rest with
      | Some args => Some (a :: args)
      | None => None
      end
  end.

Section WithHost.

Variable H : host.

(** What is printed and started, and how the statement ends. *)
Definition T : Type := (list event * result unit)%type.

(** print(...), then [k]. *)
Definition line (ev : event) (k : T) : T :=
  match line_refused H ev with
  | Some e => ([], Uncaught e)
  | None => (ev :: fst k, snd k)
  end.

(** The [except Exception] of lines 406-407. *)
Definition cannot_open (e : exc) : T :=
  if is_Exception e
  then line (Print_cannot_open e) ([], Value tt)
  else ([], Uncaught e).

(** One subprocess.call under the [try] of lines 395-407. With None among
    the arguments it raises TypeError while it prepares them (os.fsencode
    on POSIX, list2cmdline on Windows), before any process is started. *)
Definition attempt (argv : list (option string)) : T :=
  match all_strings argv with
  | None => cannot_open (LibraryError "TypeError")
  | Some args =>
      match call_raises H args with
      | Some e => cannot_open e
      | None => ([Command_started args], Value tt)
      end
  end.

(** Lines 395-407. *)
Definition open_image (output_path : option string) : T :=
  if String.eqb (system H) "Darwin" then attempt [Some "open"; output_path]
  else if String.eqb (system H) "Windows"
       then attempt [Some "start"; output_path]
  else if String.eqb (system H) "Linux"
       then attempt [Some "xdg-open"; output_path]
  else ([], Value tt).

(** platform.system() is one of the three the function knows. *)
Definition known_system : bool :=
  String.eqb (system H) "Darwin" || String.eqb (system H) "Windows"
  || String.eqb (system H) "Linux".

(** test_html_to_image, for the parsed arguments --html, --out and
    --debug. *)
Definition test_html_to_image (P : Console.platform) (E : env)
    (html : string) (out : option string) (debug : bool) (w : world)
  : T * world :=
  if negb (exists_ H html)
  then (line (Print_missing html) ([], Value tt), w)
  else
    match line_refused H (Print_starting html) with
    | Some e => (([], Uncaught e), w)
    | None =>
        match Console.convert P E html out debug w with
        | (Uncaught e, w') => (([Print_starting html], Uncaught e), w')
        | (Value output_path, w') =>
            let rest := line (Print_done output_path)
                             (open_image output_path) in
            ((Print_starting html :: fst rest, snd rest), w')
        end
    end.

End WithHost.

(** A Linux machine on which the report exists, xdg-open is installed and
    stdout takes every line. *)
Definition linux_box : host :=
  {| exists_ := fun _ => true;
     system := "Linux";
     call_raises := fun _ => None;
     line_refused := fun _ => None |}.

End Selftest.

(* ================================================================== *)
(** * Properties                                                       *)
(* ================================================================== *)

Import Py World Program Spec.

Unset Implicit Arguments.

(** ** The readiness check *)

Section ReadinessFacts.
Import Dom Readiness.

Lemma truthy_querySelector (sel : selector) (c : node) :
  truthy (querySelector sel c) = true <->
  exists n, In n (descendants c) /\ matches sel n = true.
Proof.
  unfold querySelector, querySelectorAll.
  induction (descendants c) as [|x l IH]; simpl.
  - split; [discriminate | intros (n & [] & _)].
  - destruct (matches sel x) eqn:Hx; simpl.
    + split; [intros _; exists x; auto | reflexivity].
    + rewrite IH. split.
      * intros (n & Hin & Hm). exists n; auto.
      * intros (n & [<- | Hin] & Hm); [congruence | exists n; auto].
Qed.

Lemma mem_string_In (x : string) (l : list string) :
  mem_string x l = true <-> In x l.
Proof.
  unfold mem_string. rewrite existsb_exists. split.
  - intros (y & Hin & Heq). apply String.eqb_eq in Heq. now subst.
  - intros Hin. exists x. split; [assumption | apply String.eqb_refl].
Qed.

Lemma rendered_iff (c : node) :
  rendered c = true <-> has_canvas c \/ has_svg c \/ has_marks c.
Proof.
  unfold rendered, inspect, has_canvas, has_svg, has_marks; simpl.
  rewrite !orb_true_iff, !truthy_querySelector; simpl.
  setoid_rewrite String.eqb_eq. setoid_rewrite mem_string_In.
  tauto.
Qed.

Lemma forEach_flag (cs : list node) :
  forall i acc, fst (forEach cs i acc) = fst acc && forallb rendered cs.
Proof.
  induction cs as [|c cs IH]; intros i acc; simpl.
  - now rewrite andb_true_r.
  - rewrite IH. unfold visit, rendered, inspect; simpl.
    destruct (truthy (querySelector (ByTag "canvas") c)
              || truthy (querySelector (ByClass "marks") c)
              || truthy (querySelector (ByTag "svg") c)); simpl.
    + reflexivity.
    + now rewrite andb_false_r.
Qed.

(** C5. The three flags reported for a container say whether a canvas, an
    svg, a ".marks" element exists below it; a container counts as rendered
    exactly when one of the three does (any one), and
    checkVegaRenderStatus reports allRendered exactly when every container
    it discovered counts as rendered. *)
Theorem allRendered_iff_every_container_has_a_signal (p : page) :
  (forall c i,
     (hasCanvas (inspect c i) = true <-> has_canvas c) /\
     (hasSVG (inspect c i) = true <-> has_svg c) /\
     (hasMarks (inspect c i) = true <-> has_marks c)) /\
  (allRendered (checkVegaRenderStatus p) = true <->
   Forall (fun c => has_canvas c \/ has_svg c \/ has_marks c) (discovered p)).
Proof.
  split.
  - intros c i. unfold inspect, has_canvas, has_svg, has_marks; simpl.
    rewrite !truthy_querySelector; simpl.
    setoid_rewrite String.eqb_eq. setoid_rewrite mem_string_In.
    repeat split; auto.
  - unfold checkVegaRenderStatus, discovered; simpl.
    rewrite forEach_flag; simpl.
    rewrite forallb_forall, Forall_forall.
    split; intros H c Hc; apply rendered_iff; auto.
Qed.

End ReadinessFacts.

(** ** The response headers *)

Section HeaderFacts.
Import Http.

Lemma send_header_queues (k v : string) (h : handler) :
  sends_headers h = true ->
  let h' := send_header k v h in
  sends_headers h' = true /\ cls h' = cls h /\ wfile h' = wfile h /\
  headers_buffer h' = headers_buffer h ++ [(k, v)].
Proof.
  intros Hv. unfold send_header. rewrite Hv. cbn. auto.
Qed.

Lemma queue_headers (hs : list header) :
  forall h,
    sends_headers h = true ->
    let h' := fold_left (fun acc kv => send_header (fst kv) (snd kv) acc) hs h in
    sends_headers h' = true /\ cls h' = cls h /\ wfile h' = wfile h /\
    headers_buffer h' = headers_buffer h ++ hs.
Proof.
  induction hs as [|[k v] hs IH]; intros h Hv; cbn [fold_left fst snd].
  - cbv zeta. now rewrite app_nil_r.
  - destruct (send_header_queues k v h Hv) as (Hv1 & Hc1 & Hw1 & Hb1).
    destruct (IH (send_header k v h) Hv1) as (Hv2 & Hc2 & Hw2 & Hb2).
    cbv zeta in *. rewrite Hc2, Hw2, Hb2, Hc1, Hw1, Hb1, <- app_assoc. auto.
Qed.

Lemma queue_nothing (hs : list header) :
  forall h,
    sends_headers h = false ->
    fold_left (fun acc kv => send_header (fst kv) (snd kv) acc) hs h = h.
Proof.
  induction hs as [|[k v] hs IH]; intros h Hv; cbn [fold_left fst snd];
    [reflexivity|].
  assert (Hh : send_header k v h = h) by (unfold send_header; now rewrite Hv).
  rewrite Hh. now apply IH.
Qed.

Lemma base_end_headers_flushes (h : handler) :
  sends_headers h = true ->
  wfile (base_end_headers h) = wfile h ++ [headers_buffer h].
Proof. intros Hv. unfold base_end_headers. now rewrite Hv. Qed.

(** C10. To a request whose version is not HTTP/0.9, every response of
    SimpleHTTPServerHandler ends its header block with the three CORS
    headers, and a response of SimpleHTTPServerWithContentTypes carries the
    headers the inherited code queued and nothing else. To an HTTP/0.9
    request (a request line without a version, or one that cannot be
    parsed) neither class writes a header block at all: the handler is
    left as it was. *)
Theorem cors_headers_by_handler_class (hs : list header) (h : handler) :
  if sends_headers h then
    wfile (respond hs h) =
    wfile h ++
    [headers_buffer h ++ hs ++
     match cls h with
     | SimpleHTTPServerHandler => cors_headers
     | SimpleHTTPServerWithContentTypes => []
     end]
  else respond hs h = h.
Proof.
  unfold respond, end_headers.
  destruct (sends_headers h) eqn:Hv.
  - destruct (queue_headers hs h Hv) as (Hv0 & Hc & Hw & Hb).
    cbv zeta in *.
    set (h0 := fold_left (fun acc kv => send_header (fst kv) (snd kv) acc)
                 hs h) in *.
    clearbody h0.
    rewrite Hc. destruct (cls h).
    + destruct (send_header_queues "Access-Control-Allow-Origin" "*" h0 Hv0)
        as (Hv1 & _ & Hw1 & Hb1). cbv zeta in *.
      set (h1 := send_header "Access-Control-Allow-Origin" "*" h0) in *.
      clearbody h1.
      destruct (send_header_queues "Access-Control-Allow-Methods"
                  "GET, POST, OPTIONS" h1 Hv1) as (Hv2 & _ & Hw2 & Hb2).
      cbv zeta in *.
      set (h2 := send_header "Access-Control-Allow-Methods" _ h1) in *.
      clearbody h2.
      destruct (send_header_queues "Access-Control-Allow-Headers"
                  "Origin, Content-Type, Accept" h2 Hv2)
        as (Hv3 & _ & Hw3 & Hb3).
      cbv zeta in *.
      rewrite (base_end_headers_flushes _ Hv3).
      rewrite Hw3, Hb3, Hw2, Hb2, Hw1, Hb1, Hw, Hb.
      unfold cors_headers. now rewrite <- !app_assoc.
    + rewrite (base_end_headers_flushes _ Hv0), Hw, Hb.
      now rewrite app_nil_r.
  - rewrite (queue_nothing hs h Hv).
    destruct (cls h); unfold base_end_headers, send_header;
      repeat (rewrite Hv; cbv iota); reflexivity.
Qed.

(** C10, as stated, fails: a response of SimpleHTTPServerWithContentTypes
    to an HTTP/1.1 request goes out without
    Access-Control-Allow-Origin. *)
Lemma content_types_handler_sends_no_cors :
  ~ (forall (c : handler_class) (version : string) (hs : list header),
       Forall (fun block => has_header "Access-Control-Allow-Origin" block = true)
              (wfile (respond hs (fresh c version)))).
Proof.
  intros H.
  specialize (H SimpleHTTPServerWithContentTypes "HTTP/1.1"
                [("Content-type", "text/html")]).
  inversion H as [|b l Hb _ Heq]; subst. vm_compute in Hb. discriminate.
Qed.

End HeaderFacts.

(** ** Rules for the completion monad *)

Section TraceRules.

Variable E : env.
Variable f : site -> bool.

Lemma count_sites_app (d1 d2 : list site) :
  count_sites f (d1 ++ d2) = (count_sites f d1 + count_sites f d2)%nat.
Proof. unfold count_sites. now rewrite filter_app, length_app. Qed.

Lemma appends_weaken {R A} (n n' : nat) (m : M R A) :
  appends f n m -> n <= n' -> appends f n' m.
Proof.
  intros H Hle w. destruct (H w) as (Hs & Hh & d & Ht & Hc).
  repeat split; try assumption. exists d. split; [assumption | lia].
Qed.

Lemma appends_ret {R A} (a : A) : appends f 0 (@ret R A a).
Proof.
  intros w; simpl. repeat split. exists []. now rewrite app_nil_r.
Qed.

Lemma appends_return {R A} (r : R) : appends f 0 (@return_ R A r).
Proof.
  intros w; simpl. repeat split. exists []. now rewrite app_nil_r.
Qed.

Lemma appends_print {R} (msg : message) : appends f 0 (@print R msg).
Proof.
  intros w; simpl. repeat split. exists []. now rewrite app_nil_r.
Qed.

Lemma appends_verbose {R} (debug : bool) (line : nat) :
  appends f 0 (@verbose R debug line).
Proof.
  unfold verbose. destruct debug; [apply appends_print | apply appends_ret].
Qed.

Lemma appends_call {R} (s : site) : appends f 1 (@call E R s).
Proof.
  intros w. unfold call. destruct (raises E s); simpl.
  all: repeat split; exists [s]; split; [reflexivity|].
  all: unfold count_sites; simpl; destruct (f s); simpl; lia.
Qed.

Lemma appends_call_other {R} (s : site) :
  f s = false -> appends f 0 (@call E R s).
Proof.
  intros Hf w. unfold call. destruct (raises E s); simpl.
  all: repeat split; exists [s]; split; [reflexivity|].
  all: unfold count_sites; simpl; rewrite Hf; simpl; lia.
Qed.

Lemma appends_bind {R A B} (n k : nat) (m : M R A) (g : A -> M R B) :
  appends f n m -> (forall a, appends f k (g a)) ->
  appends f (n + k) (bind m g).
Proof.
  intros Hm Hg w. unfold bind.
  destruct (Hm w) as (Hs & Hh & d & Ht & Hc).
  destruct (m w) as [[a|r|e] w1]; simpl in *.
  - destruct (Hg a w1) as (Hs' & Hh' & d' & Ht' & Hc').
    repeat split; try congruence.
    exists (d ++ d'). rewrite Ht', Ht, app_assoc, count_sites_app.
    split; [reflexivity | lia].
  - repeat split; try assumption. exists d. split; [assumption | lia].
  - repeat split; try assumption. exists d. split; [assumption | lia].
Qed.

Lemma appends_evaluate {R A} (s : site) (script : page -> A) :
  f s = false -> appends f 0 (@evaluate E R A s script).
Proof.
  intros Hf. unfold evaluate. change 0%nat with (0 + 0)%nat.
  apply appends_bind; [now apply appends_call_other|].
  intros _. apply appends_ret.
Qed.

Lemma appends_try_except {R A} (n k : nat) (body : M R A)
    (handler : exc -> M R A) :
  appends f n body -> (forall e, appends f k (handler e)) ->
  appends f (n + k) (try_except body handler).
Proof.
  intros Hb Hh w. unfold try_except.
  destruct (Hb w) as (Hs & Hv & d & Ht & Hc).
  destruct (body w) as [[a|r|e] w1]; simpl in *.
  1,2: repeat split; try assumption; exists d; split; [assumption | lia].
  destruct (is_Exception e).
  - destruct (Hh e w1) as (Hs' & Hv' & d' & Ht' & Hc').
    repeat split; try congruence.
    exists (d ++ d'). rewrite Ht', Ht, app_assoc, count_sites_app.
    split; [reflexivity | lia].
  - simpl. repeat split; try assumption. exists d. split; [assumption | lia].
Qed.

Lemma appends_try_finally {R A} (n k : nat) (body : M R A) (fin : M R unit) :
  appends f n body -> appends f k fin ->
  appends f (n + k) (try_finally body fin).
Proof.
  intros Hb Hf w. unfold try_finally.
  destruct (Hb w) as (Hs & Hv & d & Ht & Hc).
  destruct (body w) as [c w1]; simpl in *.
  destruct (Hf w1) as (Hs' & Hv' & d' & Ht' & Hc').
  destruct (fin w1) as [[a|r|e] w2]; simpl in *.
  all: repeat split; try congruence.
  all: exists (d ++ d'); rewrite Ht', Ht, app_assoc, count_sites_app.
  all: split; [reflexivity | lia].
Qed.

Lemma appends_with {R A X} (n k j : nat) (enter : M R X)
    (exit : X -> M R unit) (body : X -> M R A) :
  appends f n enter -> (forall x, appends f k (body x)) ->
  (forall x, appends f j (exit x)) ->
  appends f (n + (k + j)) (with_ enter exit body).
Proof.
  intros He Hb Hx. unfold with_. apply appends_bind; [assumption|].
  intros x. apply appends_try_finally; auto.
Qed.

Lemma appends_if {R A} (n k : nat) (b : bool) (m1 m2 : M R A) :
  appends f n m1 -> appends f k m2 ->
  appends f (Nat.max n k) (if b then m1 else m2).
Proof.
  intros H1 H2. destruct b.
  - eapply appends_weaken; [eassumption | lia].
  - eapply appends_weaken; [eassumption | lia].
Qed.

Lemma appends_print_details {R} (ds : list Readiness.detail) :
  appends f 0 (@print_details R ds).
Proof.
  induction ds as [|x ds IH]; simpl.
  - apply appends_ret.
  - change 0%nat with (0 + 0)%nat. apply appends_bind; [apply appends_print|].
    intros _. exact IH.
Qed.

End TraceRules.

(** Chains the rules above along a block of statements. *)
Ltac step_appends :=
  first
    [ apply appends_ret
    | apply appends_return
    | apply appends_print
    | apply appends_verbose
    | apply appends_print_details
    | apply appends_call_other; reflexivity
    | apply appends_call
    | apply appends_evaluate; reflexivity
    | eapply appends_bind; [| intros ?]
    | eapply appends_try_except; [| intros ?]
    | eapply appends_try_finally
    | eapply appends_with; [| intros ? | intros ?]
    | eapply appends_if ].

Ltac block_appends :=
  eapply appends_weaken; [repeat step_appends | simpl; lia].

(** ** What the blocks of convert_html_file_to_image add to the trace *)

Section BlockTraces.

Variable E : env.

Lemma check_server_lifecycle (port : Z) (debug : bool) :
  appends is_lifecycle 0 (check_server E port debug).
Proof. unfold check_server. block_appends. Qed.

Lemma load_and_capture_lifecycle (u : url) (out : string) (debug : bool) :
  appends is_lifecycle 0 (load_and_capture E u out debug).
Proof. unfold load_and_capture, wait_for_charts. block_appends. Qed.

Lemma with_browser_forces (u : url) (out : string) (debug : bool) :
  appends is_forceRenderCharts 2 (with_browser E u out debug).
Proof.
  unfold with_browser, load_and_capture, wait_for_charts. block_appends.
Qed.

End BlockTraces.

(** ** Acquisition and release in convert_html_file_to_image *)

Section Lifecycle.

Variable E : env.

Lemma lifecycle_app (d1 d2 : list site) :
  lifecycle (d1 ++ d2) = lifecycle d1 ++ lifecycle d2.
Proof. apply filter_app. Qed.

Lemma lifecycle_none (d : list site) :
  count_sites is_lifecycle d <= 0 -> lifecycle d = [].
Proof.
  unfold count_sites, lifecycle. intros H.
  destruct (filter is_lifecycle d); [reflexivity | simpl in H; lia].
Qed.

Lemma call_then {R A} (s : site) (k : unit -> M R A) (w : world) :
  bind (call E s) k w =
  match raises E s with
  | Some e => (Raised e, log s w)
  | None => k tt (log s w)
  end.
Proof. unfold bind, call. now destruct (raises E s). Qed.

Lemma finally_call {R A} (m : M R A) (s : site) (w : world) :
  let w1 := snd (m w) in
  let w2 := snd (try_finally m (call E s) w) in
  sockets w2 = sockets w1 /\ httpd_var w2 = httpd_var w1 /\
  stdout w2 = stdout w1 /\ trace w2 = trace w1 ++ [s].
Proof.
  unfold try_finally, call. destruct (m w) as [c w1]; simpl.
  destruct (raises E s); simpl; auto.
Qed.

(** The browser's scope, lines 162-358, around any body that itself
    neither launches nor closes anything: the launch is followed by the
    close whenever the launch came back. *)
Lemma browser_scope (body : M (option string) Empty_set)
    (handler : exc -> M (option string) Empty_set) :
  appends is_lifecycle 0 body ->
  (forall e, appends is_lifecycle 0 (handler e)) ->
  forall w,
    let m := with_ (call E L162_sync_playwright_enter)
                   (fun _ => call E L162_sync_playwright_exit)
                   (fun _ => bind (call E L164_launch)
                               (fun _ => try_finally (try_except body handler)
                                           (call E L358_browser_close))) in
    sockets (snd (m w)) = sockets w /\
    httpd_var (snd (m w)) = httpd_var w /\
    exists d, trace (snd (m w)) = trace w ++ d /\
      (lifecycle d = []
       \/ (lifecycle d = [L164_launch] /\ raises E L164_launch <> None)
       \/ lifecycle d = [L164_launch; L358_browser_close]).
Proof.
  intros Hb Hh w m. subst m. unfold with_. rewrite call_then.
  destruct (raises E L162_sync_playwright_enter) eqn:Hin; simpl.
  { repeat split. exists [L162_sync_playwright_enter]. auto. }
  set (w0 := log L162_sync_playwright_enter w).
  set (inner := bind (call E L164_launch) _).
  destruct (finally_call inner L162_sync_playwright_exit w0)
    as (Hs & Hv & _ & Ht).
  rewrite Hs, Hv, Ht. clear Hs Hv Ht. subst inner. rewrite call_then.
  destruct (raises E L164_launch) eqn:Hl; simpl.
  { repeat split.
    exists [L162_sync_playwright_enter; L164_launch; L162_sync_playwright_exit].
    rewrite <- !app_assoc. split; [reflexivity|].
    right; left. split; [reflexivity | congruence]. }
  set (w1 := log L164_launch w0).
  destruct (finally_call (try_except body handler) L358_browser_close w1)
    as (Hs & Hv & _ & Ht).
  rewrite Hs, Hv, Ht. clear Hs Hv Ht.
  assert (Hte : appends is_lifecycle (0 + 0) (try_except body handler))
    by (apply appends_try_except; assumption).
  destruct (Hte w1) as (Hs & Hv & d & Ht & Hc).
  rewrite Hs, Hv, Ht. repeat split.
  exists ([L162_sync_playwright_enter; L164_launch] ++ d
          ++ [L358_browser_close; L162_sync_playwright_exit]).
  split.
  - subst w1 w0. simpl. rewrite <- !app_assoc. reflexivity.
  - right; right. rewrite !lifecycle_app, (lifecycle_none d Hc). reflexivity.
Qed.

Lemma with_browser_scoped (u : url) (out : string) (debug : bool) :
  scoped E (with_browser E u out debug).
Proof.
  intros w. apply browser_scope.
  - apply load_and_capture_lifecycle.
  - intros e. block_appends.
Qed.

Lemma browser_released_after (d1 d2 : list site) :
  count_sites is_lifecycle d1 <= 0 -> browser_released E d2 ->
  browser_released E (d1 ++ d2).
Proof.
  intros H1 H2. unfold browser_released in *.
  now rewrite lifecycle_app, (lifecycle_none d1 H1).
Qed.

Lemma browser_released_before (d1 d2 : list site) :
  browser_released E d1 -> count_sites is_lifecycle d2 <= 0 ->
  browser_released E (d1 ++ d2).
Proof.
  intros H1 H2. unfold browser_released in *.
  now rewrite lifecycle_app, (lifecycle_none d2 H2), app_nil_r.
Qed.

Lemma browser_released_nothing (d : list site) :
  count_sites is_lifecycle d <= 0 -> browser_released E d.
Proof. intros H. left. now apply lifecycle_none. Qed.

Lemma scoped_bind {R A B} (m : M R A) (k : A -> M R B) :
  appends is_lifecycle 0 m -> (forall a, scoped E (k a)) ->
  scoped E (bind m k).
Proof.
  intros Hm Hk w. unfold bind.
  destruct (Hm w) as (Hs & Hv & d & Ht & Hc).
  destruct (m w) as [[a|r|e] w1]; simpl in *.
  - destruct (Hk a w1) as (Hs' & Hv' & d' & Ht' & Hc').
    repeat split; try congruence.
    exists (d ++ d'). rewrite Ht', Ht, app_assoc.
    split; [reflexivity | now apply browser_released_after].
  - repeat split; try assumption. exists d.
    split; [assumption | now apply browser_released_nothing].
  - repeat split; try assumption. exists d.
    split; [assumption | now apply browser_released_nothing].
Qed.

Lemma scoped_try_except {R A} (body : M R A) (handler : exc -> M R A) :
  scoped E body -> (forall e, appends is_lifecycle 0 (handler e)) ->
  scoped E (try_except body handler).
Proof.
  intros Hb Hh w. unfold try_except.
  destruct (Hb w) as (Hs & Hv & d & Ht & Hc).
  destruct (body w) as [[a|r|e] w1]; simpl in *.
  1,2: repeat split; try assumption; exists d; auto.
  destruct (is_Exception e); simpl.
  - destruct (Hh e w1) as (Hs' & Hv' & d' & Ht' & Hc').
    repeat split; try congruence.
    exists (d ++ d'). rewrite Ht', Ht, app_assoc.
    split; [reflexivity | now apply browser_released_before].
  - repeat split; try assumption. exists d; auto.
Qed.

Lemma start_http_server_runs (root : path) (w : world) :
  raises E L45_TCPServer = None ->
  raises E L53_thread_start = None ->
  raises E L56_sleep = None ->
  let q := Net.ephemeral_port (sockets w) in
  start_http_server E root 0 w =
  (Returned (q, {| Net.server_addr := Net.Loopback; Net.server_port := q;
                   Net.server_handler := Http.SimpleHTTPServerHandler;
                   Net.server_directory := root |}),
   {| sockets := {| Net.s_addr := Net.Loopback; Net.s_port := q;
                    Net.s_listening := true |} :: sockets w;
      trace := trace w ++ [L45_TCPServer; L53_thread_start; L56_sleep];
      stdout := stdout w ++ [Started_on_port q];
      httpd_var := httpd_var w |}).
Proof.
  intros H45 H53 H56 q.
  unfold start_http_server, bind, TCPServer, print, call, return_.
  rewrite H45. simpl. rewrite H53, H56. unfold log; simpl.
  rewrite <- !app_assoc. reflexivity.
Qed.

Lemma capture_through_scoped (port : Z) (html_file out : string)
    (debug : bool) :
  scoped E (capture_through E port html_file out debug).
Proof.
  unfold capture_through.
  repeat (apply scoped_bind;
          [first [apply appends_verbose | apply check_server_lifecycle]
          | intros _]).
  apply with_browser_scoped.
Qed.

Lemma close_server_runs (debug : bool) (h : Net.httpd) (w : world) :
  httpd_var w = Some h ->
  exists tl, 
    fst (close_server E debug w) = Normal tt /\
    trace (snd (close_server E debug w)) = trace w ++ L368_shutdown :: tl /\
    (tl = [] \/ tl = [L369_server_close]) /\
    (raises E L368_shutdown = None -> raises E L369_server_close = None ->
     sockets (snd (close_server E debug w)) =
     Net.close (Net.server_addr h) (Net.server_port h) (sockets w)).
Proof.
  intros Hv.
  unfold close_server, server_close, get_httpd, try_except_all, bind, call,
    verbose, print, ret.
  rewrite Hv.
  destruct (raises E L368_shutdown) eqn:H1; simpl.
  { exists []. repeat split; auto. intros; congruence. }
  destruct (raises E L369_server_close) eqn:H2; simpl.
  { exists [L369_server_close]. rewrite <- app_assoc.
    repeat split; auto. intros; congruence. }
  exists [L369_server_close].
  destruct debug; simpl; rewrite <- app_assoc; repeat split; auto.
Qed.

Lemma convert_prefix (html_file : string) (output_path : option string)
    (debug : bool) (w : world) :
  exists w0,
    sockets w0 = sockets w /\ trace w0 = trace w /\ httpd_var w0 = None /\
    convert E html_file output_path debug w =
    run (try_finally
           (try_except
              (serve_and_capture E html_file
                 (resolved_output E html_file output_path) debug)
              (fun e => bind (print (Error_starting_server e))
                          (fun _ => return_ None)))
           (close_server E debug)) w0.
Proof.
  unfold convert, convert_html_file_to_image, resolved_output.
  destruct debug; eexists; (split; [|split; [|split]]);
    [| | | reflexivity | | | | reflexivity]; reflexivity.
Qed.

Lemma serve_and_capture_runs (html_file out : string) (debug : bool)
    (w : world) :
  raises E L45_TCPServer = None ->
  raises E L53_thread_start = None ->
  raises E L56_sleep = None ->
  let q := Net.ephemeral_port (sockets w) in
  let r := serve_and_capture E html_file out debug w in
  sockets (snd r) =
    {| Net.s_addr := Net.Loopback; Net.s_port := q; Net.s_listening := true |}
    :: sockets w /\
  httpd_var (snd r) =
    Some {| Net.server_addr := Net.Loopback; Net.server_port := q;
            Net.server_handler := Http.SimpleHTTPServerHandler;
            Net.server_directory := project_root E |} /\
  exists d,
    trace (snd r) = trace w ++ [L45_TCPServer; L53_thread_start; L56_sleep] ++ d /\
    browser_released E d.
Proof.
  intros H45 H53 H56 q r. subst r.
  set (h := {| Net.server_addr := Net.Loopback; Net.server_port := q;
               Net.server_handler := Http.SimpleHTTPServerHandler;
               Net.server_directory := project_root E |}).
  set (w2 := {| sockets := {| Net.s_addr := Net.Loopback; Net.s_port := q;
                              Net.s_listening := true |} :: sockets w;
                trace := trace w ++ [L45_TCPServer; L53_thread_start; L56_sleep];
                stdout := stdout w ++ [Started_on_port q];
                httpd_var := Some h |}).
  assert (Heq : serve_and_capture E html_file out debug w =
                capture_through E q html_file out debug w2).
  { unfold serve_and_capture. unfold bind at 1. unfold invoke, run.
    rewrite (start_http_server_runs (project_root E) w H45 H53 H56).
    reflexivity. }
  rewrite Heq.
  destruct (capture_through_scoped q html_file out debug w2)
    as (Hs & Hv & d & Ht & Hc).
  rewrite Hs, Hv, Ht. repeat split.
  exists d. subst w2; simpl. rewrite <- app_assoc. auto.
Qed.

End Lifecycle.

(** ** Runs in which nothing raises *)

Section QuietRules.

Variable E : env.
Hypothesis quiet : no_faults E.

Lemma quietly_as {R A} (m : M R A) (c : completion R A) (d d' : list site) :
  quietly m c d -> d = d' -> quietly m c d'.
Proof. now intros H <-. Qed.

Lemma quietly_ret {R A} (a : A) : quietly (@ret R A a) (Normal a) [].
Proof. intros w; simpl. now rewrite app_nil_r. Qed.

Lemma quietly_return {R A} (r : R) : quietly (@return_ R A r) (Returned r) [].
Proof. intros w; simpl. now rewrite app_nil_r. Qed.

Lemma quietly_print {R} (msg : message) : quietly (@print R msg) (Normal tt) [].
Proof. intros w; simpl. now rewrite app_nil_r. Qed.

Lemma quietly_verbose {R} (debug : bool) (line : nat) :
  quietly (@verbose R debug line) (Normal tt) [].
Proof.
  unfold verbose. destruct debug; [apply quietly_print | apply quietly_ret].
Qed.

Lemma quietly_call {R} (s : site) : quietly (@call E R s) (Normal tt) [s].
Proof. intros w. unfold call. rewrite quiet. simpl. auto. Qed.

Lemma quietly_bind {R A B} (m : M R A) (k : A -> M R B) (a : A)
    (c : completion R B) (d1 d2 : list site) :
  quietly m (Normal a) d1 -> quietly (k a) c d2 ->
  quietly (bind m k) c (d1 ++ d2).
Proof.
  intros Hm Hk w. unfold bind.
  destruct (Hm w) as (Hc & Hs & Hv & Ht).
  destruct (m w) as [c1 w1]; simpl in *. subst c1.
  destruct (Hk w1) as (Hc' & Hs' & Hv' & Ht').
  repeat split; try congruence. now rewrite Ht', Ht, app_assoc.
Qed.

Lemma quietly_print_details {R} (ds : list Readiness.detail) :
  quietly (@print_details R ds) (Normal tt) [].
Proof.
  induction ds as [|x ds IH]; simpl.
  - apply quietly_ret.
  - eapply quietly_as; [eapply quietly_bind; [apply quietly_print|]|].
    + exact IH.
    + reflexivity.
Qed.

Lemma quietly_evaluate {R A} (s : site) (script : page -> A) :
  quietly (@evaluate E R A s script) (Normal (script (page_at E s))) [s].
Proof.
  unfold evaluate.
  eapply quietly_as; [eapply quietly_bind; [apply quietly_call|]|].
  - apply quietly_ret.
  - reflexivity.
Qed.

Lemma quietly_try_except {R A} (body : M R A) (handler : exc -> M R A)
    (c : completion R A) (d : list site) :
  quietly body c d -> (forall e, c <> Raised e) ->
  quietly (try_except body handler) c d.
Proof.
  intros Hb Hc w. unfold try_except.
  destruct (Hb w) as (Hc1 & Hs & Hv & Ht).
  destruct (body w) as [c1 w1]; simpl in *. subst c1.
  destruct c as [a|r|e]; simpl; auto. now elim (Hc e).
Qed.

Lemma quietly_try_finally {R A} (body : M R A) (fin : M R unit)
    (c : completion R A) (d1 d2 : list site) :
  quietly body c d1 -> quietly fin (Normal tt) d2 ->
  quietly (try_finally body fin) c (d1 ++ d2).
Proof.
  intros Hb Hf w. unfold try_finally.
  destruct (Hb w) as (Hc & Hs & Hv & Ht).
  destruct (body w) as [c1 w1]; simpl in *. subst c1.
  destruct (Hf w1) as (Hc' & Hs' & Hv' & Ht').
  destruct (fin w1) as [c2 w2]; simpl in *. subst c2. simpl.
  repeat split; try congruence. now rewrite Ht', Ht, app_assoc.
Qed.

Lemma quietly_with {R A X} (enter : M R X) (exit : X -> M R unit)
    (body : X -> M R A) (x : X) (c : completion R A) (d1 d2 d3 : list site) :
  quietly enter (Normal x) d1 -> quietly (body x) c d2 ->
  quietly (exit x) (Normal tt) d3 ->
  quietly (with_ enter exit body) c (d1 ++ d2 ++ d3).
Proof.
  intros He Hb Hx. unfold with_.
  eapply quietly_bind; [eassumption|]. now apply quietly_try_finally.
Qed.

Lemma quietly_if {R A} (b : bool) (m1 m2 : M R A) (c : completion R A)
    (d1 d2 : list site) :
  quietly m1 c d1 -> quietly m2 c d2 ->
  quietly (if b then m1 else m2) c (if b then d1 else d2).
Proof. now destruct b. Qed.

End QuietRules.

(** Follows a block statement by statement with the rules above. *)
Ltac step_quietly H :=
  cbv beta;
  first
    [ apply quietly_ret
    | apply quietly_return
    | apply quietly_print
    | apply quietly_verbose
    | apply quietly_print_details
    | apply (quietly_call _ H)
    | apply (quietly_evaluate _ H)
    | eapply quietly_bind
    | eapply quietly_try_except; [| discriminate]
    | eapply quietly_try_finally
    | eapply quietly_with
    | eapply quietly_if ].

(** Splits on every condition left in the goal. *)
Ltac split_conditions :=
  repeat match goal with
         | |- context [negb ?b] => destruct b; cbn [negb]
         | |- context [if ?b then _ else _] => destruct b
         end.

Section QuietRuns.

Variable E : env.
Hypothesis quiet : no_faults E.

Lemma wait_for_charts_quiet (debug : bool) :
  quietly (wait_for_charts E debug) (Normal tt) (charts_calls E).
Proof.
  unfold wait_for_charts, charts_calls.
  eapply quietly_as; [repeat step_quietly quiet|].
  split_conditions; reflexivity.
Qed.

Lemma load_and_capture_quiet (u : url) (out : string) (debug : bool) :
  quietly (load_and_capture E u out debug) (Returned (Some out))
    ([L171_new_context; L175_new_page; L178_goto u;
      L186_wait_for_load_state; L191_wait_for_load_state;
      L196_evaluate_has_vega]
     ++ (if has_vega_script (page_at E L196_evaluate_has_vega)
         then charts_calls E else [])
     ++ L327_evaluate_has_images
        :: (if has_images_script (page_at E L327_evaluate_has_images)
            then [L331_wait_for_selector] else [])
     ++ [L337_wait_for_timeout; L342_evaluate_scrollHeight;
         L343_set_viewport_size
           (scrollHeight (page_at E L342_evaluate_scrollHeight));
         L346_screenshot out]).
Proof.
  unfold load_and_capture.
  eapply quietly_as;
    [repeat first [apply wait_for_charts_quiet | step_quietly quiet]|].
  split_conditions; reflexivity.
Qed.

Lemma capture_through_quiet (port : Z) (html_file out : string)
    (debug : bool) :
  quietly (capture_through E port html_file out debug) (Returned (Some out))
    (capture_calls E port html_file out).
Proof.
  unfold capture_through, check_server, with_browser.
  eapply quietly_as;
    [repeat first [apply load_and_capture_quiet | step_quietly quiet]|].
  unfold capture_calls, document_url, charts_calls.
  split_conditions; reflexivity.
Qed.

Lemma serve_and_capture_started (html_file out : string) (debug : bool)
    (w : world) :
  let q := Net.ephemeral_port (sockets w) in
  serve_and_capture E html_file out debug w =
  capture_through E q html_file out debug
    {| sockets := {| Net.s_addr := Net.Loopback; Net.s_port := q;
                     Net.s_listening := true |} :: sockets w;
       trace := trace w ++ [L45_TCPServer; L53_thread_start; L56_sleep];
       stdout := stdout w ++ [Started_on_port q];
       httpd_var :=
         Some {| Net.server_addr := Net.Loopback; Net.server_port := q;
                 Net.server_handler := Http.SimpleHTTPServerHandler;
                 Net.server_directory := project_root E |} |}.
Proof.
  intros q. unfold serve_and_capture. unfold bind at 1. unfold invoke, run.
  rewrite (start_http_server_runs E (project_root E) w
             (quiet _) (quiet _) (quiet _)).
  reflexivity.
Qed.

Lemma close_server_quiet (debug : bool) (h : Net.httpd) (w : world) :
  httpd_var w = Some h ->
  fst (close_server E debug w) = Normal tt /\
  trace (snd (close_server E debug w)) =
    trace w ++ [L368_shutdown; L369_server_close] /\
  sockets (snd (close_server E debug w)) =
    Net.close (Net.server_addr h) (Net.server_port h) (sockets w).
Proof.
  intros Hv.
  unfold close_server, server_close, get_httpd, try_except_all, bind, call,
    verbose, print, ret.
  rewrite Hv, !quiet.
  destruct debug; simpl; rewrite <- app_assoc; auto.
Qed.

(** The whole run when nothing raises: the image path comes back, the
    socket table is as before, and the calls are exactly
    [calls_when_quiet]. *)
Lemma convert_quiet (html_file : string) (output_path : option string)
    (debug : bool) (w : world) :
  let out := resolved_output E html_file output_path in
  let r := convert E html_file output_path debug w in
  fst r = Value (Some out) /\
  sockets (snd r) = sockets w /\
  trace (snd r) =
    trace w ++ calls_when_quiet E (Net.ephemeral_port (sockets w)) html_file out.
Proof.
  intros out r. subst r.
  destruct (convert_prefix E html_file output_path debug w)
    as (w0 & Hs0 & Ht0 & _ & Heq).
  rewrite Heq. clear Heq. fold out.
  unfold run, try_finally, try_except.
  rewrite serve_and_capture_started.
  match goal with
  | |- context [capture_through E ?q html_file out debug ?w2] =>
      destruct (capture_through_quiet q html_file out debug w2)
        as (Hc & Hs & Hv & Ht);
      destruct (capture_through E q html_file out debug w2) as [c w3]
  end.
  simpl in Hc, Hs, Hv, Ht. subst c.
  destruct (close_server_quiet debug _ w3 Hv) as (Hc' & Ht' & Hs').
  destruct (close_server E debug w3) as [c' w4]. simpl in *. subst c'.
  simpl. repeat split.
  - rewrite Hs', Hs, Hs0. simpl. now rewrite Z.eqb_refl.
  - rewrite Ht', Ht, Ht0, Hs0. unfold calls_when_quiet.
    now rewrite <- !app_assoc.
Qed.

End QuietRuns.

(** ** What a run adds to the trace, in every environment *)

Section EveryRun.

Variable E : env.
Variable f : site -> bool.
Variable n : nat.

Hypothesis f_L53 : f L53_thread_start = false.
Hypothesis f_L56 : f L56_sleep = false.
Hypothesis f_L368 : f L368_shutdown = false.
Hypothesis f_L369 : f L369_server_close = false.
Hypothesis capture_bound :
  forall port html_file out debug,
    appends f n (capture_through E port html_file out debug).

Lemma start_http_server_trace (root : path) (w : world) :
  exists d,
    trace (snd (start_http_server E root 0 w)) = trace w ++ L45_TCPServer :: d /\
    count_sites f d = 0.
Proof.
  unfold start_http_server, TCPServer, bind, call, print, return_.
  destruct (raises E L45_TCPServer); simpl.
  { exists []. split; reflexivity. }
  destruct (raises E L53_thread_start); simpl.
  { exists [L53_thread_start]. rewrite <- app_assoc. split; [reflexivity|].
    unfold count_sites; simpl; now rewrite f_L53. }
  destruct (raises E L56_sleep); simpl.
  all: exists [L53_thread_start; L56_sleep]; rewrite <- !app_assoc.
  all: split; [reflexivity|].
  all: unfold count_sites; simpl; now rewrite f_L53, f_L56.
Qed.

Lemma serve_and_capture_trace (html_file out : string) (debug : bool)
    (w : world) :
  exists d,
    trace (snd (serve_and_capture E html_file out debug w)) =
      trace w ++ L45_TCPServer :: d /\
    count_sites f d <= n.
Proof.
  unfold serve_and_capture. unfold bind at 1. unfold invoke, run.
  destruct (start_http_server_trace (project_root E) w) as (d & Ht & Hc).
  destruct (start_http_server E (project_root E) 0 w) as [[a|[q h]|e] w1];
    simpl in Ht.
  - destruct a.
  - unfold bind at 1. unfold set_httpd at 1. cbv beta iota zeta.
    match goal with
    | |- context [capture_through E ?q html_file out debug ?w2] =>
        destruct (capture_bound q html_file out debug w2)
          as (_ & _ & d' & Ht' & Hc')
    end.
    exists (d ++ d'). rewrite Ht'. cbn [trace]. rewrite Ht, <- app_assoc.
    split; [reflexivity|]. rewrite count_sites_app. lia.
  - simpl. exists d. split; [assumption | lia].
Qed.

Lemma close_server_trace (debug : bool) (w : world) :
  exists d,
    trace (snd (close_server E debug w)) = trace w ++ d /\
    count_sites f d = 0.
Proof.
  unfold close_server, server_close, get_httpd, try_except_all, bind, call,
    verbose, print, ret.
  destruct (httpd_var w); simpl.
  2: { exists []. now rewrite app_nil_r. }
  destruct (raises E L368_shutdown); simpl.
  { exists [L368_shutdown]. split; [reflexivity|].
    unfold count_sites; simpl; now rewrite f_L368. }
  destruct (raises E L369_server_close); simpl.
  all: exists [L368_shutdown; L369_server_close].
  all: destruct debug; simpl; rewrite <- app_assoc; split; try reflexivity.
  all: unfold count_sites; simpl; now rewrite f_L368, f_L369.
Qed.

(** The first thing every run does is to create the server; after that
    come at most [n] calls that satisfy [f]. *)
Lemma convert_trace (html_file : string) (output_path : option string)
    (debug : bool) (w : world) :
  exists d,
    trace (snd (convert E html_file output_path debug w)) =
      trace w ++ L45_TCPServer :: d /\
    count_sites f d <= n.
Proof.
  destruct (convert_prefix E html_file output_path debug w)
    as (w0 & _ & Ht0 & _ & Heq).
  rewrite Heq. clear Heq.
  set (out := resolved_output E html_file output_path).
  destruct (serve_and_capture_trace html_file out debug w0) as (d & Ht & Hc).
  unfold run, try_finally, try_except.
  destruct (serve_and_capture E html_file out debug w0) as [c w1].
  simpl in Ht.
  destruct c as [a|r|e]; [destruct a | | destruct (is_Exception e)];
    unfold bind, print, return_; cbv beta iota zeta;
    match goal with
    | |- context [close_server E debug ?w2] =>
        destruct (close_server_trace debug w2) as (d' & Ht' & Hc');
        destruct (close_server E debug w2) as [c3 w3]
    end;
    simpl in Ht'; exists (d ++ d');
    (assert (Hn : count_sites f (d ++ d') <= n)
       by (rewrite count_sites_app; lia));
    (assert (Hw3 : trace w3 = trace w ++ L45_TCPServer :: d ++ d')
       by (rewrite Ht', Ht, Ht0, <- app_assoc; reflexivity));
    destruct c3 as [a|r'|e']; simpl; auto.
Qed.

End EveryRun.

(** ** Paths that leave the served root *)



(** ** Failures and the value that comes back *)

Section CarefulRules.

Variable E : env.
Variable out : string.

Lemma all_ok_nil : all_ok E [].
Proof. intros s []. Qed.

Lemma all_ok_app (d1 d2 : list site) :
  all_ok E d1 -> all_ok E d2 -> all_ok E (d1 ++ d2).
Proof.
  intros H1 H2 s Hin. apply in_app_or in Hin. destruct Hin; auto.
Qed.

Lemma all_ok_uncritical (d : list site) :
  count_sites critical d <= 0 -> all_ok E d.
Proof.
  unfold count_sites. intros H s Hin Hc.
  assert (Hf : In s (filter critical d)) by (apply filter_In; auto).
  destruct (filter critical d); [destruct Hf | simpl in H; lia].
Qed.

Lemma careful_ret {A} (a : A) : careful E out (ret a).
Proof. intros w. exists []. simpl. rewrite app_nil_r. auto using all_ok_nil. Qed.

Lemma careful_return_out {A} : careful E out (@return_ _ A (Some out)).
Proof. intros w. exists []. simpl. rewrite app_nil_r. auto using all_ok_nil. Qed.

Lemma careful_return_None {A} : careful E out (@return_ _ A None).
Proof. intros w. exists []. simpl. rewrite app_nil_r. auto. Qed.

Lemma careful_print (msg : message) : careful E out (print msg).
Proof. intros w. exists []. simpl. rewrite app_nil_r. auto using all_ok_nil. Qed.

Lemma careful_verbose (debug : bool) (line : nat) :
  careful E out (verbose debug line).
Proof.
  unfold verbose. destruct debug; [apply careful_print | apply careful_ret].
Qed.

Lemma careful_call (s : site) : careful E out (call E s).
Proof.
  intros w. exists [s]. unfold call.
  destruct (raises E s) eqn:Hs; simpl; split; auto.
  intros s' [<- | []] _. exact Hs.
Qed.

Lemma careful_bind {A B} (m : M (option string) A)
    (k : A -> M (option string) B) :
  careful E out m -> (forall a, careful E out (k a)) ->
  careful E out (bind m k).
Proof.
  intros Hm Hk w. unfold bind.
  destruct (Hm w) as (d & Ht & Hc).
  destruct (m w) as [[a|[p|]|e] w1]; simpl in *.
  - destruct (Hk a w1) as (d' & Ht' & Hc').
    exists (d ++ d'). rewrite Ht', Ht, app_assoc. split; [reflexivity|].
    destruct (fst (k a w1)) as [b|[p|]|e]; auto.
    + now apply all_ok_app.
    + destruct Hc'. split; [assumption | now apply all_ok_app].
  - exists d. auto.
  - exists d. auto.
  - exists d. auto.
Qed.

Lemma careful_evaluate {A} (s : site) (script : page -> A) :
  careful E out (evaluate E s script).
Proof.
  unfold evaluate. apply careful_bind; [apply careful_call|].
  intros _. apply careful_ret.
Qed.

Lemma careful_print_details (ds : list Readiness.detail) :
  careful E out (print_details ds).
Proof.
  induction ds as [|x ds IH]; simpl.
  - apply careful_ret.
  - apply careful_bind; [apply careful_print | intros _; exact IH].
Qed.

Lemma careful_if {A} (b : bool) (m1 m2 : M (option string) A) :
  careful E out m1 -> careful E out m2 ->
  careful E out (if b then m1 else m2).
Proof. now destruct b. Qed.

(** A [try] whose handler prints and returns None. *)
Lemma careful_try_except {A} (body : M (option string) A)
    (report : exc -> message) :
  careful E out body ->
  careful E out
    (try_except body (fun e => bind (print (report e)) (fun _ => return_ None))).
Proof.
  intros Hb w. unfold try_except.
  destruct (Hb w) as (d & Ht & Hc).
  destruct (body w) as [[a|[p|]|e] w1]; simpl in *;
    [exists d; auto | exists d; auto | exists d; auto |].
  destruct (is_Exception e); simpl; exists d; auto.
Qed.

(** A block without critical calls that never returns. *)
Lemma careful_uncritical {A} (m : M (option string) A) :
  appends critical 0 m -> no_return m -> careful E out m.
Proof.
  intros Ha Hn w. destruct (Ha w) as (_ & _ & d & Ht & Hc).
  exists d. split; [assumption|].
  pose proof (Hn w) as Hr.
  destruct (fst (m w)) as [a|[p|]|e]; auto using all_ok_uncritical.
  now elim (Hr (Some p)).
Qed.

Lemma careful_try_finally {A} (body : M (option string) A)
    (fin : M (option string) unit) :
  careful E out body -> careful E out fin -> no_return fin ->
  careful E out (try_finally body fin).
Proof.
  intros Hb Hf Hn w. unfold try_finally.
  destruct (Hb w) as (d & Ht & Hc).
  destruct (body w) as [c w1]; simpl in *.
  destruct (Hf w1) as (d' & Ht' & Hc'). pose proof (Hn w1) as Hr.
  destruct (fin w1) as [[a|r|e] w2]; simpl in *.
  - exists (d ++ d'). rewrite Ht', Ht, app_assoc. split; [reflexivity|].
    destruct c as [b|[p|]|e]; auto.
    + now apply all_ok_app.
    + destruct Hc. split; [assumption | now apply all_ok_app].
  - now elim (Hr r).
  - exists (d ++ d'). rewrite Ht', Ht, app_assoc. auto.
Qed.

Lemma careful_with {A X} (enter : M (option string) X)
    (exit : X -> M (option string) unit) (body : X -> M (option string) A) :
  careful E out enter -> (forall x, careful E out (body x)) ->
  (forall x, careful E out (exit x)) -> (forall x, no_return (exit x)) ->
  careful E out (with_ enter exit body).
Proof.
  intros He Hb Hx Hn. unfold with_. apply careful_bind; [assumption|].
  intros x. apply careful_try_finally; auto.
Qed.

Lemma no_return_call {R} (s : site) : no_return (@call E R s).
Proof.
  intros w r. unfold call. destruct (raises E s); simpl; discriminate.
Qed.

End CarefulRules.

Ltac step_careful :=
  first
    [ apply careful_ret
    | apply careful_return_out
    | apply careful_return_None
    | apply careful_print
    | apply careful_verbose
    | apply careful_print_details
    | apply careful_call
    | apply careful_evaluate
    | apply careful_try_except
    | apply careful_bind; [| intros ?]
    | apply careful_try_finally; [| | apply no_return_call]
    | apply careful_with; [| intros ? | intros ? | intros ?; apply no_return_call]
    | apply careful_if ].

Section CarefulBlocks.

Variable E : env.
Variable out : string.

Lemma wait_for_container_careful (debug : bool) :
  careful E out
    (try_except
       (bind (call E L217_wait_for_selector) (fun _ => verbose debug 219))
       (fun _ => verbose debug 222)).
Proof.
  apply careful_uncritical.
  - block_appends.
  - intros w r. unfold try_except, bind, call, verbose, print, ret.
    destruct (raises E L217_wait_for_selector) as [e|];
      [destruct (is_Exception e)|]; destruct debug; simpl; discriminate.
Qed.

Lemma wait_for_images_careful (debug : bool) :
  careful E out
    (try_except
       (bind (evaluate E L327_evaluate_has_images has_images_script)
          (fun has_images : bool =>
             if has_images
             then bind (verbose debug 330)
                    (fun _ => call E L331_wait_for_selector)
             else ret tt))
       (fun _ => verbose debug 334)).
Proof.
  apply careful_uncritical.
  - block_appends.
  - intros w r.
    unfold try_except, evaluate, bind, call, verbose, print, ret.
    destruct (raises E L327_evaluate_has_images) as [e|]; simpl;
      [destruct (is_Exception e); destruct debug; simpl; discriminate|].
    destruct (has_images_script _); simpl; [|discriminate].
    destruct debug; simpl;
      (destruct (raises E L331_wait_for_selector) as [e|];
       [destruct (is_Exception e)|]); simpl; discriminate.
Qed.

Lemma capture_through_careful (port : Z) (html_file : string) (debug : bool) :
  careful E out (capture_through E port html_file out debug).
Proof.
  unfold capture_through, check_server, with_browser, load_and_capture,
    wait_for_charts.
  repeat first [ apply wait_for_container_careful
               | apply wait_for_images_careful
               | step_careful ].
Qed.

Lemma start_http_server_careful (root : path) :
  careful E out (invoke (start_http_server E root 0)).
Proof.
  intros w.
  unfold invoke, run, start_http_server, TCPServer, bind, call, print, return_.
  destruct (raises E L45_TCPServer) eqn:H45; simpl.
  { exists [L45_TCPServer]. auto. }
  destruct (raises E L53_thread_start) eqn:H53; simpl.
  { exists [L45_TCPServer; L53_thread_start]. rewrite <- app_assoc. auto. }
  destruct (raises E L56_sleep) eqn:H56; simpl.
  all: exists [L45_TCPServer; L53_thread_start; L56_sleep].
  all: rewrite <- !app_assoc; split; auto.
  intros s [<- | [<- | [<- | []]]] _; assumption.
Qed.

Lemma set_httpd_careful (h : option Net.httpd) :
  careful E out (set_httpd h).
Proof.
  intros w. exists []. simpl. rewrite app_nil_r. auto using all_ok_nil.
Qed.

Lemma close_server_normal (debug : bool) (w : world) :
  fst (close_server E debug w) = Normal tt.
Proof.
  unfold close_server, server_close, get_httpd, try_except_all, bind, call,
    verbose, print, ret.
  destruct (httpd_var w); simpl; [|reflexivity].
  destruct (raises E L368_shutdown); simpl; [reflexivity|].
  destruct (raises E L369_server_close); simpl; [reflexivity|].
  destruct debug; reflexivity.
Qed.

Lemma close_server_careful (debug : bool) :
  careful E out (close_server E debug).
Proof.
  intros w.
  destruct (close_server_trace E critical eq_refl eq_refl debug w)
    as (d & Ht & Hc).
  exists d. split; [assumption|].
  rewrite close_server_normal. apply all_ok_uncritical. lia.
Qed.

Lemma convert_careful (html_file : string) (debug : bool) :
  careful E out
    (try_finally
       (try_except
          (serve_and_capture E html_file out debug)
          (fun e => bind (print (Error_starting_server e))
                      (fun _ => return_ None)))
       (close_server E debug)).
Proof.
  apply careful_try_finally.
  - apply careful_try_except. unfold serve_and_capture.
    apply careful_bind; [apply start_http_server_careful | intros [q h]].
    apply careful_bind; [apply set_httpd_careful | intros _].
    apply capture_through_careful.
  - apply close_server_careful.
  - intros w r. rewrite close_server_normal. discriminate.
Qed.

End CarefulBlocks.

(** ** Starting the content servers *)

Section Servers.

Variable E : env.

Lemma port_below_ephemeral (t : Net.table) (s : Net.socket) :
  In s t -> (Net.s_port s < Net.ephemeral_port t)%Z.
Proof.
  unfold Net.ephemeral_port.
  induction t as [|x t IH]; cbn [map fold_right In]; [now intros []|].
  set (m := fold_right Z.max 49151%Z (map Net.s_port t)) in *. clearbody m.
  pose proof (Z.le_max_l (Net.s_port x) m).
  pose proof (Z.le_max_r (Net.s_port x) m).
  intros [<- | Hin]; [lia|]. specialize (IH Hin). lia.
Qed.

Lemma ephemeral_port_free (a : Net.addr) (t : Net.table) :
  Net.in_use a (Net.ephemeral_port t) t = false.
Proof.
  unfold Net.in_use. apply not_true_is_false. rewrite existsb_exists.
  intros (s & Hin & Hs). apply andb_prop in Hs. destruct Hs as (Hp & _).
  apply Z.eqb_eq in Hp. apply port_below_ephemeral in Hin. lia.
Qed.

Lemma ephemeral_port_dynamic (t : Net.table) :
  (49152 <= Net.ephemeral_port t)%Z.
Proof.
  unfold Net.ephemeral_port.
  induction t as [|x t IH]; cbn [map fold_right]; [lia|].
  set (m := fold_right Z.max 49151%Z (map Net.s_port t)) in *. clearbody m.
  pose proof (Z.le_max_r (Net.s_port x) m). lia.
Qed.

Lemma ephemeral_port_nonzero (t : Net.table) :
  (Net.ephemeral_port t =? 0)%Z = false.
Proof.
  apply Z.eqb_neq. pose proof (ephemeral_port_dynamic t). lia.
Qed.

(** The loop of lines 89-94 only calls; it touches neither the sockets nor
    anything else, and makes at most as many probes as it has iterations. *)
Lemma wait_for_server_appends {R} (n i : nat) :
  appends is_probe n (@wait_for_server E R i n).
Proof.
  revert i. induction n as [|n IH]; intros i; simpl.
  - apply appends_ret.
  - eapply appends_weaken.
    + eapply appends_bind; [| intros broke; eapply appends_if;
                               [apply appends_ret | apply IH]].
      eapply appends_try_except; [| intros e].
      * eapply appends_bind; [apply appends_call | intros _; apply appends_ret].
      * eapply appends_bind;
          [apply appends_call_other; reflexivity | intros _; apply appends_ret].
    + simpl. lia.
Qed.

Lemma wait_for_server_no_return {R} (n i : nat) :
  no_return (@wait_for_server E R i n).
Proof.
  revert i. induction n as [|n IH]; intros i w r; simpl.
  - discriminate.
  - unfold bind at 1. unfold try_except, bind, call, ret.
    destruct (raises E (H91_urlopen i)) as [e|]; simpl; [|discriminate].
    destruct (is_Exception e); simpl; [|discriminate].
    destruct (raises E (H94_sleep i)); simpl; [discriminate|].
    apply IH.
Qed.

(** Whatever the probes answer, short of a KeyboardInterrupt, the loop
    ends normally: running out of attempts raises nothing. *)
Lemma wait_for_server_completes {R} (n i : nat) (w : world) :
  (forall j, raises E (H94_sleep j) = None) ->
  (forall j e, raises E (H91_urlopen j) = Some e -> is_Exception e = true) ->
  fst (@wait_for_server E R i n w) = Normal tt.
Proof.
  intros Hsleep Hprobe. revert i w.
  induction n as [|n IH]; intros i w; simpl; [reflexivity|].
  unfold bind at 1. unfold try_except, bind, call, ret.
  destruct (raises E (H91_urlopen i)) as [e|] eqn:Hp; simpl; [|reflexivity].
  rewrite (Hprobe i e Hp), Hsleep. simpl. apply IH.
Qed.

End Servers.

Lemma start_http_server_calls (E : env) (root : path) (port : Z) (w : world) :
  exists d,
    trace (snd (run (start_http_server E root port) w)) = trace w ++ d /\
    count_sites is_probe d = 0 /\
    (forall r, fst (run (start_http_server E root port) w) = Value r ->
               d = [L45_TCPServer; L53_thread_start; L56_sleep]).
Proof.
  unfold run, start_http_server, TCPServer, bind, call, print, return_.
  destruct (raises E L45_TCPServer); cbn -[Net.bind_listen].
  { exists [L45_TCPServer]. repeat split. discriminate. }
  destruct (Net.bind_listen _ _ _) as [[q|e] t]; cbn.
  2: { exists [L45_TCPServer]. repeat split. discriminate. }
  destruct (raises E L53_thread_start); cbn.
  { exists [L45_TCPServer; L53_thread_start]. rewrite <- app_assoc.
    repeat split. discriminate. }
  destruct (raises E L56_sleep); cbn.
  all: exists [L45_TCPServer; L53_thread_start; L56_sleep].
  all: rewrite <- !app_assoc; repeat split; discriminate.
Qed.

(** C7, as stated, fails: start_http_server returns its server without a
    single probe, and serve_directory hands its URL to the caller after
    five probes that all failed. *)
Lemma server_is_handed_out_after_failed_probes :
  (let r := run (start_http_server Examples.quiet_env ["srv"; "project"] 0)
              (initial []) in
   (exists v, fst r = Value v) /\ filter is_probe (trace (snd r)) = [])
  /\
  (let r := run (serve_directory Examples.never_up_env None None true
                   (fun u => return_ u)) (initial []) in
   fst r = Value {| url_port := 49152; url_path := [] |} /\
   filter is_probe (trace (snd r)) =
     [H91_urlopen 0; H91_urlopen 1; H91_urlopen 2; H91_urlopen 3;
      H91_urlopen 4] /\
   forall j, raises Examples.never_up_env (H91_urlopen j) <> None).
Proof.
  split.
  - split; [eexists; vm_compute; reflexivity | vm_compute; reflexivity].
  - split; [vm_compute; reflexivity|].
    split; [vm_compute; reflexivity|]. intros j. discriminate.
Qed.

(** C7. start_http_server never probes: it creates the server, starts the
    thread, sleeps one second and returns. serve_directory probes the root
    at most five times and then hands the URL to the caller whether or not
    a probe got through; running out of attempts raises nothing. *)
Theorem servers_are_handed_out_unprobed :
  (forall (E : env) (root : path) (port : Z) (w : world),
     exists d,
       trace (snd (run (start_http_server E root port) w)) = trace w ++ d /\
       count_sites is_probe d = 0 /\
       (forall r, fst (run (start_http_server E root port) w) = Value r ->
                  d = [L45_TCPServer; L53_thread_start; L56_sleep]))
  /\
  (forall (E : env) (directory : option string) (quiet : bool) (w : world),
     (forall s, is_probe s = false -> raises E s = None) ->
     (forall j e, raises E (H91_urlopen j) = Some e -> is_Exception e = true) ->
     let r := run (serve_directory E directory None quiet
                     (fun u => return_ u)) w in
     fst r = Value {| url_port := Net.ephemeral_port (sockets w);
                      url_path := [] |} /\
     exists d, trace (snd r) = trace w ++ d /\ count_sites is_probe d <= 5).
Proof.
  split; [exact start_http_server_calls|].
  intros E directory quiet w Hother Hprobe r. subst r.
  unfold run, serve_directory, with_.
  set (loop := wait_for_server E 0 5).
  assert (Hloop : forall w0,
             fst (loop w0) = Normal tt /\
             sockets (snd (loop w0)) = sockets w0 /\
             exists d, trace (snd (loop w0)) = trace w0 ++ d /\
                       count_sites is_probe d <= 5).
  { intros w0. split.
    - apply wait_for_server_completes; [|assumption].
      intros j. now apply Hother.
    - destruct (@wait_for_server_appends E url 5 0 w0) as (Hs & _ & Hd). auto. }
  clearbody loop.
  unfold find_free_port, TCPServer, server_close, try_finally, bind, call,
    return_, ret, verbose, print, Net.bind_listen.
  change (Net.resolve "") with Net.AnyInterface.
  rewrite !Hother by reflexivity.
  cbn -[Net.in_use Z.eqb Net.ephemeral_port].
  rewrite ephemeral_port_nonzero, ephemeral_port_free.
  destruct quiet; cbn -[Net.ephemeral_port];
    match goal with
    | |- context [loop ?w0] =>
        destruct (Hloop w0) as (Hc & Hs & d & Ht & Hn);
        destruct (loop w0) as [c w1]
    end;
    cbn in Hc, Hs, Ht; subst c; cbn -[Net.ephemeral_port];
    (split; [reflexivity|]);
    eexists; rewrite Ht; cbn; rewrite <- !app_assoc; (split; [reflexivity|]);
    rewrite !count_sites_app; cbn; lia.
Qed.

Lemma servers_are_handed_out_unprobed_witness :
  let r := run (serve_directory Examples.never_up_env None None true
                  (fun u => return_ u)) (initial Examples.busy_table) in
  fst r = Value {| url_port := Net.ephemeral_port Examples.busy_table;
                   url_path := [] |} /\
  exists d,
    trace (snd r) = trace (initial Examples.busy_table) ++ d /\
    count_sites is_probe d <= 5.
Proof.
  destruct servers_are_handed_out_unprobed as (_ & Hserve).
  apply (Hserve Examples.never_up_env None true (initial Examples.busy_table)).
  - intros s Hs. destruct s; try reflexivity; discriminate.
  - intros j e He. injection He as <-. reflexivity.
Defined.

(** C9, as stated, fails: the socket serve_directory listens on while the
    caller's block runs is bound to every interface. *)
Lemma serve_directory_listens_on_every_interface :
  fst (run (serve_directory Examples.quiet_env None None true
              (fun _ w0 => (Returned (sockets w0), w0))) (initial []))
  = Value [{| Net.s_addr := Net.AnyInterface; Net.s_port := 49152;
              Net.s_listening := true |}].
Proof. vm_compute. reflexivity. Qed.

(** C9. The socket that start_http_server leaves listening is bound to the
    loopback address; the one serve_directory listens on while the caller's
    block runs is bound to the empty host, that is to every interface. *)
Theorem listening_addresses :
  (forall (E : env) (root : path) (port : Z) (w w' : world)
          (r : Z * Net.httpd),
     run (start_http_server E root port) w = (Value r, w') ->
     Net.server_addr (snd r) = Net.Loopback /\
     sockets w' =
       {| Net.s_addr := Net.Loopback; Net.s_port := fst r;
          Net.s_listening := true |} :: sockets w)
  /\
  (forall (E : env) (directory : option string) (port : option Z)
          (quiet : bool) (w w' : world) (seen : Net.table),
     run (serve_directory E directory port quiet
            (fun _ w0 => (Returned (sockets w0), w0))) w = (Value seen, w') ->
     exists q,
       seen = {| Net.s_addr := Net.AnyInterface; Net.s_port := q;
                 Net.s_listening := true |} :: sockets w).
Proof.
  split.
  - intros E root port w w' r.
    unfold run, start_http_server, TCPServer, bind, call, print, return_,
      Net.bind_listen.
    change (Net.resolve "localhost") with Net.Loopback.
    destruct (raises E L45_TCPServer); [discriminate|].
    cbn [sockets log].
    destruct (port =? 0)%Z;
      [| destruct (Net.in_use Net.Loopback port (sockets w)); [discriminate|]].
    all: cbn.
    all: destruct (raises E L53_thread_start); [discriminate|].
    all: destruct (raises E L56_sleep); [discriminate|].
    all: intros H; inversion H; subst; cbn; auto.
  - intros E directory port quiet w w' seen.
    unfold run, serve_directory, with_.
    set (loop := wait_for_server E 0 5).
    assert (Hloop : forall w0, sockets (snd (loop w0)) = sockets w0 /\
                               forall r, fst (loop w0) <> Returned r).
    { intros w0. split.
      - apply (wait_for_server_appends E 5 0 w0).
      - apply (wait_for_server_no_return E 5 0 w0). }
    clearbody loop.
    unfold find_free_port, is_port_in_use, TCPServer, server_close,
      try_finally, bind, call, raise, ret, verbose, print, Net.bind_listen.
    change (Net.resolve "") with Net.AnyInterface.
    destruct quiet; destruct port as [p|];
      cbn -[Net.in_use Z.eqb Net.accepts_on_localhost];
      repeat
        (match goal with
         | |- context [raises E ?s] => destruct (raises E s)
         | |- context [Net.accepts_on_localhost ?p ?t] =>
             destruct (Net.accepts_on_localhost p t)
         | |- context [(?p =? 0)%Z] => destruct (p =? 0)%Z
         | |- context [Net.in_use ?a ?p ?t] => destruct (Net.in_use a p t)
         | |- context [loop ?w0] =>
             let Hs := fresh "Hs" in
             let Hr := fresh "Hr" in
             destruct (Hloop w0) as (Hs & Hr);
             destruct (loop w0) as [[[]|?|?] ?]; cbn in Hs, Hr;
             try (exfalso; eapply Hr; reflexivity)
         end; cbn -[Net.in_use Z.eqb Net.accepts_on_localhost]);
      try discriminate;
      intros H; inversion H; subst;
      repeat match goal with
             | Hs : sockets _ = _ |- _ => rewrite Hs; clear Hs
             end;
      cbn; eauto.
Qed.

Lemma listening_addresses_witness :
  (let rw := run (start_http_server Examples.quiet_env ["srv"; "project"] 0)
               (initial []) in
   match fst rw with
   | Value r =>
       Net.server_addr (snd r) = Net.Loopback /\
       sockets (snd rw) =
         {| Net.s_addr := Net.Loopback; Net.s_port := fst r;
            Net.s_listening := true |} :: sockets (initial [])
   | Uncaught _ => False
   end)
  /\
  (let rw := run (serve_directory Examples.quiet_env None (Some 8080%Z) true
                    (fun _ w0 => (Returned (sockets w0), w0)))
               (initial Examples.busy_table) in
   match fst rw with
   | Value seen =>
       exists q,
         seen = {| Net.s_addr := Net.AnyInterface; Net.s_port := q;
                   Net.s_listening := true |}
                :: sockets (initial Examples.busy_table)
   | Uncaught _ => False
   end).
Proof.
  destruct listening_addresses as (Hstart & Hserve).
  split.
  - destruct (run (start_http_server Examples.quiet_env ["srv"; "project"] 0)
                (initial [])) as [[r|e] w'] eqn:Hrun.
    + exact (Hstart _ _ _ _ _ _ Hrun).
    + vm_compute in Hrun. discriminate.
  - destruct (run (serve_directory Examples.quiet_env None (Some 8080%Z) true
                     (fun _ w0 => (Returned (sockets w0), w0)))
                (initial Examples.busy_table)) as [[seen|e] w'] eqn:Hrun.
    + exact (Hserve _ _ _ _ _ _ _ Hrun).
    + vm_compute in Hrun. discriminate.
Defined.

(* ================================================================== *)
(** * Further properties of convert_html_file_to_image                 *)
(* ================================================================== *)

Import Runs.

(** ** Runs in which some call raises *)

Section FaultyRuns.

Variable E : env.

Lemma quietly_call_ok {R} (s : site) :
  raises E s = None -> quietly (@call E R s) (Normal tt) [s].
Proof. intros H w. unfold call. rewrite H. simpl. auto. Qed.

Lemma quietly_call_raises {R} (s : site) (e : exc) :
  raises E s = Some e -> quietly (@call E R s) (Raised e) [s].
Proof. intros H w. unfold call. rewrite H. simpl. auto. Qed.

Lemma quietly_evaluate_ok {R A} (s : site) (script : page -> A) :
  raises E s = None ->
  quietly (@evaluate E R A s script) (Normal (script (page_at E s))) [s].
Proof.
  intros H. unfold evaluate.
  eapply quietly_as; [eapply quietly_bind; [now apply quietly_call_ok|]|].
  - apply quietly_ret.
  - reflexivity.
Qed.

Lemma quietly_evaluate_raises {R A} (s : site) (script : page -> A) (e : exc) :
  raises E s = Some e -> quietly (@evaluate E R A s script) (Raised e) [s].
Proof.
  intros H w. unfold evaluate, bind, call. rewrite H. simpl. auto.
Qed.

Lemma quietly_bind_raised {R A B} (m : M R A) (k : A -> M R B) (e : exc)
    (d : list site) :
  quietly m (Raised e) d -> quietly (bind m k) (Raised e) d.
Proof.
  intros Hm w. unfold bind. destruct (Hm w) as (Hc & Hs & Hv & Ht).
  destruct (m w) as [c w1]; simpl in *. subst c. simpl. auto.
Qed.

Lemma quietly_bind_returned {R A B} (m : M R A) (k : A -> M R B) (r : R)
    (d : list site) :
  quietly m (Returned r) d -> quietly (bind m k) (Returned r) d.
Proof.
  intros Hm w. unfold bind. destruct (Hm w) as (Hc & Hs & Hv & Ht).
  destruct (m w) as [c w1]; simpl in *. subst c. simpl. auto.
Qed.

Lemma quietly_try_except_caught {R A} (body : M R A) (handler : exc -> M R A)
    (e : exc) (c : completion R A) (d1 d2 : list site) :
  quietly body (Raised e) d1 -> is_Exception e = true ->
  quietly (handler e) c d2 ->
  quietly (try_except body handler) c (d1 ++ d2).
Proof.
  intros Hb He Hh w. unfold try_except.
  destruct (Hb w) as (Hc & Hs & Hv & Ht).
  destruct (body w) as [c1 w1]; simpl in *. subst c1. rewrite He.
  destruct (Hh w1) as (Hc' & Hs' & Hv' & Ht').
  repeat split; try congruence. now rewrite Ht', Ht, app_assoc.
Qed.

Lemma quietly_try_except_passed {R A} (body : M R A) (handler : exc -> M R A)
    (e : exc) (d : list site) :
  quietly body (Raised e) d -> is_Exception e = false ->
  quietly (try_except body handler) (Raised e) d.
Proof.
  intros Hb He w. unfold try_except.
  destruct (Hb w) as (Hc & Hs & Hv & Ht).
  destruct (body w) as [c1 w1]; simpl in *. subst c1. rewrite He. simpl. auto.
Qed.

Lemma quietly_try_finally_raises {R A} (body : M R A) (fin : M R unit)
    (c : completion R A) (e : exc) (d1 d2 : list site) :
  quietly body c d1 -> quietly fin (Raised e) d2 ->
  quietly (try_finally body fin) (Raised e) (d1 ++ d2).
Proof.
  intros Hb Hf w. unfold try_finally.
  destruct (Hb w) as (Hc & Hs & Hv & Ht).
  destruct (body w) as [c1 w1]; simpl in *. subst c1.
  destruct (Hf w1) as (Hc' & Hs' & Hv' & Ht').
  destruct (fin w1) as [c2 w2]; simpl in *. subst c2. simpl.
  repeat split; try congruence. now rewrite Ht', Ht, app_assoc.
Qed.

(** What start_http_server leaves when its three calls come back. *)
Lemma serve_and_capture_after_start (html_file out : string) (debug : bool)
    (w0 : world) :
  raises E L45_TCPServer = None ->
  raises E L53_thread_start = None ->
  raises E L56_sleep = None ->
  serve_and_capture E html_file out debug w0 =
  capture_through E (Net.ephemeral_port (sockets w0)) html_file out debug
    {| sockets := served_socket (sockets w0) :: sockets w0;
       trace := trace w0 ++ [L45_TCPServer; L53_thread_start; L56_sleep];
       stdout := stdout w0
                 ++ [Started_on_port (Net.ephemeral_port (sockets w0))];
       httpd_var :=
         Some {| Net.server_addr := Net.Loopback;
                 Net.server_port := Net.ephemeral_port (sockets w0);
                 Net.server_handler := Http.SimpleHTTPServerHandler;
                 Net.server_directory := project_root E |} |}.
Proof.
  intros H45 H53 H56.
  unfold serve_and_capture. unfold bind at 1. unfold invoke, run.
  rewrite (start_http_server_runs E (project_root E) w0 H45 H53 H56).
  reflexivity.
Qed.

(** The [finally] of lines 364-373 on the server of line 135: it always
    runs off its end, whatever shutdown and server_close do. *)
Lemma close_server_after_start (debug : bool) (t : Net.table) (w : world) :
  sockets w = served_socket t :: t ->
  httpd_var w =
    Some {| Net.server_addr := Net.Loopback;
            Net.server_port := Net.ephemeral_port t;
            Net.server_handler := Http.SimpleHTTPServerHandler;
            Net.server_directory := project_root E |} ->
  fst (close_server E debug w) = Normal tt /\
  sockets (snd (close_server E debug w)) = sockets_after_teardown E t /\
  trace (snd (close_server E debug w)) = trace w ++ teardown_calls E.
Proof.
  intros Hs Hv.
  unfold close_server, server_close, get_httpd, try_except_all, bind, call,
    verbose, print, ret, teardown_calls, sockets_after_teardown.
  rewrite Hv.
  destruct (raises E L368_shutdown); simpl; [now rewrite Hs|].
  destruct (raises E L369_server_close); simpl.
  { rewrite Hs, <- app_assoc. auto. }
  destruct debug; simpl; rewrite Hs, <- app_assoc; simpl;
    rewrite Z.eqb_refl; auto.
Qed.

(** From lines 137-358 to the whole call: when the server starts, the run
    is the start, then what those lines do on the port of the server, then
    the teardown. *)
Lemma convert_around (html_file : string) (output_path : option string)
    (debug : bool) (w : world) (c : completion (option string) Empty_set)
    (d : list site) :
  raises E L45_TCPServer = None ->
  raises E L53_thread_start = None ->
  raises E L56_sleep = None ->
  quietly (capture_through E (Net.ephemeral_port (sockets w)) html_file
             (resolved_output E html_file output_path) debug) c d ->
  let r := convert E html_file output_path debug w in
  fst r = outcome c /\
  sockets (snd r) = sockets_after_teardown E (sockets w) /\
  trace (snd r) =
    trace w ++ [L45_TCPServer; L53_thread_start; L56_sleep] ++ d
            ++ teardown_calls E.
Proof.
  intros H45 H53 H56 Hcap r. subst r.
  destruct (convert_prefix E html_file output_path debug w)
    as (w0 & Hs0 & Ht0 & _ & Heq).
  rewrite Heq. clear Heq.
  set (out := resolved_output E html_file output_path) in *.
  unfold run, try_finally, try_except.
  rewrite (serve_and_capture_after_start html_file out debug w0 H45 H53 H56).
  rewrite Hs0.
  match goal with
  | |- context [capture_through E ?q html_file out debug ?w2] =>
      destruct (Hcap w2) as (Hc & Hs & Hv & Ht);
      destruct (capture_through E q html_file out debug w2) as [c1 w3]
  end.
  simpl in Hc, Hs, Hv, Ht. subst c1.
  assert (Hclose : forall w4 : world,
            httpd_var w4 = httpd_var w3 -> sockets w4 = sockets w3 ->
            trace w4 = trace w3 ->
            fst (close_server E debug w4) = Normal tt /\
            sockets (snd (close_server E debug w4)) =
              sockets_after_teardown E (sockets w) /\
            trace (snd (close_server E debug w4)) =
              trace w ++ [L45_TCPServer; L53_thread_start; L56_sleep] ++ d
                      ++ teardown_calls E).
  { intros w4 Hv4 Hs4 Ht4.
    destruct (close_server_after_start debug (sockets w) w4)
      as (H1 & H2 & H3); try congruence.
    repeat split; try assumption.
    rewrite H3, Ht4, Ht, Ht0, <- !app_assoc. reflexivity. }
  destruct c as [a|r|e]; [destruct a | |]; simpl.
  - destruct (Hclose w3 eq_refl eq_refl eq_refl) as (H1 & H2 & H3).
    destruct (close_server E debug w3) as [c4 w5]; simpl in *. subst c4.
    auto.
  - destruct (is_Exception e); simpl.
    + match goal with
      | |- context [close_server E debug ?w4] =>
          destruct (Hclose w4 eq_refl eq_refl eq_refl) as (H1 & H2 & H3);
          destruct (close_server E debug w4) as [c4 w5]
      end.
      simpl in *. subst c4. auto.
    + destruct (Hclose w3 eq_refl eq_refl eq_refl) as (H1 & H2 & H3).
      destruct (close_server E debug w3) as [c4 w5]; simpl in *. subst c4.
      auto.
Qed.

End FaultyRuns.

(** Follows a block along the one path its environment leaves it: [ok]
    shows that a call comes back, [exc] settles the class of an exception;
    a call that raises is found among the hypotheses. *)
Ltac run ok exc :=
  cbv beta;
  lazymatch goal with
  | |- quietly (ret _) _ _ => apply quietly_ret
  | |- quietly (return_ _) _ _ => apply quietly_return
  | |- quietly (print _) _ _ => apply quietly_print
  | |- quietly (verbose _ _) _ _ => apply quietly_verbose
  | |- quietly (print_details _) _ _ => apply quietly_print_details
  | |- quietly (call _ _) _ _ =>
      first [ apply quietly_call_ok; solve [ok]
            | eapply quietly_call_raises; eassumption ]
  | |- quietly (evaluate _ _ _) _ _ =>
      first [ apply quietly_evaluate_ok; solve [ok]
            | eapply quietly_evaluate_raises; eassumption ]
  | |- quietly (bind _ _) _ _ =>
      first [ eapply quietly_bind; [solve [run ok exc] | run ok exc]
            | eapply quietly_bind_raised; solve [run ok exc]
            | eapply quietly_bind_returned; solve [run ok exc] ]
  | |- quietly (try_except _ _) _ _ =>
      first [ eapply quietly_try_except; [solve [run ok exc] | discriminate]
            | eapply quietly_try_except_caught;
                [solve [run ok exc] | solve [exc] | run ok exc]
            | eapply quietly_try_except_passed;
                [solve [run ok exc] | solve [exc]] ]
  | |- quietly (try_finally _ _) _ _ =>
      first [ eapply quietly_try_finally;
                [solve [run ok exc] | solve [run ok exc]]
            | eapply quietly_try_finally_raises;
                [solve [run ok exc] | solve [run ok exc]] ]
  | |- quietly (with_ _ _ _) _ _ =>
      eapply quietly_with;
        [solve [run ok exc] | solve [run ok exc] | solve [run ok exc]]
  | |- quietly (if ?b then _ else _) _ _ =>
      first [ match goal with
              | Hb : b = _ |- _ => rewrite Hb; run ok exc
              end
            | eapply quietly_if; [run ok exc | run ok exc] ]
  end.

(** ** Where a run ends *)

Section Endings.

Lemma ends_here (tail : list site) : exists pre, tail = pre ++ tail.
Proof. now exists []. Qed.

Lemma ends_cons (s : site) (d tail : list site) :
  (exists pre, d = pre ++ tail) -> exists pre, s :: d = pre ++ tail.
Proof. intros (pre & ->). now exists (s :: pre). Qed.

Lemma ends_app (d1 d2 tail : list site) :
  (exists pre, d2 = pre ++ tail) -> exists pre, d1 ++ d2 = pre ++ tail.
Proof. intros (pre & ->). exists (d1 ++ pre). now rewrite app_assoc. Qed.

Lemma teardown_calls_ok (E : env) :
  raises E L368_shutdown = None ->
  teardown_calls E = [L368_shutdown; L369_server_close].
Proof. unfold teardown_calls. now intros ->. Qed.

Lemma sockets_after_teardown_ok (E : env) (t : Net.table) :
  raises E L368_shutdown = None -> raises E L369_server_close = None ->
  sockets_after_teardown E t = t.
Proof. unfold sockets_after_teardown. now intros -> ->. Qed.

End Endings.

(** Finds the given last calls at the end of a trace. *)
Ltac find_ending :=
  rewrite <- ?app_assoc; simpl;
  repeat first [apply ends_here | apply ends_cons | apply ends_app].

Section Scenarios.

Variable E : env.


(** X2. When browser.close() at line 358 raises an Exception and nothing
    else raises, the screenshot has been taken and written, and yet the
    call returns None: the exception leaves the inner [finally] and is
    caught at line 359. The server is still shut down. *)
Theorem failed_close_discards_the_screenshot (html_file : string)
    (output_path : option string) (debug : bool) (w : world) (e : exc) :
  (forall s, s <> L358_browser_close -> raises E s = None) ->
  raises E L358_browser_close = Some e ->
  is_Exception e = true ->
  let r := convert E html_file output_path debug w in
  fst r = Value None /\
  sockets (snd r) = sockets w /\
  exists pre,
    trace (snd r) =
      trace w ++ pre
        ++ [L346_screenshot (resolved_output E html_file output_path);
            L358_browser_close; L162_sync_playwright_exit;
            L368_shutdown; L369_server_close].
Proof.
  intros Hothers H358 He.
  set (out := resolved_output E html_file output_path).
  assert (Hcap : exists d,
             quietly (capture_through E (Net.ephemeral_port (sockets w))
                        html_file out debug) (Raised e) d /\
             exists pre,
               d = pre ++ [L346_screenshot out; L358_browser_close;
                           L162_sync_playwright_exit]).
  { eexists. split.
    - unfold capture_through, check_server, with_browser, load_and_capture,
        wait_for_charts.
      run ltac:(apply Hothers; discriminate) ltac:(assumption).
    - find_ending. }
  destruct Hcap as (d & Hcap & pre & ->).
  destruct (convert_around E html_file output_path debug w (Raised e) _
              (Hothers L45_TCPServer ltac:(discriminate))
              (Hothers L53_thread_start ltac:(discriminate))
              (Hothers L56_sleep ltac:(discriminate)) Hcap)
    as (Hr & Hs & Ht).
  rewrite teardown_calls_ok in Ht by (apply Hothers; discriminate).
  rewrite sockets_after_teardown_ok in Hs by (apply Hothers; discriminate).
  simpl in Hr. rewrite He in Hr.
  split; [exact Hr|]. split; [exact Hs|].
  exists ([L45_TCPServer; L53_thread_start; L56_sleep] ++ pre).
  rewrite Ht, <- !app_assoc. reflexivity.
Qed.

(** X3. When page.goto at line 178 raises and no other call does, the
    browser is closed, the playwright context left and the server shut
    down, in that order, and the socket table is as before the call. An
    Exception comes back as None; anything else, a KeyboardInterrupt say,
    reaches the caller. *)
Theorem failed_navigation_is_cleaned_up (html_file : string)
    (output_path : option string) (debug : bool) (w : world) (e : exc) :
  (forall s, is_goto s = false -> raises E s = None) ->
  raises E (L178_goto (document_url E (Net.ephemeral_port (sockets w))
                         html_file)) = Some e ->
  let r := convert E html_file output_path debug w in
  fst r = (if is_Exception e then Value None else Uncaught e) /\
  sockets (snd r) = sockets w /\
  trace (snd r) =
    trace w ++ [L45_TCPServer; L53_thread_start; L56_sleep;
                L147_import_requests;
                L151_requests_get (Net.ephemeral_port (sockets w));
                L162_sync_playwright_enter; L164_launch; L171_new_context;
                L175_new_page;
                L178_goto (document_url E (Net.ephemeral_port (sockets w))
                             html_file);
                L358_browser_close; L162_sync_playwright_exit;
                L368_shutdown; L369_server_close].
Proof.
  intros Hothers Hgoto.
  set (port := Net.ephemeral_port (sockets w)) in *.
  set (out := resolved_output E html_file output_path).
  assert (Hcap : exists c,
             quietly (capture_through E port html_file out debug) c
               [L147_import_requests; L151_requests_get port;
                L162_sync_playwright_enter; L164_launch; L171_new_context;
                L175_new_page; L178_goto (document_url E port html_file);
                L358_browser_close; L162_sync_playwright_exit] /\
             outcome c = if is_Exception e then Value None else Uncaught e).
  { unfold document_url in *.
    destruct (is_Exception e) eqn:He.
    - exists (Returned None). split; [|reflexivity].
      unfold capture_through, check_server, with_browser, load_and_capture.
      eapply quietly_as;
        [run ltac:(apply Hothers; reflexivity) ltac:(assumption)|].
      destruct (status_code E =? 200)%Z; reflexivity.
    - exists (Raised e). split; [|simpl; now rewrite He].
      unfold capture_through, check_server, with_browser, load_and_capture.
      eapply quietly_as;
        [run ltac:(apply Hothers; reflexivity) ltac:(assumption)|].
      destruct (status_code E =? 200)%Z; reflexivity. }
  destruct Hcap as (c & Hcap & Hout).
  destruct (convert_around E html_file output_path debug w c _
              (Hothers L45_TCPServer eq_refl)
              (Hothers L53_thread_start eq_refl)
              (Hothers L56_sleep eq_refl) Hcap) as (Hr & Hs & Ht).
  rewrite teardown_calls_ok in Ht by (apply Hothers; reflexivity).
  rewrite sockets_after_teardown_ok in Hs by (apply Hothers; reflexivity).
  rewrite Hout in Hr. auto.
Qed.

(** X4. When the only calls that raise are the two selector waits and the
    image probe (lines 217, 327, 331), and what they raise are Exceptions,
    the run still ends with the measurement, the resize to the measured
    height, the screenshot and the releases, and returns the output
    path. *)
Theorem tolerated_faults_do_not_stop_the_capture (html_file : string)
    (output_path : option string) (debug : bool) (w : world) :
  only_caught_faults E ->
  let r := convert E html_file output_path debug w in
  let out := resolved_output E html_file output_path in
  fst r = Value (Some out) /\
  sockets (snd r) = sockets w /\
  exists pre,
    trace (snd r) =
      trace w ++ pre
        ++ [L342_evaluate_scrollHeight;
            L343_set_viewport_size
              (scrollHeight (page_at E L342_evaluate_scrollHeight));
            L346_screenshot out; L358_browser_close;
            L162_sync_playwright_exit; L368_shutdown; L369_server_close].
Proof.
  intros (Hcrit & Hexc & H368 & H369) r out. subst r.
  assert (Hcap : exists d,
             quietly (capture_through E (Net.ephemeral_port (sockets w))
                        html_file out debug) (Returned (Some out)) d /\
             exists pre,
               d = pre ++ [L342_evaluate_scrollHeight;
                           L343_set_viewport_size
                             (scrollHeight
                                (page_at E L342_evaluate_scrollHeight));
                           L346_screenshot out; L358_browser_close;
                           L162_sync_playwright_exit]).
  { unfold capture_through, check_server, with_browser, load_and_capture,
      wait_for_charts.
    destruct (raises E L217_wait_for_selector) eqn:H217;
      destruct (raises E L327_evaluate_has_images) eqn:H327;
      destruct (raises E L331_wait_for_selector) eqn:H331;
      destruct (has_images_script (page_at E L327_evaluate_has_images))
        eqn:Himg;
      (eexists; split;
       [ run ltac:(first [assumption | apply Hcrit; reflexivity])
             ltac:(eapply Hexc; eassumption)
       | find_ending ]). }
  destruct Hcap as (d & Hcap & pre & ->).
  destruct (convert_around E html_file output_path debug w _ _
              (Hcrit L45_TCPServer eq_refl) (Hcrit L53_thread_start eq_refl)
              (Hcrit L56_sleep eq_refl) Hcap) as (Hr & Hs & Ht).
  rewrite teardown_calls_ok in Ht by assumption.
  rewrite sockets_after_teardown_ok in Hs by assumption.
  split; [exact Hr|]. split; [exact Hs|].
  exists ([L45_TCPServer; L53_thread_start; L56_sleep] ++ pre).
  rewrite Ht, <- !app_assoc. reflexivity.
Qed.


(** X6. When httpd.shutdown() at line 368 raises, whatever it raises, and
    nothing else does, the bare [except] swallows it: the call still
    returns the output path after the screenshot, server_close is never
    called, and the server's socket stays in the table. *)
Theorem teardown_errors_are_swallowed (html_file : string)
    (output_path : option string) (debug : bool) (w : world) (e : exc) :
  (forall s, s <> L368_shutdown -> raises E s = None) ->
  raises E L368_shutdown = Some e ->
  let r := convert E html_file output_path debug w in
  let out := resolved_output E html_file output_path in
  fst r = Value (Some out) /\
  sockets (snd r) = served_socket (sockets w) :: sockets w /\
  exists pre,
    trace (snd r) =
      trace w ++ pre
        ++ [L346_screenshot out; L358_browser_close;
            L162_sync_playwright_exit; L368_shutdown].
Proof.
  intros Hothers H368 r out. subst r.
  assert (Hcap : exists d,
             quietly (capture_through E (Net.ephemeral_port (sockets w))
                        html_file out debug) (Returned (Some out)) d /\
             exists pre,
               d = pre ++ [L346_screenshot out; L358_browser_close;
                           L162_sync_playwright_exit]).
  { eexists. split.
    - unfold capture_through, check_server, with_browser, load_and_capture,
        wait_for_charts.
      run ltac:(apply Hothers; discriminate) ltac:(assumption).
    - find_ending. }
  destruct Hcap as (d & Hcap & pre & ->).
  destruct (convert_around E html_file output_path debug w _ _
              (Hothers L45_TCPServer ltac:(discriminate))
              (Hothers L53_thread_start ltac:(discriminate))
              (Hothers L56_sleep ltac:(discriminate)) Hcap)
    as (Hr & Hs & Ht).
  unfold teardown_calls in Ht. unfold sockets_after_teardown in Hs.
  rewrite H368 in Ht, Hs.
  split; [exact Hr|]. split; [exact Hs|].
  exists ([L45_TCPServer; L53_thread_start; L56_sleep] ++ pre).
  rewrite Ht, <- !app_assoc. reflexivity.
Qed.

End Scenarios.


Lemma failed_close_discards_the_screenshot_witness :
  let r := convert unclosable_env Examples.report None false (initial []) in
  fst r = Value None /\
  sockets (snd r) = [] /\
  exists pre,
    trace (snd r) =
      [] ++ pre
        ++ [L346_screenshot "output/report.png"; L358_browser_close;
            L162_sync_playwright_exit; L368_shutdown; L369_server_close].
Proof.
  apply (failed_close_discards_the_screenshot unclosable_env Examples.report
           None false (initial []) (LibraryError "TargetClosedError")).
  - intros s Hs. destruct s; try reflexivity. now contradiction Hs.
  - reflexivity.
  - reflexivity.
Defined.

Lemma failed_navigation_is_cleaned_up_witness :
  let r := convert interrupted_env Examples.report None false (initial []) in
  fst r = Uncaught KeyboardInterrupt /\
  sockets (snd r) = [] /\
  trace (snd r) =
    [L45_TCPServer; L53_thread_start; L56_sleep; L147_import_requests;
     L151_requests_get 49152; L162_sync_playwright_enter; L164_launch;
     L171_new_context; L175_new_page;
     L178_goto {| url_port := 49152; url_path := ["output"; "report.html"] |};
     L358_browser_close; L162_sync_playwright_exit;
     L368_shutdown; L369_server_close].
Proof.
  apply (failed_navigation_is_cleaned_up interrupted_env Examples.report None
           false (initial []) KeyboardInterrupt).
  - intros s Hs. destruct s; try reflexivity. discriminate Hs.
  - reflexivity.
Defined.

Lemma tolerated_faults_do_not_stop_the_capture_witness :
  let r := convert impatient_env Examples.report None false (initial []) in
  fst r = Value (Some "output/report.png") /\
  sockets (snd r) = [] /\
  exists pre,
    trace (snd r) =
      [] ++ pre
        ++ [L342_evaluate_scrollHeight; L343_set_viewport_size 600;
            L346_screenshot "output/report.png"; L358_browser_close;
            L162_sync_playwright_exit; L368_shutdown; L369_server_close].
Proof.
  apply (tolerated_faults_do_not_stop_the_capture impatient_env
           Examples.report None false (initial [])).
  repeat split.
  - intros s Hs. destruct s; try reflexivity; discriminate Hs.
  - intros s e He. destruct s; try discriminate He;
      injection He as <-; reflexivity.
Defined.


Lemma teardown_errors_are_swallowed_witness :
  let r := convert stuck_env Examples.report None false (initial []) in
  fst r = Value (Some "output/report.png") /\
  sockets (snd r) = [served_socket []] /\
  exists pre,
    trace (snd r) =
      [] ++ pre
        ++ [L346_screenshot "output/report.png"; L358_browser_close;
            L162_sync_playwright_exit; L368_shutdown].
Proof.
  apply (teardown_errors_are_swallowed stuck_env Examples.report None false
           (initial []) (LibraryError "shutdown")).
  - intros s Hs. destruct s; try reflexivity. now contradiction Hs.
  - reflexivity.
Defined.

(** ** In every environment *)

Section Counting.

Variable E : env.

Lemma appends_after_evaluate {R A B} (f : site -> bool) (k : nat) (s : site)
    (script : page -> A) (g : A -> M R B) :
  f s = false ->
  appends f k (g (script (page_at E s))) ->
  appends f k (bind (evaluate E s script) g).
Proof.
  intros Hf Hg w. unfold bind, evaluate, call, ret.
  destruct (raises E s); simpl.
  - repeat split. exists [s]. split; [reflexivity|].
    unfold count_sites. simpl. rewrite Hf. simpl. lia.
  - destruct (Hg (log s w)) as (Hs & Hv & d & Ht & Hc).
    repeat split; try assumption.
    exists (s :: d). simpl in Ht. rewrite Ht, <- app_assoc.
    split; [reflexivity|].
    unfold count_sites in *. simpl. now rewrite Hf.
Qed.

(** X7. On a page where the probe of lines 196-204 finds neither the
    global vegaEmbed nor a script tag of the library, no run makes any of
    the calls of lines 206-323: no wait for the library or its container,
    no script injection, no check, no forced render, whatever raises. *)
Theorem pages_without_the_library_skip_the_chart_steps (html_file : string)
    (output_path : option string) (debug : bool) (w : world) :
  has_vega_script (page_at E L196_evaluate_has_vega) = false ->
  exists d,
    trace (snd (convert E html_file output_path debug w)) = trace w ++ d /\
    count_sites is_chart_step d = 0.
Proof.
  intros Hvega.
  destruct (convert_trace E is_chart_step 0 eq_refl eq_refl eq_refl eq_refl)
    with (html_file := html_file) (output_path := output_path)
         (debug := debug) (w := w) as (d & Ht & Hc).
  { intros port hf out dbg.
    unfold capture_through, check_server, with_browser, load_and_capture.
    eapply appends_weaken;
      [ repeat first
          [ progress cbv beta
          | rewrite Hvega
          | eapply appends_after_evaluate; [reflexivity|]
          | step_appends ]
      | simpl; lia ]. }
  exists (L45_TCPServer :: d). split; [exact Ht|].
  unfold count_sites in *. simpl. lia.
Qed.


End Counting.

Lemma pages_without_the_library_skip_the_chart_steps_witness :
  exists d,
    trace (snd (convert plain_env Examples.report None false (initial []))) =
      trace (initial []) ++ d /\
    count_sites is_chart_step d = 0.
Proof.
  apply (pages_without_the_library_skip_the_chart_steps plain_env
           Examples.report None false (initial [])).
  reflexivity.
Defined.

(** ** What only changes the output *)

Section Agreement.

Variable E : env.

Lemma same_but_stdout_refl (w : world) : same_but_stdout w w.
Proof. repeat split. Qed.

Lemma silent_ret {R} : silent (@ret R unit tt).
Proof. intros w. split; [reflexivity | apply same_but_stdout_refl]. Qed.

Lemma silent_print {R} (msg : message) : silent (@print R msg).
Proof. intros w. repeat split. Qed.

Lemma silent_verbose {R} (debug : bool) (line : nat) :
  silent (@verbose R debug line).
Proof. destruct debug; [apply silent_print | apply silent_ret]. Qed.

Lemma silent_bind {R} (m : M R unit) (k : unit -> M R unit) :
  silent m -> silent (k tt) -> silent (bind m k).
Proof.
  intros Hm Hk w. unfold bind. destruct (Hm w) as (Hc & Hs & Ht & Hv).
  destruct (m w) as [c w1]; simpl in *. subst c.
  destruct (Hk w1) as (Hc' & Hs' & Ht' & Hv').
  split; [assumption|]. repeat split; congruence.
Qed.

Lemma silent_if {R} (b : bool) (m1 m2 : M R unit) :
  silent m1 -> silent m2 -> silent (if b then m1 else m2).
Proof. now destruct b. Qed.

Lemma silent_print_details {R} (ds : list Readiness.detail) :
  silent (@print_details R ds).
Proof.
  induction ds as [|x ds IH]; simpl.
  - apply silent_ret.
  - apply silent_bind; [apply silent_print | exact IH].
Qed.

Lemma agree_silent {R} (m1 m2 : M R unit) :
  silent m1 -> silent m2 -> agree m1 m2.
Proof.
  intros H1 H2 w1 w2 (Hs & Ht & Hv).
  destruct (H1 w1) as (Hc1 & Hs1 & Ht1 & Hv1).
  destruct (H2 w2) as (Hc2 & Hs2 & Ht2 & Hv2).
  split; [congruence|]. repeat split; congruence.
Qed.

Lemma agree_ret {R A} (a : A) : agree (@ret R A a) (ret a).
Proof. intros w1 w2 H. split; [reflexivity | exact H]. Qed.

Lemma agree_return {R A} (r : R) : agree (@return_ R A r) (return_ r).
Proof. intros w1 w2 H. split; [reflexivity | exact H]. Qed.

Lemma agree_print {R A} (msg1 msg2 : message) (k1 k2 : M R A) :
  agree k1 k2 -> agree (bind (print msg1) (fun _ => k1))
                       (bind (print msg2) (fun _ => k2)).
Proof.
  intros Hk w1 w2 (Hs & Ht & Hv). unfold bind, print. apply Hk.
  repeat split; assumption.
Qed.

Lemma agree_call {R} (s : site) : agree (@call E R s) (call E s).
Proof.
  intros w1 w2 (Hs & Ht & Hv). unfold call.
  destruct (raises E s); simpl; (split; [reflexivity|]);
    repeat split; simpl; congruence.
Qed.

Lemma agree_bind {R A B} (m1 m2 : M R A) (k1 k2 : A -> M R B) :
  agree m1 m2 -> (forall a, agree (k1 a) (k2 a)) ->
  agree (bind m1 k1) (bind m2 k2).
Proof.
  intros Hm Hk w1 w2 H. unfold bind.
  destruct (Hm w1 w2 H) as (Hc & Hw).
  destruct (m1 w1) as [c1 v1], (m2 w2) as [c2 v2]; simpl in *. subst c2.
  destruct c1 as [a|r|e]; [now apply Hk | auto | auto].
Qed.

Lemma agree_evaluate {R A} (s : site) (script : page -> A) :
  agree (@evaluate E R A s script) (evaluate E s script).
Proof.
  unfold evaluate. apply agree_bind; [apply agree_call|].
  intros _. apply agree_ret.
Qed.

Lemma agree_try_except {R A} (b1 b2 : M R A) (h1 h2 : exc -> M R A) :
  agree b1 b2 -> (forall e, agree (h1 e) (h2 e)) ->
  agree (try_except b1 h1) (try_except b2 h2).
Proof.
  intros Hb Hh w1 w2 H. unfold try_except.
  destruct (Hb w1 w2 H) as (Hc & Hw).
  destruct (b1 w1) as [c1 v1], (b2 w2) as [c2 v2]; simpl in *. subst c2.
  destruct c1 as [a|r|e]; auto.
  destruct (is_Exception e); [now apply Hh | auto].
Qed.

Lemma agree_try_finally {R A} (b1 b2 : M R A) (f1 f2 : M R unit) :
  agree b1 b2 -> agree f1 f2 ->
  agree (try_finally b1 f1) (try_finally b2 f2).
Proof.
  intros Hb Hf w1 w2 H. unfold try_finally.
  destruct (Hb w1 w2 H) as (Hc & Hw).
  destruct (b1 w1) as [c1 v1], (b2 w2) as [c2 v2]; simpl in *. subst c2.
  destruct (Hf v1 v2 Hw) as (Hc' & Hw').
  destruct (f1 v1) as [c3 v3], (f2 v2) as [c4 v4]; simpl in *. subst c4.
  destruct c3 as [a|r|e]; auto.
Qed.

Lemma agree_with {R A X} (en1 en2 : M R X) (ex1 ex2 : X -> M R unit)
    (b1 b2 : X -> M R A) :
  agree en1 en2 -> (forall x, agree (ex1 x) (ex2 x)) ->
  (forall x, agree (b1 x) (b2 x)) ->
  agree (with_ en1 ex1 b1) (with_ en2 ex2 b2).
Proof.
  intros He Hx Hb. unfold with_. apply agree_bind; [assumption|].
  intros x. apply agree_try_finally; auto.
Qed.

Lemma agree_if {R A} (b : bool) (m1 m2 n1 n2 : M R A) :
  agree m1 n1 -> agree m2 n2 ->
  agree (if b then m1 else m2) (if b then n1 else n2).
Proof. now destruct b. Qed.

Lemma agree_set_httpd {R} (h : option Net.httpd) :
  agree (@set_httpd R h) (set_httpd h).
Proof.
  intros w1 w2 (Hs & Ht & Hv). split; [reflexivity|].
  repeat split; assumption.
Qed.

Lemma agree_start_http_server {R} (root : path) (port : Z) :
  agree (@invoke R _ (start_http_server E root port))
        (invoke (start_http_server E root port)).
Proof.
  intros w1 w2 (Hs & Ht & Hv).
  unfold invoke, run, start_http_server, TCPServer, bind, call, print,
    return_.
  cbn [sockets log]. rewrite Hs.
  destruct (raises E L45_TCPServer); simpl.
  { split; [reflexivity|]. repeat split; simpl; congruence. }
  destruct (Net.bind_listen _ _ _) as [[q|e] t]; simpl.
  2: { split; [reflexivity|]. repeat split; simpl; congruence. }
  destruct (raises E L53_thread_start); simpl.
  { split; [reflexivity|]. repeat split; simpl; congruence. }
  destruct (raises E L56_sleep); simpl.
  all: split; [reflexivity|]; repeat split; simpl; congruence.
Qed.

Lemma agree_close_server (debug1 debug2 : bool) :
  agree (close_server E debug1) (close_server E debug2).
Proof.
  intros w1 w2 (Hs & Ht & Hv).
  unfold close_server, server_close, get_httpd, try_except_all, bind, call,
    verbose, print, ret.
  rewrite Hv.
  destruct (httpd_var w2) eqn:Hh; simpl.
  2: { split; [reflexivity|]. repeat split; congruence. }
  destruct (raises E L368_shutdown); simpl.
  { split; [reflexivity|]. repeat split; simpl; congruence. }
  destruct (raises E L369_server_close); simpl.
  { split; [reflexivity|]. repeat split; simpl; congruence. }
  destruct debug1, debug2; simpl.
  all: split; [reflexivity|]; repeat split; simpl; congruence.
Qed.

End Agreement.

Ltac step_silent :=
  first
    [ apply silent_ret
    | apply silent_print
    | apply silent_verbose
    | apply silent_print_details
    | apply silent_bind
    | apply silent_if ].

Ltac step_agree :=
  first
    [ apply agree_silent; [solve [repeat step_silent] | solve [repeat step_silent]]
    | apply agree_ret
    | apply agree_return
    | apply agree_call
    | apply agree_evaluate
    | apply agree_print
    | apply agree_bind; [| intros ?]
    | apply agree_try_except; [| intros ?]
    | apply agree_try_finally
    | apply agree_with; [| intros ? | intros ?]
    | apply agree_if ].

Section PrintingOnly.

Variable E : env.




End PrintingOnly.


(** ** Failures are reported *)

Section LoudRules.

Variable E : env.

Lemma loud_ret {A} (a : A) : loud (ret a).
Proof. intros w. exists []. simpl. rewrite app_nil_r. split; [auto | discriminate]. Qed.

Lemma loud_return_path {A} (p : string) : loud (@return_ _ A (Some p)).
Proof. intros w. exists []. simpl. rewrite app_nil_r. split; [auto | discriminate]. Qed.

Lemma loud_print (msg : message) : loud (print msg).
Proof. intros w. exists [msg]. simpl. split; [auto | discriminate]. Qed.

Lemma loud_verbose (debug : bool) (line : nat) : loud (verbose debug line).
Proof. unfold verbose. destruct debug; [apply loud_print | apply loud_ret]. Qed.

(** [print(...); return None] with one of the diagnostics. *)
Lemma loud_failure {A} (msg : message) :
  is_diagnostic msg = true ->
  loud (bind (print msg) (fun _ => @return_ _ A None)).
Proof.
  intros Hm w. exists [msg]. simpl. split; [reflexivity|].
  intros _. now rewrite Hm.
Qed.

Lemma loud_call (s : site) : loud (call E s).
Proof.
  intros w. exists []. unfold call.
  destruct (raises E s); simpl; rewrite app_nil_r; split; auto; discriminate.
Qed.

Lemma loud_bind {A B} (m : M (option string) A)
    (k : A -> M (option string) B) :
  loud m -> (forall a, loud (k a)) -> loud (bind m k).
Proof.
  intros Hm Hk w. unfold bind.
  destruct (Hm w) as (out & Ho & Hd).
  destruct (m w) as [[a|r|e] w1]; simpl in *.
  - destruct (Hk a w1) as (out' & Ho' & Hd').
    exists (out ++ out'). rewrite Ho', Ho, app_assoc. split; [reflexivity|].
    intros H. rewrite existsb_app, (Hd' H). apply orb_true_r.
  - exists out. split; [assumption|].
    intros H. apply Hd. congruence.
  - exists out. split; [assumption | discriminate].
Qed.

Lemma loud_evaluate {A} (s : site) (script : page -> A) :
  loud (evaluate E s script).
Proof.
  unfold evaluate. apply loud_bind; [apply loud_call|].
  intros _. apply loud_ret.
Qed.

Lemma loud_print_details (ds : list Readiness.detail) :
  loud (print_details ds).
Proof.
  induction ds as [|x ds IH]; simpl.
  - apply loud_ret.
  - apply loud_bind; [apply loud_print | intros _; exact IH].
Qed.

Lemma loud_if {A} (b : bool) (m1 m2 : M (option string) A) :
  loud m1 -> loud m2 -> loud (if b then m1 else m2).
Proof. now destruct b. Qed.

Lemma loud_try_except {A} (body : M (option string) A)
    (handler : exc -> M (option string) A) :
  loud body -> (forall e, loud (handler e)) -> loud (try_except body handler).
Proof.
  intros Hb Hh w. unfold try_except.
  destruct (Hb w) as (out & Ho & Hd).
  destruct (body w) as [[a|r|e] w1]; simpl in *.
  - exists out. split; [assumption | discriminate].
  - exists out. split; [assumption | exact Hd].
  - destruct (is_Exception e).
    + destruct (Hh e w1) as (out' & Ho' & Hd').
      exists (out ++ out'). rewrite Ho', Ho, app_assoc. split; [reflexivity|].
      intros H. rewrite existsb_app, (Hd' H). apply orb_true_r.
    + exists out. split; [assumption | discriminate].
Qed.

Lemma loud_try_finally {A} (body : M (option string) A)
    (fin : M (option string) unit) :
  loud body -> loud fin -> no_return fin -> loud (try_finally body fin).
Proof.
  intros Hb Hf Hn w. unfold try_finally.
  destruct (Hb w) as (out & Ho & Hd).
  destruct (body w) as [c w1]; simpl in *.
  destruct (Hf w1) as (out' & Ho' & _).
  specialize (Hn w1).
  destruct (fin w1) as [[a|r|e] w2]; simpl in *.
  - exists (out ++ out'). rewrite Ho', Ho, app_assoc. split; [reflexivity|].
    intros H. rewrite existsb_app, (Hd H). reflexivity.
  - exfalso. now apply (Hn r).
  - exists (out ++ out'). rewrite Ho', Ho, app_assoc.
    split; [reflexivity | discriminate].
Qed.

Lemma loud_with {A X} (enter : M (option string) X)
    (exit : X -> M (option string) unit)
    (body : X -> M (option string) A) :
  loud enter -> (forall x, loud (exit x)) -> (forall x, no_return (exit x)) ->
  (forall x, loud (body x)) ->
  loud (with_ enter exit body).
Proof.
  intros He Hx Hn Hb. unfold with_. apply loud_bind; [assumption|].
  intros x. apply loud_try_finally; auto.
Qed.

Lemma loud_start_http_server (root : path) (port : Z) :
  loud (invoke (start_http_server E root port)).
Proof.
  intros w.
  unfold invoke, run, start_http_server, TCPServer, bind, call, print,
    return_.
  destruct (raises E L45_TCPServer); simpl.
  { exists []. rewrite app_nil_r. split; [reflexivity | discriminate]. }
  destruct (Net.bind_listen _ _ _) as [[q|e] t]; simpl.
  2: { exists []. rewrite app_nil_r. split; [reflexivity | discriminate]. }
  destruct (raises E L53_thread_start); simpl.
  { eexists. split; [reflexivity | discriminate]. }
  destruct (raises E L56_sleep); simpl.
  all: eexists; split; [reflexivity | discriminate].
Qed.

Lemma loud_set_httpd (h : option Net.httpd) : loud (set_httpd h).
Proof.
  intros w. exists []. simpl. rewrite app_nil_r.
  split; [reflexivity | discriminate].
Qed.

Lemma loud_close_server (debug : bool) : loud (close_server E debug).
Proof.
  intros w.
  unfold close_server, server_close, get_httpd, try_except_all, bind, call,
    verbose, print, ret.
  destruct (httpd_var w); simpl.
  2: { exists []. rewrite app_nil_r. split; [reflexivity | discriminate]. }
  destruct (raises E L368_shutdown); simpl.
  { exists []. rewrite app_nil_r. split; [reflexivity | discriminate]. }
  destruct (raises E L369_server_close); simpl.
  { exists []. rewrite app_nil_r. split; [reflexivity | discriminate]. }
  destruct debug; simpl.
  - eexists. split; [reflexivity | discriminate].
  - exists []. rewrite app_nil_r. split; [reflexivity | discriminate].
Qed.

End LoudRules.

Ltac step_loud :=
  first
    [ apply loud_ret
    | apply loud_return_path
    | apply loud_print
    | apply loud_verbose
    | apply loud_print_details
    | apply loud_failure; reflexivity
    | apply loud_call
    | apply loud_evaluate
    | apply loud_set_httpd
    | apply loud_start_http_server
    | apply loud_close_server
    | apply loud_bind; [| intros ?]
    | apply loud_try_except; [| intros ?]
    | apply loud_try_finally; [| | first [ apply no_return_call
                                        | intros ? ?; rewrite close_server_normal;
                                          discriminate ]]
    | apply loud_with; [| intros ? | intros ?; apply no_return_call | intros ?]
    | apply loud_if ].

(** X11. A call that returns None has printed why: one of the lines of
    158, 353 or 360, with the exception it caught, debug or not. *)
Theorem failures_are_reported (E : env) (html_file : string)
    (output_path : option string) (debug : bool) (w : world) :
  let r := convert E html_file output_path debug w in
  fst r = Value None ->
  exists out,
    stdout (snd r) = stdout w ++ out /\
    existsb is_diagnostic out = true.
Proof.
  intros r. subst r. unfold convert, run.
  assert (H : loud (convert_html_file_to_image E html_file output_path debug)).
  { unfold convert_html_file_to_image, serve_and_capture, capture_through,
      check_server, with_browser, load_and_capture, wait_for_charts.
    repeat step_loud. }
  destruct (H w) as (out & Ho & Hd).
  destruct (convert_html_file_to_image E html_file output_path debug w)
    as [[[]|[p|]|e] w1]; simpl in *; try discriminate.
  intros _. exists out. auto.
Qed.

Lemma failures_are_reported_witness :
  let r := convert Examples.unreachable_env Examples.report None false
             (initial []) in
  exists out,
    stdout (snd r) = stdout (initial []) ++ out /\
    existsb is_diagnostic out = true.
Proof.
  apply (failures_are_reported Examples.unreachable_env Examples.report None
           false (initial [])).
  reflexivity.
Defined.

(** ** The order of the capture steps *)

Section Shapes.

Variable E : env.
Variable g : site -> bool.
Variable Q : list site -> Prop.

Hypothesis Q_nil : Q [].

Lemma filter_none (d : list site) : count_sites g d <= 0 -> filter g d = [].
Proof.
  unfold count_sites. intros H. destruct (filter g d); [reflexivity|].
  simpl in H. lia.
Qed.

Lemma shaped_bind_after {R A B} (m : M R A) (k : A -> M R B) :
  appends g 0 m -> (forall a, shaped g Q (k a)) -> shaped g Q (bind m k).
Proof.
  intros Hm Hk w. unfold bind.
  destruct (Hm w) as (Hs & Hv & d & Ht & Hc).
  destruct (m w) as [[a|r|e] w1]; simpl in *.
  - destruct (Hk a w1) as (Hs' & Hv' & d' & Ht' & HQ).
    repeat split; try congruence.
    exists (d ++ d'). rewrite Ht', Ht, app_assoc. split; [reflexivity|].
    now rewrite filter_app, filter_none.
  - repeat split; try assumption. exists d. split; [assumption|].
    now rewrite filter_none.
  - repeat split; try assumption. exists d. split; [assumption|].
    now rewrite filter_none.
Qed.

Lemma shaped_try_except {R A} (body : M R A) (handler : exc -> M R A) :
  shaped g Q body -> (forall e, appends g 0 (handler e)) ->
  shaped g Q (try_except body handler).
Proof.
  intros Hb Hh w. unfold try_except.
  destruct (Hb w) as (Hs & Hv & d & Ht & HQ).
  destruct (body w) as [[a|r|e] w1]; simpl in *.
  1,2: repeat split; try assumption; exists d; auto.
  destruct (is_Exception e).
  - destruct (Hh e w1) as (Hs' & Hv' & d' & Ht' & Hc').
    repeat split; try congruence.
    exists (d ++ d'). rewrite Ht', Ht, app_assoc. split; [reflexivity|].
    now rewrite filter_app, (filter_none d'), app_nil_r.
  - simpl. repeat split; try assumption. exists d. auto.
Qed.

Lemma shaped_try_finally {R A} (body : M R A) (fin : M R unit) :
  shaped g Q body -> appends g 0 fin -> shaped g Q (try_finally body fin).
Proof.
  intros Hb Hf w. unfold try_finally.
  destruct (Hb w) as (Hs & Hv & d & Ht & HQ).
  destruct (body w) as [c w1]; simpl in *.
  destruct (Hf w1) as (Hs' & Hv' & d' & Ht' & Hc').
  destruct (fin w1) as [[a|r|e] w2]; simpl in *.
  all: repeat split; try congruence.
  all: exists (d ++ d'); rewrite Ht', Ht, app_assoc; split; [reflexivity|].
  all: now rewrite filter_app, (filter_none d'), app_nil_r.
Qed.

Hypothesis g_L45 : g L45_TCPServer = false.
Hypothesis g_L53 : g L53_thread_start = false.
Hypothesis g_L56 : g L56_sleep = false.
Hypothesis g_L368 : g L368_shutdown = false.
Hypothesis g_L369 : g L369_server_close = false.

Variable html_file : string.
Variable out : string.

Hypothesis capture_shape :
  forall port debug, shaped g Q (capture_through E port html_file out debug).

Lemma serve_and_capture_filtered (debug : bool) (w : world) :
  exists d,
    trace (snd (serve_and_capture E html_file out debug w)) = trace w ++ d /\
    Q (filter g d).
Proof.
  unfold serve_and_capture. unfold bind at 1. unfold invoke, run.
  destruct (start_http_server_trace E g g_L53 g_L56 (project_root E) w)
    as (d & Ht & Hc).
  destruct (start_http_server E (project_root E) 0 w) as [[a|[q h]|e] w1];
    simpl in Ht.
  - destruct a.
  - unfold bind at 1. unfold set_httpd at 1. cbv beta iota zeta.
    match goal with
    | |- context [capture_through E ?q html_file out debug ?w2] =>
        destruct (capture_shape q debug w2)
          as (_ & _ & d' & Ht' & HQ)
    end.
    exists ((L45_TCPServer :: d) ++ d'). rewrite Ht'. cbn [trace].
    rewrite Ht, <- app_assoc. split; [reflexivity|].
    rewrite filter_app. simpl. rewrite g_L45, filter_none by lia.
    exact HQ.
  - simpl. exists (L45_TCPServer :: d). split; [assumption|].
    simpl. rewrite g_L45, filter_none by lia. exact Q_nil.
Qed.

(** What holds of the calls of lines 137-358 that [g] selects holds of
    those of the whole run, when [g] selects none of the server's. *)
Lemma convert_filtered (output_path : option string) (debug : bool)
    (w : world) :
  resolved_output E html_file output_path = out ->
  exists d,
    trace (snd (convert E html_file output_path debug w)) = trace w ++ d /\
    Q (filter g d).
Proof.
  intros Hout.
  destruct (convert_prefix E html_file output_path debug w)
    as (w0 & _ & Ht0 & _ & Heq).
  rewrite Heq. clear Heq. rewrite Hout.
  destruct (serve_and_capture_filtered debug w0) as (d & Ht & HQ).
  unfold run, try_finally, try_except.
  destruct (serve_and_capture E html_file out debug w0) as [c w1].
  simpl in Ht.
  destruct c as [a|r|e]; [destruct a | | destruct (is_Exception e)];
    unfold bind, print, return_; cbv beta iota zeta;
    match goal with
    | |- context [close_server E debug ?w2] =>
        destruct (close_server_trace E g g_L368 g_L369 debug w2)
          as (d' & Ht' & Hc');
        destruct (close_server E debug w2) as [c3 w3]
    end;
    simpl in Ht'; exists (d ++ d');
    (assert (HQ' : Q (filter g (d ++ d')))
       by (rewrite filter_app, (filter_none d'), app_nil_r by lia;
           exact HQ));
    (assert (Hw3 : trace w3 = trace w ++ d ++ d')
       by (rewrite Ht', Ht, Ht0, <- app_assoc; reflexivity));
    destruct c3 as [a|r'|e']; simpl; auto.
Qed.

End Shapes.

Section CaptureOrder.

Variable E : env.

Lemma capture_tail_shaped (out : string) (debug : bool) :
  shaped is_capture_step (capture_order E out)
    (bind (evaluate E L342_evaluate_scrollHeight scrollHeight)
       (fun height =>
          bind (call E (L343_set_viewport_size height))
            (fun _ =>
               bind (call E (L346_screenshot out))
                 (fun _ =>
                    bind (verbose debug 348)
                      (fun _ => @return_ _ Empty_set (Some out)))))).
Proof.
  intros w. unfold evaluate, bind, call, verbose, print, ret, return_,
    capture_order.
  destruct (raises E L342_evaluate_scrollHeight); simpl.
  { repeat split. exists [L342_evaluate_scrollHeight]. simpl. auto. }
  destruct (raises E (L343_set_viewport_size _)); simpl.
  { repeat split. eexists. rewrite <- app_assoc. simpl. split; [reflexivity|].
    simpl. auto. }
  destruct (raises E (L346_screenshot out)); simpl.
  { repeat split. eexists. rewrite <- !app_assoc. simpl.
    split; [reflexivity|]. simpl. auto 6. }
  destruct debug; simpl.
  all: repeat split; eexists; rewrite <- !app_assoc; simpl.
  all: split; [reflexivity|]; simpl; auto 6.
Qed.

Lemma capture_through_shaped (port : Z) (html_file out : string)
    (debug : bool) :
  shaped is_capture_step (capture_order E out)
    (capture_through E port html_file out debug).
Proof.
  assert (Hnil : capture_order E out []) by (left; reflexivity).
  unfold capture_through, check_server, with_browser, with_, load_and_capture,
    wait_for_charts.
  repeat first
    [ apply shaped_bind_after;
        [exact Hnil | solve [block_appends] | intros ?]
    | apply shaped_try_finally; [| solve [block_appends]]
    | apply shaped_try_except; [| intros ?; solve [block_appends]] ].
  apply capture_tail_shaped.
Qed.

(** X12. In every run the last three steps of the capture come in their
    order, each at most once: the measurement of the document, then the
    resize of the viewport to the measured height, then the screenshot to
    the output path. A screenshot is never taken before the viewport has
    the measured height. *)
Theorem capture_steps_come_in_order (html_file : string)
    (output_path : option string) (debug : bool) (w : world) :
  exists d,
    trace (snd (convert E html_file output_path debug w)) = trace w ++ d /\
    capture_order E (resolved_output E html_file output_path)
      (filter is_capture_step d).
Proof.
  set (out := resolved_output E html_file output_path).
  apply (convert_filtered E is_capture_step (capture_order E out))
    with (html_file := html_file) (out := out); try reflexivity.
  - left. reflexivity.
  - intros port dbg. apply capture_through_shaped.
Qed.

End CaptureOrder.

(* ================================================================== *)
(** * Further properties of serve_directory                            *)
(* ================================================================== *)

Section ServeDirectory.

Variable E : env.

Lemma close_absent (a : Net.addr) (p : Z) (t : Net.table) :
  Net.in_use Net.AnyInterface p t = false -> Net.close a p t = t.
Proof.
  unfold Net.in_use. induction t as [|s t IH]; simpl; [reflexivity|].
  intros H. apply orb_false_elim in H. destruct H as (Hs & Ht).
  rewrite andb_true_r in Hs. rewrite Hs, andb_false_r.
  now rewrite IH.
Qed.

Lemma close_bound (a : Net.addr) (p : Z) (t : Net.table) :
  Net.close a p ({| Net.s_addr := a; Net.s_port := p;
                    Net.s_listening := true |} :: t) = t.
Proof.
  simpl. rewrite Z.eqb_refl, andb_true_r.
  now destruct a; simpl; rewrite ?String.eqb_refl.
Qed.

Lemma snd_try_finally {R A} (body : M R A) (fin : M R unit) (w : world) :
  snd (try_finally body fin w) = snd (fin (snd (body w))).
Proof.
  unfold try_finally. destruct (body w) as [c w1]. simpl.
  now destruct (fin w1) as [[a|r|e] w2].
Qed.

(** A block that starts with a statement that leaves the sockets alone. *)
Lemma sockets_after_bind {R A B} (P : Net.table -> Prop) (m : M R A)
    (k : A -> M R B) (w : world) :
  sockets (snd (m w)) = sockets w ->
  P (sockets w) ->
  (forall a w1, sockets w1 = sockets w -> P (sockets (snd (k a w1)))) ->
  P (sockets (snd (bind m k w))).
Proof.
  unfold bind. destruct (m w) as [[a|r|e] w1]; simpl; intros Hs HP Hk.
  - now apply Hk.
  - now rewrite Hs.
  - now rewrite Hs.
Qed.

Lemma call_keeps_sockets {R} (s : site) (w : world) :
  sockets (snd (@call E R s w)) = sockets w.
Proof. unfold call. now destruct (raises E s). Qed.

Lemma verbose_keeps_sockets {R} (debug : bool) (line : nat) (w : world) :
  sockets (snd (@verbose R debug line w)) = sockets w.
Proof. unfold verbose. now destruct debug. Qed.

(** Lines 76-103 on the server [h], whose socket heads the table: they
    leave the table as it is, or without that socket. *)
Lemma served_block_sockets {R A} (h : Net.httpd) (quiet : bool) (u : url)
    (body : url -> M R A) (t : Net.table) (w : world) :
  (forall v w', sockets (snd (body v w')) = sockets w') ->
  Net.server_addr h = Net.AnyInterface ->
  sockets w = directory_socket (Net.server_port h) :: t ->
  let block :=
    bind (call E H78_thread_start) (fun _ =>
    bind (verbose (negb quiet) 81) (fun _ =>
    bind (verbose (negb quiet) 82) (fun _ =>
    try_finally
      (bind (wait_for_server E 0 5) (fun _ => body u))
      (bind (call E H100_shutdown) (fun _ =>
       bind (server_close E H101_server_close h) (fun _ =>
       verbose (negb quiet) 103)))))) in
  sockets (snd (block w)) = directory_socket (Net.server_port h) :: t \/
  sockets (snd (block w)) = t.
Proof.
  intros Hbody Ha Hs block. subst block.
  set (P := fun t' : Net.table =>
              t' = directory_socket (Net.server_port h) :: t \/ t' = t).
  change (P (sockets
               (snd (bind (call E H78_thread_start) (fun _ =>
                     bind (verbose (negb quiet) 81) (fun _ =>
                     bind (verbose (negb quiet) 82) (fun _ =>
                     try_finally
                       (bind (wait_for_server E 0 5) (fun _ => body u))
                       (bind (call E H100_shutdown) (fun _ =>
                        bind (server_close E H101_server_close h) (fun _ =>
                        verbose (negb quiet) 103))))))
                     w)))).
  assert (HP : P (sockets w)) by (left; exact Hs).
  apply sockets_after_bind; [apply call_keeps_sockets | exact HP |].
  intros _ w1 H1.
  apply sockets_after_bind;
    [apply verbose_keeps_sockets | now rewrite H1 |].
  intros _ w2 H2.
  apply sockets_after_bind;
    [apply verbose_keeps_sockets | now rewrite H2, H1 |].
  intros _ w3 H3.
  rewrite snd_try_finally.
  assert (H4 : sockets (snd (bind (wait_for_server E 0 5)
                               (fun _ => body u) w3)) = sockets w).
  { unfold bind.
    pose proof (@wait_for_server_appends E R 5 0 w3) as (Hl & _).
    destruct (wait_for_server E 0 5 w3) as [[a|r|e] w4]; simpl in *;
      rewrite ?Hbody; congruence. }
  set (w5 := snd (bind (wait_for_server E 0 5) (fun _ => body u) w3)) in *.
  clearbody w5.
  unfold server_close, bind, call, verbose, print, ret. rewrite Ha.
  destruct (raises E H100_shutdown); simpl; [left; congruence|].
  destruct (raises E H101_server_close); simpl; [left; congruence|].
  right. destruct (negb quiet); simpl; rewrite H4, Hs; apply close_bound.
Qed.

(** The [with] statement of line 74 around lines 76-103. *)
Lemma served_sockets {R A} (directory : path) (port : Z) (quiet : bool)
    (u : url) (body : url -> M R A) (w : world) :
  (forall v w', sockets (snd (body v w')) = sockets w') ->
  raises E H74_TCPServer_exit = None ->
  sockets
    (snd (with_ (TCPServer E H74_TCPServer "" port
                   Http.SimpleHTTPServerWithContentTypes directory)
                (server_close E H74_TCPServer_exit)
                (fun httpd =>
                   bind (call E H78_thread_start) (fun _ =>
                   bind (verbose (negb quiet) 81) (fun _ =>
                   bind (verbose (negb quiet) 82) (fun _ =>
                   try_finally
                     (bind (wait_for_server E 0 5) (fun _ => body u))
                     (bind (call E H100_shutdown) (fun _ =>
                      bind (server_close E H101_server_close httpd) (fun _ =>
                      verbose (negb quiet) 103))))))) w)) = sockets w.
Proof.
  intros Hbody Hexit. unfold with_. unfold bind at 1.
  assert (Hrelease :
    forall (h : Net.httpd) (w1 : world),
      Net.server_addr h = Net.AnyInterface ->
      sockets w1 = directory_socket (Net.server_port h) :: sockets w ->
      Net.in_use Net.AnyInterface (Net.server_port h) (sockets w) = false ->
      sockets
        (snd (try_finally
                (bind (call E H78_thread_start) (fun _ =>
                 bind (verbose (negb quiet) 81) (fun _ =>
                 bind (verbose (negb quiet) 82) (fun _ =>
                 try_finally
                   (bind (wait_for_server E 0 5) (fun _ => body u))
                   (bind (call E H100_shutdown) (fun _ =>
                    bind (server_close E H101_server_close h) (fun _ =>
                    verbose (negb quiet) 103)))))))
                (server_close E H74_TCPServer_exit h) w1)) = sockets w).
  { intros h w1 Ha Hs Hfree.
    pose proof (served_block_sockets h quiet u body (sockets w) w1 Hbody Ha Hs)
      as Hblock.
    cbv zeta in Hblock. unfold try_finally at 1.
    match type of Hblock with
    | sockets (snd (?b w1)) = _ \/ _ => destruct (b w1) as [c w2]
    end.
    cbn [snd] in Hblock.
    unfold server_close, bind, call. rewrite Hexit, Ha. cbn.
    destruct Hblock as [-> | ->].
    - apply close_bound.
    - now apply close_absent. }
  unfold TCPServer, Net.bind_listen.
  change (Net.resolve "") with Net.AnyInterface.
  destruct (raises E H74_TCPServer); [reflexivity|].
  cbn [sockets log].
  destruct (port =? 0)%Z.
  - apply Hrelease; [reflexivity | reflexivity | apply ephemeral_port_free].
  - destruct (Net.in_use Net.AnyInterface port (sockets w)) eqn:Hused;
      [reflexivity|].
    apply Hrelease; [reflexivity | reflexivity | exact Hused].
Qed.

(** X13. Whatever the block under [with serve_directory(...)] does, short
    of touching sockets itself, and however it ends, and whichever of the
    calls of serve_directory raise, the socket table is afterwards as it
    was before: the server's socket is closed by the [finally] or, failing
    that, by leaving the [with] of line 74. *)
Theorem serve_directory_releases_its_socket {R A : Type}
    (directory : option string) (port : option Z) (quiet : bool)
    (body : url -> M R A) (w : world) :
  (forall v w', sockets (snd (body v w')) = sockets w') ->
  raises E H74_TCPServer_exit = None ->
  sockets (snd (serve_directory E directory port quiet body w)) = sockets w.
Proof.
  intros Hbody Hexit. unfold serve_directory. unfold bind at 1.
  destruct port as [p|].
  - unfold is_port_in_use, bind, call, raise, ret.
    destruct (raises E (H47_connect_ex p)); [reflexivity|].
    cbn [sockets log].
    destruct (Net.accepts_on_localhost p (sockets w)); [reflexivity|].
    match goal with
    | |- sockets (snd (with_ _ _ _ ?w1)) = _ =>
        transitivity (sockets w1); [now apply served_sockets | reflexivity]
    end.
  - unfold find_free_port, bind, call.
    destruct (raises E H41_find_free_port); [reflexivity|].
    match goal with
    | |- sockets (snd (with_ _ _ _ ?w1)) = _ =>
        transitivity (sockets w1); [now apply served_sockets | reflexivity]
    end.
Qed.

(** X14. Asked for port 0, serve_directory lets the kernel choose the
    port of the server but builds the URL from the argument: the block
    under [with] is handed http://localhost:0 while the server listens on
    another port. *)
Theorem port_zero_url_names_no_server (directory : option string)
    (quiet : bool) (w : world) :
  Net.accepts_on_localhost 0 (sockets w) = false ->
  (forall s, is_probe s = false -> raises E s = None) ->
  (forall j e, raises E (H91_urlopen j) = Some e -> is_Exception e = true) ->
  fst (run (serve_directory E directory (Some 0%Z) quiet look_around) w) =
    Value ({| url_port := 0; url_path := [] |},
           directory_socket (Net.ephemeral_port (sockets w)) :: sockets w) /\
  Net.ephemeral_port (sockets w) <> 0%Z.
Proof.
  intros Hfree Hother Hprobe.
  split; [|apply Z.eqb_neq, ephemeral_port_nonzero].
  unfold run, serve_directory, with_.
  set (loop := wait_for_server E 0 5).
  assert (Hloop : forall w0,
             fst (loop w0) = Normal tt /\
             sockets (snd (loop w0)) = sockets w0).
  { intros w0. split.
    - apply wait_for_server_completes; [|assumption].
      intros j. now apply Hother.
    - apply (wait_for_server_appends E 5 0 w0). }
  clearbody loop.
  unfold is_port_in_use, TCPServer, server_close, try_finally, bind, call,
    raise, ret, verbose, print, look_around, Net.bind_listen.
  change (Net.resolve "") with Net.AnyInterface.
  rewrite !Hother by reflexivity.
  cbn -[Net.in_use Net.accepts_on_localhost Net.ephemeral_port].
  rewrite Hfree.
  destruct quiet; cbn -[Net.ephemeral_port];
    match goal with
    | |- context [loop ?w0] =>
        destruct (Hloop w0) as (Hc & Hs);
        destruct (loop w0) as [c w1]
    end;
    cbn -[Net.ephemeral_port] in Hc, Hs; subst c;
    cbn -[Net.ephemeral_port]; rewrite Hs; reflexivity.
Qed.

(** X15. With any other port argument, None or a number other than 0,
    the URL handed to the block under [with] names the port the server
    listens on. *)
Theorem served_url_names_the_bound_port (directory : option string)
    (port : option Z) (quiet : bool) (w w' : world) (u : url)
    (seen : Net.table) :
  port <> Some 0%Z ->
  run (serve_directory E directory port quiet look_around) w
    = (Value (u, seen), w') ->
  url_path u = [] /\
  seen = directory_socket (url_port u) :: sockets w.
Proof.
  intros Hport.
  unfold run, serve_directory, with_.
  set (loop := wait_for_server E 0 5).
  assert (Hloop : forall w0, sockets (snd (loop w0)) = sockets w0 /\
                             forall r, fst (loop w0) <> Returned r).
  { intros w0. split.
    - apply (wait_for_server_appends E 5 0 w0).
    - apply (wait_for_server_no_return E 5 0 w0). }
  clearbody loop.
  unfold find_free_port, is_port_in_use, TCPServer, server_close,
    try_finally, bind, call, raise, ret, verbose, print, look_around,
    Net.bind_listen.
  change (Net.resolve "") with Net.AnyInterface.
  destruct port as [p|].
  - destruct (p =? 0)%Z eqn:Hp.
    { apply Z.eqb_eq in Hp. subst p. now contradiction Hport. }
    destruct quiet;
      cbn -[Net.in_use Z.eqb Net.accepts_on_localhost];
      repeat
        (match goal with
         | |- context [raises E ?s] => destruct (raises E s)
         | |- context [Net.accepts_on_localhost ?p ?t] =>
             destruct (Net.accepts_on_localhost p t)
         | |- context [(p =? 0)%Z] => rewrite Hp
         | |- context [Net.in_use ?a ?p ?t] => destruct (Net.in_use a p t)
         | |- context [loop ?w0] =>
             let Hs := fresh "Hs" in
             let Hr := fresh "Hr" in
             destruct (Hloop w0) as (Hs & Hr);
             destruct (loop w0) as [[[]|?|?] ?]; cbn in Hs, Hr;
             try (exfalso; eapply Hr; reflexivity)
         end; cbn -[Net.in_use Z.eqb Net.accepts_on_localhost]);
      try discriminate;
      intros H; inversion H; subst;
      repeat match goal with
             | Hs : sockets _ = _ |- _ => rewrite Hs; clear Hs
             end;
      cbn; auto.
  - destruct quiet;
      cbn -[Net.in_use Z.eqb Net.ephemeral_port];
      repeat
        (match goal with
         | |- context [raises E ?s] => destruct (raises E s)
         | |- context [(Net.ephemeral_port ?t =? 0)%Z] =>
             rewrite (ephemeral_port_nonzero t)
         | |- context [Net.in_use ?a ?p ?t] => destruct (Net.in_use a p t)
         | |- context [loop ?w0] =>
             let Hs := fresh "Hs" in
             let Hr := fresh "Hr" in
             destruct (Hloop w0) as (Hs & Hr);
             destruct (loop w0) as [[[]|?|?] ?];
             cbn -[Net.ephemeral_port] in Hs, Hr;
             try (exfalso; eapply Hr; reflexivity)
         end; cbn -[Net.in_use Z.eqb Net.ephemeral_port]);
      try discriminate;
      intros H; inversion H; subst;
      repeat match goal with
             | Hs : sockets _ = _ |- _ => rewrite Hs; clear Hs
             end;
      cbn -[Net.ephemeral_port]; auto.
Qed.

(** X16. The loop of lines 89-94 stops at the first urlopen that does not
    raise: when the first [k] attempts fail and attempt [k] gets through,
    it has made [k + 1] probes, slept after each failed one and not after
    the last, and then goes on normally. *)
Theorem wait_for_server_stops_at_the_first_answer {R : Type} (k i n : nat)
    (w : world) :
  k < n ->
  (forall j, j < k -> exists e, raises E (H91_urlopen (i + j)) = Some e /\
                                is_Exception e = true) ->
  (forall j, j < k -> raises E (H94_sleep (i + j)) = None) ->
  raises E (H91_urlopen (i + k)) = None ->
  fst (@wait_for_server E R i n w) = Normal tt /\
  trace (snd (@wait_for_server E R i n w)) =
    trace w ++ failed_attempts i k ++ [H91_urlopen (i + k)].
Proof.
  revert i n w. induction k as [|k IH]; intros i n w Hn Hfail Hsleep Hok.
  - destruct n as [|n]; [lia|]. simpl.
    unfold bind at 1. unfold try_except, bind, call, ret.
    rewrite Nat.add_0_r in *. rewrite Hok. simpl. auto.
  - destruct n as [|n]; [lia|]. simpl.
    unfold bind at 1. unfold try_except, bind, call, ret.
    destruct (Hfail 0 ltac:(lia)) as (e & He & Hexc).
    pose proof (Hsleep 0 ltac:(lia)) as Hs0.
    rewrite Nat.add_0_r in He, Hs0. rewrite He. cbn [fst snd].
    rewrite Hexc, Hs0. cbn [fst snd].
    destruct (IH (S i) n (log (H94_sleep i) (log (H91_urlopen i) w)))
      as (Hc & Ht).
    + lia.
    + intros j Hj. destruct (Hfail (S j) ltac:(lia)) as (e' & He' & Hexc').
      exists e'. now rewrite Nat.add_succ_r in He'.
    + intros j Hj. specialize (Hsleep (S j) ltac:(lia)).
      now rewrite Nat.add_succ_r in Hsleep.
    + now rewrite Nat.add_succ_r in Hok.
    + split; [exact Hc|]. rewrite Ht. cbn [trace log].
      unfold failed_attempts. cbn [seq flat_map].
      rewrite <- !app_assoc, Nat.add_succ_r. reflexivity.
Qed.

(** X17. Which exception refuses an occupied port: the RuntimeError of
    line 70 when something accepts connections on it at localhost, and the
    OSError of the constructor's bind when the port is taken by a socket
    that does not, one that is bound but does not listen say. *)
Theorem which_error_refuses_the_port {R : Type} (directory : option string)
    (port : Z) (quiet : bool) (body : url -> M R Empty_set) (w : world) :
  port <> 0%Z ->
  raises E (H47_connect_ex port) = None ->
  raises E H74_TCPServer = None ->
  Net.in_use Net.AnyInterface port (sockets w) = true ->
  fst (run (serve_directory E directory (Some port) quiet body) w) =
    Uncaught (if Net.accepts_on_localhost port (sockets w)
              then RuntimeError port else OSError EADDRINUSE).
Proof.
  intros Hp H47 H74 Hused. apply Z.eqb_neq in Hp.
  unfold run, serve_directory, is_port_in_use, with_, TCPServer, bind, call,
    raise, ret, Net.bind_listen.
  change (Net.resolve "") with Net.AnyInterface.
  rewrite H47. cbn -[Net.in_use Net.accepts_on_localhost Z.eqb].
  destruct (Net.accepts_on_localhost port (sockets w));
    cbn -[Net.in_use Net.accepts_on_localhost Z.eqb]; [reflexivity|].
  rewrite H74, Hp, Hused. reflexivity.
Qed.

Lemma ephemeral_port_refuses (t : Net.table) :
  Net.accepts_on_localhost (Net.ephemeral_port t) t = false.
Proof.
  unfold Net.accepts_on_localhost. apply not_true_is_false.
  rewrite existsb_exists. intros (s & Hin & Hs).
  apply andb_prop in Hs. destruct Hs as (Hs & _).
  apply andb_prop in Hs. destruct Hs as (Hp & _).
  apply Z.eqb_eq in Hp. apply port_below_ephemeral in Hin. lia.
Qed.

(** X18. The two helpers agree: the port find_free_port hands out is one
    that is_port_in_use then reports as free, and looking for it leaves
    the socket table as it was. *)
Theorem a_found_port_is_reported_free {R : Type} (w : world) :
  raises E H41_find_free_port = None ->
  (forall p, raises E (H47_connect_ex p) = None) ->
  let r := bind (@find_free_port E R) (is_port_in_use E) w in
  fst r = Normal false /\ sockets (snd r) = sockets w.
Proof.
  intros H41 H47. unfold find_free_port, is_port_in_use, bind, call.
  rewrite H41. cbn -[Net.ephemeral_port Net.accepts_on_localhost].
  rewrite H47. cbn -[Net.ephemeral_port Net.accepts_on_localhost].
  now rewrite ephemeral_port_refuses.
Qed.

End ServeDirectory.

Lemma port_zero_url_names_no_server_witness :
  fst (run (serve_directory Examples.never_up_env None (Some 0%Z) true
              look_around) (initial Examples.busy_table)) =
    Value ({| url_port := 0; url_path := [] |},
           directory_socket (Net.ephemeral_port Examples.busy_table)
           :: Examples.busy_table) /\
  Net.ephemeral_port Examples.busy_table <> 0%Z.
Proof.
  apply (port_zero_url_names_no_server Examples.never_up_env None true
           (initial Examples.busy_table)).
  - reflexivity.
  - intros s Hs. destruct s; try reflexivity; discriminate.
  - intros j e He. injection He as <-. reflexivity.
Defined.

Lemma served_url_names_the_bound_port_witness :
  let rw := run (serve_directory Examples.quiet_env None (Some 8080%Z) true
                   look_around) (initial Examples.busy_table) in
  match fst rw with
  | Value (u, seen) =>
      url_path u = [] /\
      seen = directory_socket (url_port u) :: Examples.busy_table
  | Uncaught _ => False
  end.
Proof.
  destruct (run (serve_directory Examples.quiet_env None (Some 8080%Z) true
                   look_around) (initial Examples.busy_table))
    as [[[u seen]|e] w'] eqn:Hrun.
  - apply (served_url_names_the_bound_port Examples.quiet_env None
             (Some 8080%Z) true (initial Examples.busy_table) w' u seen).
    + discriminate.
    + exact Hrun.
  - vm_compute in Hrun. discriminate.
Defined.

Lemma wait_for_server_stops_at_the_first_answer_witness :
  fst (@wait_for_server slow_start_env unit 0 5 (initial [])) = Normal tt /\
  trace (snd (@wait_for_server slow_start_env unit 0 5 (initial []))) =
    [H91_urlopen 0; H94_sleep 0; H91_urlopen 1; H94_sleep 1; H91_urlopen 2].
Proof.
  apply (@wait_for_server_stops_at_the_first_answer slow_start_env unit 2 0 5
           (initial [])).
  - lia.
  - intros j Hj. exists (LibraryError "URLError").
    destruct j as [|[|j]]; [split; reflexivity | split; reflexivity | lia].
  - intros j Hj. reflexivity.
  - reflexivity.
Defined.

Lemma which_error_refuses_the_port_witness :
  fst (run (serve_directory Examples.quiet_env None (Some 8000%Z) true
              look_around) (initial idle_table)) =
    Uncaught (OSError EADDRINUSE).
Proof.
  apply (@which_error_refuses_the_port Examples.quiet_env _ None 8000%Z true
           look_around (initial idle_table)).
  - discriminate.
  - reflexivity.
  - reflexivity.
  - reflexivity.
Defined.

Lemma a_found_port_is_reported_free_witness :
  let r := bind (@find_free_port Examples.quiet_env unit)
             (is_port_in_use Examples.quiet_env)
             (initial Examples.busy_table) in
  fst r = Normal false /\ sockets (snd r) = Examples.busy_table.
Proof.
  apply (@a_found_port_is_reported_free Examples.quiet_env unit
           (initial Examples.busy_table)).
  - reflexivity.
  - intros p. reflexivity.
Defined.

Lemma serve_directory_releases_its_socket_witness :
  sockets (snd (serve_directory Examples.never_up_env None (Some 8080%Z)
                  false (fun u => raise (A := unit) (R := unit)
                                    KeyboardInterrupt)
                  (initial Examples.busy_table)))
  = sockets (initial Examples.busy_table).
Proof.
  apply (serve_directory_releases_its_socket Examples.never_up_env).
  - intros v w'. reflexivity.
  - reflexivity.
Defined.

(* ================================================================== *)
(** * get_project_root and the file check of main                      *)
(* ================================================================== *)

Section ProjectRoot.

Import Cli.

Variable exists_ : path -> bool.

Lemma path_eqb_shorter (l : path) (x : string) :
  path_eqb l (l ++ [x]) = false.
Proof.
  unfold path_eqb. destruct (list_eq_dec string_dec l (l ++ [x])) as [H|H];
    [|reflexivity].
  apply (f_equal (@List.length string)) in H. rewrite length_app in H.
  simpl in H. lia.
Qed.

(** With more iterations than the path has components the loop returns:
    None when no proper ancestor holds a storyteller entry, and otherwise
    the longest proper ancestor that does. *)
Lemma climb_returns (here : path) :
  forall fuel, List.length here < fuel ->
    (climb exists_ fuel here = Some None /\
     forall j, j < List.length here ->
               exists_ (firstn j here ++ ["storyteller"]) = false)
    \/
    (exists k, k < List.length here /\
       climb exists_ fuel here = Some (Some (firstn k here)) /\
       exists_ (firstn k here ++ ["storyteller"]) = true /\
       forall j, k < j -> j < List.length here ->
                 exists_ (firstn j here ++ ["storyteller"]) = false).
Proof.
  induction here as [|x l IH] using rev_ind; intros fuel Hfuel.
  - destruct fuel as [|fuel]; [simpl in Hfuel; lia|].
    left. split; [reflexivity|]. simpl. intros j Hj. lia.
  - rewrite length_app in *. simpl in *.
    destruct fuel as [|fuel]; [lia|].
    cbn [climb]. unfold dirname. rewrite removelast_last, path_eqb_shorter.
    destruct (exists_ (l ++ ["storyteller"])) eqn:Hl.
    + right. exists (List.length l).
      rewrite firstn_app, firstn_all, Nat.sub_diag, app_nil_r.
      repeat split; try assumption; lia.
    + assert (Hfirst : forall j, j <= List.length l ->
                firstn j (l ++ [x]) = firstn j l).
      { intros j Hj. rewrite firstn_app.
        replace (j - List.length l) with 0 by lia. simpl.
        apply app_nil_r. }
      destruct (IH fuel ltac:(lia)) as [(Hc & Hnone) | (k & Hk & Hc & Ht & Hn)].
      * left. split; [exact Hc|]. intros j Hj.
        rewrite Hfirst by lia.
        destruct (Nat.eq_dec j (List.length l)) as [->|Hne].
        -- now rewrite firstn_all.
        -- apply Hnone. lia.
      * right. exists k. rewrite Hfirst by lia.
        repeat split; try assumption; [lia|].
        intros j Hkj Hj. rewrite Hfirst by lia.
        destruct (Nat.eq_dec j (List.length l)) as [->|Hne].
        -- now rewrite firstn_all.
        -- apply Hn; lia.
Qed.

(** X19. When get_project_root returns a directory, it is a proper
    ancestor of the directory of the module, it holds an entry named
    storyteller, and no proper ancestor below it does: the nearest one
    wins. The directory of the module itself is never returned. *)
Theorem get_project_root_is_the_nearest_ancestor (here r : path) :
  get_project_root exists_ here = Some (Some r) ->
  exists k, k < List.length here /\
    r = firstn k here /\
    exists_ (r ++ ["storyteller"]) = true /\
    forall j, k < j -> j < List.length here ->
              exists_ (firstn j here ++ ["storyteller"]) = false.
Proof.
  unfold get_project_root. intros H.
  destruct (climb_returns here (S (List.length here)) ltac:(lia))
    as [(Hc & _) | (k & Hk & Hc & Ht & Hn)]; [congruence|].
  rewrite Hc in H. injection H as <-. exists k. auto.
Qed.

(** X20. The loop of get_project_root always returns, at the latest when
    it reaches the root directory, and it returns None exactly when no
    proper ancestor of the module's directory holds an entry named
    storyteller; an entry in the module's directory itself does not
    count. *)
Theorem get_project_root_gives_up_at_the_root (here : path) :
  get_project_root exists_ here <> None /\
  (get_project_root exists_ here = Some None <->
   forall j, j < List.length here ->
             exists_ (firstn j here ++ ["storyteller"]) = false).
Proof.
  unfold get_project_root.
  destruct (climb_returns here (S (List.length here)) ltac:(lia))
    as [(Hc & Hnone) | (k & Hk & Hc & Ht & Hn)]; rewrite Hc.
  - split; [discriminate|]. split; auto.
  - split; [discriminate|]. split; [discriminate|].
    intros Hnone. rewrite (Hnone k Hk) in Ht. discriminate.
Qed.

End ProjectRoot.

Lemma get_project_root_is_the_nearest_ancestor_witness :
  exists k, k < 5 /\
    ["srv"; "project"] = firstn k Cli.utils_directory /\
    Cli.project_tree (["srv"; "project"] ++ ["storyteller"]) = true /\
    forall j, k < j -> j < 5 ->
      Cli.project_tree (firstn j Cli.utils_directory ++ ["storyteller"])
      = false.
Proof.
  exact (get_project_root_is_the_nearest_ancestor Cli.project_tree
           Cli.utils_directory ["srv"; "project"] eq_refl).
Defined.

Section FileCheck.

Import Cli.

Lemma string_app_assoc (s t u : string) :
  ((s ++ t) ++ u)%string = (s ++ t ++ u)%string.
Proof. induction s as [|c s IH]; simpl; [reflexivity | now rewrite IH]. Qed.

Lemma string_length_app (s t : string) :
  String.length (s ++ t) = String.length s + String.length t.
Proof. induction s as [|c s IH]; simpl; [reflexivity | now rewrite IH]. Qed.

Lemma prefix_append (s t : string) : String.prefix s (s ++ t) = true.
Proof.
  induction s as [|c s IH]; simpl; [now destruct t|].
  destruct (Ascii.ascii_dec c c); [exact IH | congruence].
Qed.

Lemma render_components_app (p q : path) :
  render_components (p ++ q)
  = (render_components p ++ render_components q)%string.
Proof.
  induction p as [|c p IH]; simpl; [reflexivity|].
  rewrite IH. f_equal. now rewrite string_app_assoc.
Qed.

Lemma is_descendant_app (p root : path) :
  is_descendant p root = true -> p = root ++ skipn (List.length root) p.
Proof.
  revert p. induction root as [|r root IH]; intros [|x p]; simpl;
    try reflexivity; try discriminate.
  intros H. apply andb_prop in H. destruct H as (Hr & Hp).
  apply String.eqb_eq in Hr. subst x. f_equal. now apply IH.
Qed.

Lemma commonprefix_app (root rest : path) :
  commonprefix root (root ++ rest) = root.
Proof.
  induction root as [|r root IH]; simpl; [now destruct rest|].
  now rewrite String.eqb_refl, IH.
Qed.

Lemma startswith_descendant (root rest : path) :
  String.prefix (render root) (render (root ++ rest)) = true.
Proof.
  destruct root as [|r root].
  - destruct rest as [|x rest]; [reflexivity|].
    apply (prefix_append "/" (x ++ render_components rest)).
  - change (render (r :: root)) with (render_components (r :: root)).
    change (render ((r :: root) ++ rest))
      with (render_components ((r :: root) ++ rest)).
    rewrite render_components_app. apply prefix_append.
Qed.

(** X21. A file in the served directory or anywhere below it passes the
    check of line 142 and is opened at its path relative to the
    directory, which does not climb. *)
Theorem files_below_the_directory_are_opened (file_path dir_path : path) :
  is_descendant file_path dir_path = true ->
  file_target file_path dir_path =
    Some (match skipn (List.length dir_path) file_path with
          | [] => ["."]
          | rest => rest
          end).
Proof.
  intros H. apply is_descendant_app in H.
  remember (skipn (List.length dir_path) file_path) as rest eqn:Hrest.
  clear Hrest. subst file_path.
  unfold file_target. rewrite startswith_descendant.
  unfold relpath. rewrite commonprefix_app, Nat.sub_diag.
  rewrite skipn_app, skipn_all, Nat.sub_diag. simpl. now destruct rest.
Qed.

Lemma append_longer (s t : string) : t <> "" -> String.eqb s (s ++ t) = false.
Proof.
  intros Ht. apply String.eqb_neq. intros H.
  apply (f_equal String.length) in H.
  rewrite string_length_app in H.
  destruct t; [congruence | simpl in H; lia].
Qed.

Lemma commonprefix_sibling (dir rest : path) (name suffix : string) :
  suffix <> "" ->
  commonprefix (dir ++ [name]) (dir ++ (name ++ suffix)%string :: rest) = dir.
Proof.
  intros Hs. induction dir as [|d dir IH]; simpl.
  - now rewrite append_longer.
  - now rewrite String.eqb_refl, IH.
Qed.

Lemma is_descendant_sibling (dir rest : path) (name suffix : string) :
  suffix <> "" ->
  is_descendant (dir ++ (name ++ suffix)%string :: rest) (dir ++ [name])
  = false.
Proof.
  intros Hs. induction dir as [|d dir IH]; simpl.
  - now rewrite append_longer.
  - now rewrite String.eqb_refl, IH.
Qed.

(** X22. The check of line 142 compares strings, not paths: a file in a
    directory beside the served one whose name only continues the served
    directory's name passes it, although it is not below the served
    directory, and is opened through a path that climbs out of it. *)
Theorem sibling_with_longer_name_passes_the_check (dir rest : path)
    (name suffix : string) :
  suffix <> "" ->
  let dir_path := dir ++ [name] in
  let file_path := dir ++ (name ++ suffix)%string :: rest in
  is_descendant file_path dir_path = false /\
  file_target file_path dir_path
  = Some (".." :: (name ++ suffix)%string :: rest).
Proof.
  intros Hs dir_path file_path. subst dir_path file_path.
  split; [now apply is_descendant_sibling|].
  unfold file_target.
  assert (Hp : String.prefix (render (dir ++ [name]))
                 (render (dir ++ (name ++ suffix)%string :: rest)) = true).
  { assert (Hr : forall q, q <> [] -> render q = render_components q)
      by (intros [|? ?]; [congruence | reflexivity]).
    rewrite !Hr by (destruct dir; discriminate).
    rewrite !render_components_app. simpl.
    replace (render_components dir
             ++ String "/" ((name ++ suffix) ++ render_components rest))%string
      with ((render_components dir ++ String "/" (name ++ ""))
            ++ suffix ++ render_components rest)%string.
    - apply prefix_append.
    - rewrite !string_app_assoc. simpl. rewrite !string_app_assoc.
      reflexivity. }
  rewrite Hp. unfold relpath.
  rewrite commonprefix_sibling by assumption.
  rewrite length_app. simpl.
  replace (List.length dir + 1 - List.length dir) with 1 by lia.
  rewrite skipn_app, skipn_all, Nat.sub_diag. reflexivity.
Qed.

End FileCheck.

Lemma files_below_the_directory_are_opened_witness :
  Cli.file_target ["srv"; "project"; "output"; "report.html"]
    ["srv"; "project"] = Some ["output"; "report.html"].
Proof.
  apply (files_below_the_directory_are_opened
           ["srv"; "project"; "output"; "report.html"] ["srv"; "project"]).
  reflexivity.
Defined.

Lemma sibling_with_longer_name_passes_the_check_witness :
  is_descendant ["srv"; "project-old"; "report.html"] ["srv"; "project"]
  = false /\
  Cli.file_target ["srv"; "project-old"; "report.html"] ["srv"; "project"]
  = Some [".."; "project-old"; "report.html"].
Proof.
  apply (sibling_with_longer_name_passes_the_check ["srv"] ["report.html"]
           "project" "-old").
  discriminate.
Defined.

(* ================================================================== *)
(** * The scripts injected into the page                               *)
(* ================================================================== *)

Section Details.

Import Dom Readiness.

Lemma forEach_details (cs : list node) :
  forall start acc,
    snd (forEach cs start acc) =
      snd acc ++ map (fun ci => inspect (fst ci) (snd ci))
                     (combine cs (seq start (List.length cs))).
Proof.
  induction cs as [|c cs IH]; intros start acc; simpl.
  - now rewrite app_nil_r.
  - rewrite IH. unfold visit. simpl. now rewrite <- app_assoc.
Qed.

Lemma nth_error_indexed {X Y : Type} (f : X * nat -> Y) (cs : list X) :
  forall start i,
    nth_error (map f (combine cs (seq start (List.length cs)))) i =
      option_map (fun c => f (c, start + i)) (nth_error cs i).
Proof.
  induction cs as [|c cs IH]; intros start [|i]; simpl; try reflexivity.
  - now rewrite Nat.add_0_r.
  - rewrite IH. now rewrite Nat.add_succ_r.
Qed.

(** X23. checkVegaRenderStatus reports the containers one by one in
    document order: [details] has as many entries as [count] says, and its
    i-th entry describes the i-th container the selector finds, under the
    container's id, or under container-i when it has none. *)
Theorem details_follow_the_containers (p : page) :
  let r := checkVegaRenderStatus p in
  List.length (details r) = count r /\
  forall i,
    nth_error (details r) i =
      option_map (fun c => inspect c i) (nth_error (discovered p) i) /\
    (forall c, nth_error (discovered p) i = Some c ->
       exists d, nth_error (details r) i = Some d /\
         d_id d = if String.eqb (id c) ""
                  then ("container-" ++ decimal i)%string else id c).
Proof.
  unfold checkVegaRenderStatus, discovered. cbn [details count].
  rewrite forEach_details. cbn [snd app].
  split.
  - rewrite length_map, length_combine, length_seq. apply Nat.min_id.
  - intros i.
    rewrite (nth_error_indexed (fun ci => inspect (fst ci) (snd ci))).
    cbn [fst snd Nat.add]. split; [reflexivity|].
    intros c ->. eexists. split; reflexivity.
Qed.

End Details.

Section ForcedRendering.

Import Dom Readiness Rerender.

Lemma redraw_dispatches_nothing (charts : list instance) :
  forall start, filter is_dispatch (Rerender.forEach redraw charts start) = [].
Proof.
  induction charts as [|c charts IH]; intros start; simpl; [reflexivity|].
  rewrite filter_app, IH. now destruct c as [|[[|]|]].
Qed.

Lemma nudge_dispatches (cs : list node) :
  forall start,
    List.length (filter is_dispatch (Rerender.forEach nudge cs start)) =
    List.length
      (filter (fun c => negb (truthy (querySelector (ByTag "canvas") c))) cs).
Proof.
  induction cs as [|c cs IH]; intros start; simpl; [reflexivity|].
  rewrite filter_app, length_app, IH. unfold nudge.
  now destruct (truthy (querySelector (ByTag "canvas") c)).
Qed.

Lemma filter_length_le {X : Type} (f g : X -> bool) (l : list X) :
  (forall x, f x = true -> g x = true) ->
  List.length (filter f l) <= List.length (filter g l).
Proof.
  intros H. induction l as [|x l IH]; simpl; [lia|].
  destruct (f x) eqn:Hf.
  - rewrite (H x Hf). simpl. lia.
  - destruct (g x); simpl; lia.
Qed.

Lemma some_unrendered (cs : list node) :
  forallb rendered cs = false ->
  1 <= List.length (filter (fun c => negb (rendered c)) cs).
Proof.
  induction cs as [|c cs IH]; simpl; [discriminate|].
  destruct (rendered c); simpl; [exact IH | lia].
Qed.

(** X24. window.forceRenderCharts dispatches one resize event per
    container without a canvas, whatever window.chartInstances holds. So
    every container that checkVegaRenderStatus counts as not rendered gets
    one, and when checkVegaRenderStatus reports allRendered false on the
    same page at least one event is dispatched. *)
Theorem unrendered_containers_get_a_resize_event
    (chartInstances : option (list instance)) (p : page) :
  let dispatched :=
    List.length (filter is_dispatch (fst (forceRenderCharts chartInstances p)))
  in
  dispatched =
    List.length
      (filter (fun c => negb (truthy (querySelector (ByTag "canvas") c)))
              (discovered p)) /\
  List.length (filter (fun c => negb (rendered c)) (discovered p))
    <= dispatched /\
  (allRendered (checkVegaRenderStatus p) = false -> 1 <= dispatched).
Proof.
  cbv zeta. unfold forceRenderCharts. cbn [fst].
  rewrite filter_app, length_app.
  assert (H0 : List.length
                 (filter is_dispatch
                    match chartInstances with
                    | Some charts => Rerender.forEach redraw charts 0
                    | None => []
                    end) = 0).
  { destruct chartInstances as [charts|]; [|reflexivity].
    now rewrite redraw_dispatches_nothing. }
  rewrite H0, nudge_dispatches. cbn [Nat.add]. fold (discovered p).
  assert (Hle : List.length (filter (fun c => negb (rendered c)) (discovered p))
                <= List.length
                     (filter (fun c => negb (truthy (querySelector
                                                      (ByTag "canvas") c)))
                             (discovered p))).
  { apply filter_length_le. intros c. unfold rendered, inspect. cbn.
    destruct (truthy (querySelector (ByTag "canvas") c)); [discriminate|].
    reflexivity. }
  split; [reflexivity|]. split; [exact Hle|].
  intros Hall. unfold checkVegaRenderStatus in Hall. cbn [allRendered] in Hall.
  rewrite forEach_flag in Hall. cbn [fst andb] in Hall.
  fold (discovered p) in Hall.
  apply some_unrendered in Hall. lia.
Qed.

End ForcedRendering.

(* ================================================================== *)
(** * html_to_image                                                    *)
(* ================================================================== *)

Section SnapshotRuns.

Import Snapshot.

Variable S : surroundings.

(** X25. html_to_image has no [finally]: browser.close() is called in
    exactly the runs that return a path. When any call before it raises,
    the function leaves without closing the browser it may have launched
    (only the playwright context is left). *)
Theorem close_is_reached_only_on_success (html_content : string)
    (output_path : option string) (width : Z) (height : option Z) :
  fails S Close = None ->
  fails S Playwright_exit = None ->
  let r := html_to_image S html_content output_path width height [] in
  In Close (snd r) <-> exists p, fst r = Value p.
Proof.
  intros Hclose Hexit r. subst r.
  unfold html_to_image, with_playwright, then_, act, unit_.
  rewrite Hclose, Hexit.
  destruct height as [h|], output_path as [q|];
    repeat (match goal with
            | |- context [fails S ?s] => destruct (fails S s)
            end; cbn [fst snd app]);
    (split;
     [ intros Hin; cbn in Hin;
       repeat (destruct Hin as [Hin|Hin]; try discriminate Hin);
       try contradiction; eauto
     | intros (p & Hp); try discriminate Hp; cbn; auto 20 ]).
Qed.

(** X26. The viewport follows the height argument. With a height given
    the page is never measured, and every resize is to that height, or to
    800 when the height given is 0; with none given, a run that returns
    has resized to 800 first and to the measured height afterwards, before
    the screenshot. *)
Theorem viewport_follows_the_height_argument (html_content : string)
    (output_path : option string) (width : Z) :
  (forall h,
     let r := html_to_image S html_content output_path width (Some h) [] in
     ~ In Evaluate_scrollHeight (snd r) /\
     forall width' height',
       In (Set_viewport_size width' height') (snd r) ->
       width' = width /\ height' = (if Z.eqb h 0 then 800 else h)%Z) /\
  (let r := html_to_image S html_content output_path width None [] in
   forall p, fst r = Value p ->
     exists mid,
       snd r =
         [Playwright_enter; Launch; New_page; Set_viewport_size width 800;
          Set_content html_content; Evaluate_scrollHeight;
          Set_viewport_size width (measured S)]
         ++ mid ++ [Screenshot p; Close; Playwright_exit]).
Proof.
  split.
  - intros h r. subst r.
    unfold html_to_image, with_playwright, then_, act, unit_, or_800.
    destruct output_path as [q|];
      repeat (match goal with
              | |- context [fails S ?s] => destruct (fails S s)
              end; cbn [fst snd app]);
      (split;
       [ intros Hin; cbn in Hin;
         repeat (destruct Hin as [Hin|Hin]; try discriminate Hin);
         contradiction
       | intros width' height' Hin; cbn in Hin;
         repeat (destruct Hin as [Hin|Hin]; try discriminate Hin);
         try contradiction; injection Hin as <- <-; auto ]).
  - intros r p. subst r.
    unfold html_to_image, with_playwright, then_, act, unit_, or_800.
    destruct output_path as [q|];
      repeat (match goal with
              | |- context [fails S ?s] => destruct (fails S s)
              end; cbn [fst snd app]);
      intros H; try discriminate H; injection H as <-.
    + exists []. reflexivity.
    + exists [Makedirs (output_dir S)]. reflexivity.
Qed.

End SnapshotRuns.

Lemma close_is_reached_only_on_success_witness :
  let r := Snapshot.html_to_image Snapshot.offline "<html></html>" None 1280
             None [] in
  In Snapshot.Close (snd r) <-> exists p, fst r = Value p.
Proof.
  apply (close_is_reached_only_on_success Snapshot.offline "<html></html>"
           None 1280%Z None); reflexivity.
Defined.

(* ================================================================== *)
(** * convert_html_file_to_image where print and relpath can raise     *)
(* ================================================================== *)

Import Console.

(** ** The statements that can raise, rule by rule *)

Section ConsoleLeaves.

Variable P : platform.
Variable E : env.
Variable f : site -> bool.

Lemma say_is_print {R} (msg : message) (w : world) :
  refuses P (stdout w) msg = None -> @say P R msg w = print msg w.
Proof. intros H. unfold say. now rewrite H. Qed.

Lemma say_cases {R} (msg : message) (w : world) :
  (exists e, refuses P (stdout w) msg = Some e /\
             @say P R msg w = (Raised e, w))
  \/ @say P R msg w = print msg w.
Proof.
  unfold say. destruct (refuses P (stdout w) msg) as [e|]; eauto.
Qed.

Lemma appends_say {R} (msg : message) : appends f 0 (@say P R msg).
Proof.
  intros w. destruct (@say_cases R msg w) as [(e & _ & ->) | ->]; simpl.
  all: repeat split; exists []; now rewrite app_nil_r.
Qed.

Lemma appends_cverbose {R} (debug : bool) (line : nat) :
  appends f 0 (@verbose P R debug line).
Proof.
  unfold verbose. destruct debug; [apply appends_say | apply appends_ret].
Qed.

Lemma appends_print_exc {R} : appends f 0 (@print_exc P R).
Proof.
  intros w. unfold print_exc. destruct (stderr_refuses P); simpl.
  all: repeat split; exists []; now rewrite app_nil_r.
Qed.

Lemma appends_raise {R A} (e : exc) : appends f 0 (@raise R A e).
Proof.
  intros w; simpl. repeat split. exists []. now rewrite app_nil_r.
Qed.

Lemma appends_relpath {R} (html_file : string) :
  appends f 0 (@os_path_relpath P E R html_file).
Proof.
  unfold os_path_relpath.
  destruct (_ || _); [apply appends_raise | apply appends_ret].
Qed.

Lemma appends_cprint_details {R} (ds : list Readiness.detail) :
  appends f 0 (@print_details P R ds).
Proof.
  induction ds as [|x ds IH]; simpl.
  - apply appends_ret.
  - change 0%nat with (0 + 0)%nat. apply appends_bind; [apply appends_say|].
    intros _. exact IH.
Qed.

End ConsoleLeaves.

Ltac step_cappends :=
  first
    [ apply appends_say
    | apply appends_cverbose
    | apply appends_print_exc
    | apply appends_raise
    | apply appends_relpath
    | apply appends_cprint_details
    | step_appends ].

Ltac block_cappends :=
  eapply appends_weaken; [repeat step_cappends | simpl; lia].

Ltac unfold_capture :=
  unfold capture_through, check_server, with_browser,
    load_and_capture, wait_for_charts.

(** ** The paths through a call *)

Section ConvertPaths.

Variable P : platform.
Variable E : env.

Lemma raised_by_say (out : list message) (msg : message) (e : exc) :
  refuses P out msg = Some e -> raised_by_print P e.
Proof. intros H. left. eauto. Qed.

Lemma say_then {R A} (msg : message) (k : unit -> M R A) (w : world) :
  bind (say P msg) k w =
  match refuses P (stdout w) msg with
  | Some e => (Raised e, w)
  | None => k tt (snd (@print R msg w))
  end.
Proof. unfold bind, say. now destruct (refuses P (stdout w) msg). Qed.


(** Lines 125-133: the two debug lines, then [httpd = None]. *)
Lemma debug_lines_first (html_file : string) (output_path : option string)
    (debug : bool) (w : world) :
  (exists e w',
     raised_by_print P e /\ trace w' = trace w /\ sockets w' = sockets w /\
     convert P E html_file output_path debug w = (Uncaught e, w'))
  \/
  (exists w0,
     sockets w0 = sockets w /\ trace w0 = trace w /\ httpd_var w0 = None /\
     convert P E html_file output_path debug w =
     run (try_finally
            (try_except
               (serve_and_capture P E html_file
                  (resolved_output E html_file output_path) debug)
               (fun e => bind (say P (Error_starting_server e))
                           (fun _ => bind (print_exc P)
                                       (fun _ => return_ None))))
            (close_server P E debug)) w0).
Proof.
  unfold convert, convert_html_file_to_image, resolved_output, verbose.
  destruct debug.
  - unfold run. rewrite say_then.
    destruct (refuses P (stdout w) (Verbose 126)) as [e|] eqn:H1.
    { left. exists e, w. eauto using raised_by_say. }
    rewrite say_then.
    destruct (refuses P _ (Verbose 127)) as [e|] eqn:H2.
    { left. eexists e, _. split; [eauto using raised_by_say|].
      split; [|split]; [| |reflexivity]; reflexivity. }
    right. eexists; (split; [|split; [|split]]); [| | |reflexivity];
      reflexivity.
  - right. eexists; (split; [|split; [|split]]); [| | |reflexivity];
      reflexivity.
Qed.

(** start_http_server(project_root), line 135: where it can stop, and
    what it leaves. *)
Lemma start_paths {R : Type} (root : path) (w0 : world) :
  let t := sockets w0 in
  let q := Net.ephemeral_port t in
  let h := {| Net.server_addr := Net.Loopback; Net.server_port := q;
              Net.server_handler := Http.SimpleHTTPServerHandler;
              Net.server_directory := root |} in
  let m := @invoke R _ (start_http_server P E root 0) w0 in
  httpd_var (snd m) = httpd_var w0 /\
  ((exists e,
      fst m = Raised e /\ raises E L45_TCPServer = Some e /\
      trace (snd m) = trace w0 ++ [L45_TCPServer] /\ sockets (snd m) = t)
   \/
   (exists e d,
      fst m = Raised e /\ trace (snd m) = trace w0 ++ d /\
      sockets (snd m) = served_socket t :: t /\
      raises E L45_TCPServer = None /\
      ((d = [L45_TCPServer] /\ raised_by_print P e)
       \/ (d = [L45_TCPServer; L53_thread_start] /\
           raises E L53_thread_start = Some e)
       \/ (d = [L45_TCPServer; L53_thread_start; L56_sleep] /\
           raises E L56_sleep = Some e)))
   \/
   (fst m = Normal (q, h) /\
    sockets (snd m) = served_socket t :: t /\
    trace (snd m) = trace w0 ++ [L45_TCPServer; L53_thread_start; L56_sleep] /\
    raises E L45_TCPServer = None /\ raises E L53_thread_start = None /\
    raises E L56_sleep = None)).
Proof.
  cbv zeta.
  unfold invoke, run, start_http_server, TCPServer, bind, call, return_.
  destruct (raises E L45_TCPServer) as [e|] eqn:H45; cbn.
  { split; [reflexivity|]. left. exists e. auto. }
  unfold say. cbn.
  destruct (refuses P (stdout w0) _) as [e|] eqn:H49; cbn.
  { split; [reflexivity|]. right; left. exists e, [L45_TCPServer].
    repeat split. left. eauto using raised_by_say. }
  destruct (raises E L53_thread_start) as [e|] eqn:H53; cbn.
  { split; [reflexivity|]. right; left.
    exists e, [L45_TCPServer; L53_thread_start].
    rewrite <- app_assoc. repeat split. right; left. auto. }
  destruct (raises E L56_sleep) as [e|] eqn:H56; cbn.
  { split; [reflexivity|]. right; left.
    exists e, [L45_TCPServer; L53_thread_start; L56_sleep].
    rewrite <- !app_assoc. repeat split. right; right. auto. }
  split; [reflexivity|]. right; right. rewrite <- !app_assoc.
  repeat split.
Qed.

(** The [except Exception] clauses of lines 352-356 and 359-363: print the
    diagnostic and the traceback, return None. *)
Lemma diagnostic_paths {A : Type} (msg : message) (w : world) :
  let m := bind (say P msg)
             (fun _ => bind (print_exc P)
                         (fun _ => @return_ (option string) A None)) w in
  sockets (snd m) = sockets w /\ trace (snd m) = trace w /\
  httpd_var (snd m) = httpd_var w /\
  (fst m = Returned None \/
   exists e, fst m = Raised e /\ raised_by_print P e).
Proof.
  cbv zeta. unfold bind, say, print_exc, print, return_.
  destruct (refuses P (stdout w) msg) as [e|] eqn:H1; cbn.
  { repeat split. right. exists e. eauto using raised_by_say. }
  destruct (stderr_refuses P) as [e|] eqn:H2; cbn.
  { repeat split. right. exists e. split; [reflexivity|]. now right. }
  repeat split. now left.
Qed.

(** What such a clause makes of the way its [try] block ended. *)
Lemma excepted (body : M (option string) Empty_set)
    (report : exc -> message) (w : world) :
  let m := try_except body
             (fun e => bind (say P (report e))
                         (fun _ => bind (print_exc P)
                                     (fun _ => return_ None))) w in
  sockets (snd m) = sockets (snd (body w)) /\
  trace (snd m) = trace (snd (body w)) /\
  httpd_var (snd m) = httpd_var (snd (body w)) /\
  match fst (body w) with
  | Normal a => match a with end
  | Returned v => fst m = Returned v
  | Raised e =>
      if is_Exception e
      then fst m = Returned None \/
           (exists e', fst m = Raised e' /\ raised_by_print P e')
      else fst m = Raised e
  end.
Proof.
  cbv zeta. unfold try_except.
  destruct (body w) as [[a|v|e] w1]; [destruct a | cbn; auto |].
  cbn [fst snd]. destruct (is_Exception e); [|cbn; auto].
  destruct (@diagnostic_paths Empty_set (report e) w1) as (Hs & Ht & Hv & Hc).
  auto.
Qed.

(** The [finally] of lines 364-373 when [httpd] is still None. *)
Lemma close_server_idle (debug : bool) (w : world) :
  httpd_var w = None -> close_server P E debug w = (Normal tt, w).
Proof.
  intros Hv. unfold close_server, get_httpd, bind, ret. now rewrite Hv.
Qed.

(** The same on the server of line 135: it always runs off its end,
    whatever shutdown, server_close and the debug line do. *)
Lemma close_server_started (debug : bool) (t : Net.table) (w : world) :
  sockets w = served_socket t :: t ->
  httpd_var w =
    Some {| Net.server_addr := Net.Loopback;
            Net.server_port := Net.ephemeral_port t;
            Net.server_handler := Http.SimpleHTTPServerHandler;
            Net.server_directory := project_root E |} ->
  fst (close_server P E debug w) = Normal tt /\
  sockets (snd (close_server P E debug w)) = sockets_after_teardown E t /\
  trace (snd (close_server P E debug w)) = trace w ++ teardown_calls E.
Proof.
  intros Hs Hv.
  unfold close_server, server_close, get_httpd, try_except_all, bind, call,
    verbose, say, print, ret, teardown_calls, sockets_after_teardown.
  rewrite Hv.
  destruct (raises E L368_shutdown); cbn; [now rewrite Hs|].
  destruct (raises E L369_server_close); cbn.
  { rewrite Hs, <- app_assoc. auto. }
  destruct debug; cbn; [destruct (refuses P _ _); cbn|];
    rewrite Hs, <- app_assoc; cbn; rewrite Z.eqb_refl; auto.
Qed.

Lemma console_close_server_normal (debug : bool) (w : world) :
  fst (close_server P E debug w) = Normal tt.
Proof.
  unfold close_server, server_close, get_httpd, try_except_all, bind, call,
    verbose, say, print, ret.
  destruct (httpd_var w); cbn; [|reflexivity].
  destruct (raises E L368_shutdown); cbn; [reflexivity|].
  destruct (raises E L369_server_close); cbn; [reflexivity|].
  destruct debug; cbn; [destruct (refuses P _ _)|]; reflexivity.
Qed.

Lemma run_finally {R : Type} (body : M R Empty_set) (fin : M R unit)
    (w : world) :
  (forall w', fst (fin w') = Normal tt) ->
  run (try_finally body fin) w =
  (reaches_caller (fst (body w)), snd (fin (snd (body w)))).
Proof.
  intros Hfin. unfold run, try_finally.
  destruct (body w) as [c w1]. cbn [fst snd]. specialize (Hfin w1).
  destruct (fin w1) as [c2 w2]. cbn in *. subst c2.
  destruct c as [a|r|e]; [destruct a | |]; reflexivity.
Qed.

Lemma serve_and_capture_unfold (html_file out : string) (debug : bool)
    (w0 : world) :
  serve_and_capture P E html_file out debug w0 =
  match invoke (start_http_server P E (project_root E) 0) w0 with
  | (Normal started, w1) =>
      capture_through P E (fst started) html_file out debug
        (snd (@set_httpd (option string) (Some (snd started)) w1))
  | (Returned r, w1) => (Returned r, w1)
  | (Raised e, w1) => (Raised e, w1)
  end.
Proof.
  unfold serve_and_capture. unfold bind at 1.
  now destruct (invoke _ w0) as [[started|r|e] w1].
Qed.

Lemma capture_through_keeps (port : Z) (html_file out : string)
    (debug : bool) :
  appends (fun _ => false) 0 (capture_through P E port html_file out debug).
Proof. unfold_capture. block_cappends. Qed.

(** Every call takes one of four paths: a debug line of 126-127 raises;
    the server cannot be created; it is created but start_http_server
    does not return; it returns, lines 137-358 run, and the [finally]
    tears the server down. *)
Lemma convert_paths (html_file : string) (output_path : option string)
    (debug : bool) (w : world) :
  let out := resolved_output E html_file output_path in
  let t := sockets w in
  let r := convert P E html_file output_path debug w in
  (exists e,
     fst r = Uncaught e /\ raised_by_print P e /\
     trace (snd r) = trace w /\ sockets (snd r) = t)
  \/
  (exists e,
     handled P e (fst r) /\ raises E L45_TCPServer = Some e /\
     trace (snd r) = trace w ++ [L45_TCPServer] /\ sockets (snd r) = t)
  \/
  (exists e d,
     handled P e (fst r) /\ trace (snd r) = trace w ++ d /\
     sockets (snd r) = served_socket t :: t /\
     raises E L45_TCPServer = None /\
     ((d = [L45_TCPServer] /\ raised_by_print P e)
      \/ (d = [L45_TCPServer; L53_thread_start] /\
          raises E L53_thread_start = Some e)
      \/ (d = [L45_TCPServer; L53_thread_start; L56_sleep] /\
          raises E L56_sleep = Some e)))
  \/
  (exists w1,
     sockets w1 = served_socket t :: t /\
     trace w1 = trace w ++ [L45_TCPServer; L53_thread_start; L56_sleep] /\
     raises E L45_TCPServer = None /\ raises E L53_thread_start = None /\
     raises E L56_sleep = None /\
     let cw := capture_through P E (Net.ephemeral_port t) html_file out
                 debug w1 in
     after_capture P (fst cw) (fst r) /\
     exists dc,
       trace (snd cw) = trace w1 ++ dc /\
       trace (snd r) =
         trace w ++ [L45_TCPServer; L53_thread_start; L56_sleep] ++ dc
                 ++ teardown_calls E /\
       sockets (snd r) = sockets_after_teardown E t).
Proof.
  intros out t r. subst r t.
  destruct (debug_lines_first html_file output_path debug w)
    as [(e & w' & He & Ht & Hs & Heq) | (w0 & Hs0 & Ht0 & Hv0 & Heq)];
    rewrite Heq; clear Heq.
  { left. exists e. auto. }
  right. fold out.
  rewrite run_finally by apply console_close_server_normal. cbn [fst snd].
  pose proof (excepted (serve_and_capture P E html_file out debug)
                Error_starting_server w0) as Hexc.
  cbv zeta in Hexc. destruct Hexc as (Hs2 & Ht2 & Hv2 & Hc2).
  set (B := try_except _ _ w0) in *. clearbody B.
  destruct B as [c2 w2]. cbn [fst snd] in *.
  rewrite serve_and_capture_unfold in Hs2, Ht2, Hv2, Hc2.
  destruct (@start_paths (option string) (project_root E) w0)
    as (Hv1 & Hstart).
  cbv zeta in Hv1, Hstart.
  destruct (invoke (start_http_server P E (project_root E) 0) w0)
    as [c1 w1].
  cbn [fst snd] in Hv1, Hstart.
  assert (Hfail : forall e, c1 = Raised e ->
            handled P e (reaches_caller c2) /\
            snd (close_server P E debug w2) = w2 /\
            sockets w2 = sockets w1 /\ trace w2 = trace w1).
  { intros e ->. cbn [fst snd] in Hs2, Ht2, Hv2, Hc2.
    rewrite close_server_idle by congruence.
    unfold handled.
    destruct (is_Exception e).
    - destruct Hc2 as [-> | (e' & -> & He')]; cbn;
        (split; [|auto]); [left; reflexivity | right; eauto].
    - subst c2. cbn. auto. }
  destruct Hstart as [(e & -> & H45 & Ht1 & Hs1)
                     | [(e & d & -> & Ht1 & Hs1 & H45 & Hd)
                       | (-> & Hs1 & Ht1 & H45 & H53 & H56)]].
  - left. exists e. destruct (Hfail e eq_refl) as (Hh & Hw & Hs & Ht).
    rewrite Hw, Hs, Ht, Ht1, Hs1, Ht0, Hs0. auto.
  - right; left. exists e, d.
    destruct (Hfail e eq_refl) as (Hh & Hw & Hs & Ht).
    rewrite Hw, Hs, Ht, Ht1, Hs1, Ht0, Hs0. auto.
  - right; right. clear Hfail. cbn [fst snd set_httpd] in Hs2, Ht2, Hv2, Hc2.
    match type of Hs2 with
    | context [capture_through P E ?q html_file out debug ?w'] =>
        set (w3 := w') in *
    end.
    exists w3. rewrite <- Hs0.
    split; [exact Hs1|]. split; [subst w3; cbn; now rewrite Ht1, Ht0|].
    repeat (split; [assumption|]).
    destruct (capture_through_keeps (Net.ephemeral_port (sockets w0))
                html_file out debug w3) as (Hs3 & Hv3 & dc & Ht3 & _).
    cbv zeta.
    destruct (capture_through P E (Net.ephemeral_port (sockets w0)) html_file
                out debug w3) as [c3 w4].
    cbn [fst snd] in *.
    destruct (close_server_started debug (sockets w0) w2)
      as (Hc5 & Hs5 & Ht5).
    { rewrite Hs2, Hs3. subst w3. exact Hs1. }
    { rewrite Hv2, Hv3. subst w3. reflexivity. }
    split.
    + unfold after_capture, handled.
      destruct c3 as [a|v|e3]; [destruct a | |].
      * subst c2. reflexivity.
      * destruct (is_Exception e3).
        -- destruct Hc2 as [-> | (e' & -> & He')]; cbn; eauto.
        -- subst c2. reflexivity.
    + exists dc. split; [exact Ht3|]. split; [|exact Hs5].
      rewrite Ht5, Ht2, Ht3. subst w3. cbn [trace]. rewrite Ht1, Ht0.
      now rewrite <- !app_assoc.
Qed.

End ConvertPaths.

(** ** What lines 137-358 launch, they close *)

Section ConsoleScopes.

Variable P : platform.
Variable E : env.




End ConsoleScopes.

(** ** Failures and the value that comes back *)

Section ConsoleCareful.

Variable P : platform.
Variable E : env.
Variable out : string.















End ConsoleCareful.



Section ConsoleCarefulBlocks.

Variable P : platform.
Variable E : env.
Variable out : string.




End ConsoleCarefulBlocks.

(** ** The order of the chart steps *)

Section OrderedRules.

Variable P : platform.
Variable E : env.
Variable g : site -> bool.

Lemma ordered_as {R A} (xs xs' : list site) (m : M R A) :
  ordered g xs m -> xs = xs' -> ordered g xs' m.
Proof. now intros H <-. Qed.

Lemma ordered_silent {R A} (m : M R A) : appends g 0 m -> ordered g [] m.
Proof.
  intros Hm w. destruct (Hm w) as (Hs & Hv & d & Ht & Hc).
  repeat split; try assumption. exists d. split; [assumption|].
  rewrite (filter_none g d Hc). split; [now exists [] | reflexivity].
Qed.

Lemma ordered_call {R} (s : site) : g s = true -> ordered g [s] (@call E R s).
Proof.
  intros Hg w. unfold call.
  destruct (raises E s); simpl; repeat split; exists [s]; simpl; rewrite Hg;
    (split; [reflexivity|]); (split; [now exists [] | reflexivity]).
Qed.

Lemma ordered_bind {R A B} (xs ys : list site) (m : M R A) (k : A -> M R B) :
  ordered g xs m -> (forall a, ordered g ys (k a)) ->
  ordered g (xs ++ ys) (bind m k).
Proof.
  intros Hm Hk w. unfold bind.
  destruct (Hm w) as (Hs & Hv & d & Ht & (rest & Hp) & Hn).
  destruct (m w) as [[a|r|e] w1]; simpl in *.
  - destruct (Hk a w1) as (Hs' & Hv' & d' & Ht' & (rest' & Hp') & Hn').
    repeat split; try congruence.
    exists (d ++ d'). rewrite Ht', Ht, app_assoc. split; [reflexivity|].
    rewrite filter_app, (Hn a eq_refl). split.
    + exists rest'. now rewrite Hp', app_assoc.
    + intros b Hb. now rewrite (Hn' b Hb).
  - repeat split; try assumption. exists d. split; [assumption|]. split.
    + exists (rest ++ ys). now rewrite Hp, app_assoc.
    + discriminate.
  - repeat split; try assumption. exists d. split; [assumption|]. split.
    + exists (rest ++ ys). now rewrite Hp, app_assoc.
    + discriminate.
Qed.

(** A check whose result decides what follows. *)
Lemma ordered_evaluate_then {R A B} (s : site) (script : page -> A)
    (ys : list site) (k : A -> M R B) :
  g s = true -> ordered g ys (k (script (page_at E s))) ->
  ordered g (s :: ys) (bind (evaluate E s script) k).
Proof.
  intros Hg Hk w. unfold evaluate, bind, call, ret.
  destruct (raises E s); simpl.
  - repeat split. exists [s]. simpl. rewrite Hg.
    split; [reflexivity|]. split; [now exists ys | discriminate].
  - destruct (Hk (log s w)) as (Hs' & Hv' & d' & Ht' & (rest' & Hp') & Hn').
    simpl in *. repeat split; try assumption.
    exists (s :: d'). rewrite Ht', <- app_assoc. split; [reflexivity|].
    simpl. rewrite Hg. split.
    + exists rest'. simpl. now rewrite Hp'.
    + intros b Hb. now rewrite (Hn' b Hb).
Qed.

Lemma ordered_if {R A} (b : bool) (xs1 xs2 : list site) (m1 m2 : M R A) :
  ordered g xs1 m1 -> ordered g xs2 m2 ->
  ordered g (if b then xs1 else xs2) (if b then m1 else m2).
Proof. now destruct b. Qed.

Lemma ordered_shaped {R A} (xs : list site) (m : M R A) :
  ordered g xs m -> shaped g (fun l => exists rest, xs = l ++ rest) m.
Proof.
  intros Hm w. destruct (Hm w) as (Hs & Hv & d & Ht & Hp & _).
  repeat split; try assumption. exists d. auto.
Qed.

Variable Q : list site -> Prop.

Lemma shaped_silent {R A} (m : M R A) :
  Q [] -> appends g 0 m -> shaped g Q m.
Proof.
  intros HQ Hm w. destruct (Hm w) as (Hs & Hv & d & Ht & Hc).
  repeat split; try assumption. exists d. split; [assumption|].
  now rewrite (filter_none g d Hc).
Qed.

Lemma shaped_bind_before {R A B} (m : M R A) (k : A -> M R B) :
  shaped g Q m -> (forall a, appends g 0 (k a)) -> shaped g Q (bind m k).
Proof.
  intros Hm Hk w. unfold bind.
  destruct (Hm w) as (Hs & Hv & d & Ht & HQ).
  destruct (m w) as [[a|r|e] w1]; simpl in *.
  - destruct (Hk a w1) as (Hs' & Hv' & d' & Ht' & Hc').
    repeat split; try congruence.
    exists (d ++ d'). rewrite Ht', Ht, app_assoc. split; [reflexivity|].
    now rewrite filter_app, (filter_none g d' Hc'), app_nil_r.
  - repeat split; try assumption. exists d. auto.
  - repeat split; try assumption. exists d. auto.
Qed.

End OrderedRules.

Section ChartOrder.

Variable P : platform.
Variable E : env.

(** Line 217 under its [try]: the wait is made, and whatever becomes of
    it the block goes on, unless a debug line or a KeyboardInterrupt stops
    it. *)
Lemma container_wait_ordered (debug : bool) :
  ordered is_chart_step [L217_wait_for_selector]
    (try_except
       (bind (call E L217_wait_for_selector)
          (fun _ => @verbose P (option string) debug 219))
       (fun _ => verbose P debug 222)).
Proof.
  intros w. unfold try_except, bind, call, verbose, say, print, ret.
  destruct debug;
    repeat (cbn;
            match goal with
            | |- context [match raises E ?s with _ => _ end] =>
                destruct (raises E s)
            | |- context [if is_Exception ?e then _ else _] =>
                destruct (is_Exception e)
            | |- context [match refuses P ?o ?m with _ => _ end] =>
                destruct (refuses P o m)
            end); cbn.
  all: split; [reflexivity|]; split; [reflexivity|].
  all: exists [L217_wait_for_selector]; split; [reflexivity|].
  all: split; [now exists [] | reflexivity].
Qed.

Lemma wait_for_charts_ordered (debug : bool) :
  ordered is_chart_step (charts_calls E) (wait_for_charts P E debug).
Proof.
  unfold wait_for_charts, charts_calls.
  eapply ordered_as.
  - repeat first
      [ apply ordered_evaluate_then; [reflexivity|]
      | eapply ordered_bind;
          [ first [ apply ordered_call; reflexivity
                  | apply container_wait_ordered
                  | apply ordered_silent; solve [block_cappends] ]
          | intros ? ]
      | apply ordered_call; reflexivity
      | apply ordered_if
      | apply ordered_silent; solve [block_cappends] ].
  - destruct (Readiness.allRendered _); reflexivity.
Qed.

Lemma begins_charts_nil : begins_charts E [].
Proof. now exists (charts_calls E). Qed.

Lemma console_capture_charts (port : Z) (html_file out : string)
    (debug : bool) :
  shaped is_chart_step (begins_charts E)
    (capture_through P E port html_file out debug).
Proof.
  pose proof begins_charts_nil as Hnil.
  unfold capture_through, check_server, with_browser, with_,
    load_and_capture.
  repeat first
    [ apply shaped_bind_after;
        [exact Hnil | solve [block_cappends] | intros ?]
    | apply shaped_try_finally; [| solve [block_cappends]]
    | apply shaped_try_except; [| intros ?; solve [block_cappends]] ].
  apply shaped_bind_before; [| intros ?; block_cappends].
  match goal with
  | |- shaped _ _ (if ?b then _ else _) => destruct b
  end.
  - apply ordered_shaped, wait_for_charts_ordered.
  - apply shaped_silent; [exact Hnil | apply appends_ret].
Qed.

Lemma teardown_has_no_chart_step :
  filter is_chart_step (teardown_calls E) = [].
Proof. unfold teardown_calls. now destruct (raises E L368_shutdown). Qed.

(** The chart steps of a whole call are those of lines 137-358. *)
Lemma convert_chart_steps (html_file : string)
    (output_path : option string) (debug : bool) (w : world) :
  exists d,
    trace (snd (convert P E html_file output_path debug w)) = trace w ++ d /\
    begins_charts E (filter is_chart_step d).
Proof.
  destruct (convert_paths P E html_file output_path debug w)
    as [(e & _ & _ & Ht & _)
       | [(e & _ & _ & Ht & _)
         | [(e & d & _ & Ht & _ & _ & Hd)
           | (w1 & _ & Ht1 & _ & _ & _ & Hrun)]]].
  - exists []. rewrite app_nil_r. split; [exact Ht | apply begins_charts_nil].
  - eexists. split; [exact Ht | apply begins_charts_nil].
  - exists d. split; [exact Ht|].
    destruct Hd as [(-> & _) | [(-> & _) | (-> & _)]];
      apply begins_charts_nil.
  - cbv zeta in Hrun. destruct Hrun as (_ & dc & Htc & Ht & _).
    eexists. split; [exact Ht|].
    destruct (console_capture_charts (Net.ephemeral_port (sockets w))
                html_file (resolved_output E html_file output_path) debug w1)
      as (_ & _ & d' & Ht' & HQ).
    rewrite Htc in Ht'. apply app_inv_head in Ht'. subst d'.
    rewrite !filter_app, teardown_has_no_chart_step, app_nil_r. exact HQ.
Qed.

End ChartOrder.

(** ** Where [Console] and [Program] coincide *)

Section SameRules.

Lemma same_refl {R A} (m : M R A) : same m m.
Proof. now intros w. Qed.

Lemma same_bind {R A B} (m m' : M R A) (k k' : A -> M R B) :
  same m m' -> (forall a, same (k a) (k' a)) -> same (bind m k) (bind m' k').
Proof.
  intros Hm Hk w. unfold bind. rewrite Hm.
  destruct (m' w) as [[a|r|e] w1]; [apply Hk | reflexivity | reflexivity].
Qed.

Lemma same_try_except {R A} (b b' : M R A) (h h' : exc -> M R A) :
  same b b' -> (forall e, same (h e) (h' e)) ->
  same (try_except b h) (try_except b' h').
Proof.
  intros Hb Hh w. unfold try_except. rewrite Hb.
  destruct (b' w) as [[a|r|e] w1]; try reflexivity.
  destruct (is_Exception e); [apply Hh | reflexivity].
Qed.

Lemma same_try_except_all {R A} (b b' : M R A) (h h' : M R A) :
  same b b' -> same h h' -> same (try_except_all b h) (try_except_all b' h').
Proof.
  intros Hb Hh w. unfold try_except_all. rewrite Hb.
  destruct (b' w) as [[a|r|e] w1]; try reflexivity. apply Hh.
Qed.

Lemma same_try_finally {R A} (b b' : M R A) (f f' : M R unit) :
  same b b' -> same f f' -> same (try_finally b f) (try_finally b' f').
Proof.
  intros Hb Hf w. unfold try_finally. rewrite Hb.
  destruct (b' w) as [c w1]. now rewrite Hf.
Qed.

Lemma same_with {R A X} (en en' : M R X) (ex ex' : X -> M R unit)
    (b b' : X -> M R A) :
  same en en' -> (forall x, same (ex x) (ex' x)) ->
  (forall x, same (b x) (b' x)) ->
  same (with_ en ex b) (with_ en' ex' b').
Proof.
  intros He Hx Hb. unfold with_. apply same_bind; [assumption|].
  intros x. apply same_try_finally; auto.
Qed.

Lemma same_if {R A} (b : bool) (m1 m2 m1' m2' : M R A) :
  same m1 m1' -> same m2 m2' ->
  same (if b then m1 else m2) (if b then m1' else m2').
Proof. now destruct b. Qed.

Lemma same_invoke {R R'} (body body' : M R' Empty_set) :
  same body body' -> same (@invoke R R' body) (invoke body').
Proof. intros H w. unfold invoke, run. now rewrite H. Qed.

Variable P : platform.
Hypothesis every_line : takes_every_line P.

Lemma same_say {R} (msg : message) : same (@say P R msg) (print msg).
Proof. intros w. apply say_is_print, every_line. Qed.

Lemma same_verbose {R} (debug : bool) (line : nat) :
  same (@verbose P R debug line) (World.verbose debug line).
Proof.
  unfold verbose, World.verbose.
  destruct debug; [apply same_say | apply same_refl].
Qed.

Lemma same_print_details {R} (ds : list Readiness.detail) :
  same (@print_details P R ds) (Program.print_details ds).
Proof.
  induction ds as [|x ds IH]; simpl; [apply same_refl|].
  apply same_bind; [apply same_say | intros _; exact IH].
Qed.

Lemma same_print_exc_then {R A} (m : M R A) :
  same (bind (print_exc P) (fun _ => m)) m.
Proof.
  intros w. unfold bind, print_exc. destruct every_line as (_ & ->).
  reflexivity.
Qed.

End SameRules.

Ltac step_same H :=
  first
    [ apply (same_say _ H)
    | apply (same_verbose _ H)
    | apply (same_print_details _ H)
    | apply (same_print_exc_then _ H)
    | apply same_bind; [| intros ?]
    | apply same_try_except; [| intros ?]
    | apply same_try_except_all
    | apply same_try_finally
    | apply same_with; [| intros ? | intros ?]
    | apply same_if
    | apply same_invoke
    | apply same_refl ].

Section OnATerminal.

Variable P : platform.
Variable E : env.
Hypothesis every_line : takes_every_line P.

Lemma relpath_then {R A} (html_file : string) (k : path -> M R A) :
  relpath_defined P html_file ->
  same (bind (os_path_relpath P E html_file) k)
       (k (relpath (abspath E html_file) (project_root E))).
Proof.
  intros (Hne & Hdrive) w. unfold bind, os_path_relpath.
  apply String.eqb_neq in Hne. now rewrite Hne, Hdrive.
Qed.

Lemma same_capture_through (port : Z) (html_file out : string)
    (debug : bool) :
  relpath_defined P html_file ->
  same (capture_through P E port html_file out debug)
       (Program.capture_through E port html_file out debug).
Proof.
  intros Hrel w. unfold capture_through. rewrite (relpath_then _ _ Hrel).
  revert w.
  change (same
            (bind (verbose P debug 142) (fun _ =>
             bind (verbose P debug 143) (fun _ =>
             bind (verbose P debug 144) (fun _ =>
             bind (check_server P E port debug) (fun _ =>
             with_browser P E
               {| url_port := port;
                  url_path := relpath (abspath E html_file) (project_root E) |}
               out debug)))))
            (Program.capture_through E port html_file out debug)).
  unfold Program.capture_through, check_server, Program.check_server,
    with_browser, Program.with_browser, load_and_capture,
    Program.load_and_capture, wait_for_charts, Program.wait_for_charts.
  repeat step_same every_line.
Qed.

Lemma same_start_http_server (root : path) (port : Z) :
  same (start_http_server P E root port) (Program.start_http_server E root port).
Proof.
  unfold start_http_server, Program.start_http_server.
  repeat step_same every_line.
Qed.

Lemma same_close_server (debug : bool) :
  same (close_server P E debug) (Program.close_server E debug).
Proof.
  unfold close_server, Program.close_server.
  apply same_bind; [apply same_refl | intros [h|]]; [|apply same_refl].
  repeat step_same every_line.
Qed.

Lemma same_convert (html_file : string) (output_path : option string)
    (debug : bool) :
  relpath_defined P html_file ->
  same (convert_html_file_to_image P E html_file output_path debug)
       (Program.convert_html_file_to_image E html_file output_path debug).
Proof.
  intros Hrel.
  unfold convert_html_file_to_image, Program.convert_html_file_to_image,
    serve_and_capture, Program.serve_and_capture.
  cbv zeta.
  repeat first
    [ apply same_close_server
    | apply same_start_http_server
    | apply same_capture_through; exact Hrel
    | step_same every_line ].
Qed.

(** On a stdout that takes every line, and for a path relpath has a value
    for, a call does what [Program] says. *)
Lemma convert_on_a_terminal (html_file : string)
    (output_path : option string) (debug : bool) (w : world) :
  relpath_defined P html_file ->
  convert P E html_file output_path debug w =
  Spec.convert E html_file output_path debug w.
Proof.
  intros Hrel. unfold convert, Spec.convert, run.
  now rewrite (same_convert html_file output_path debug Hrel w).
Qed.

End OnATerminal.

(** ** What only changes the output, on a stdout that takes every line *)

Section ConsoleAgreement.

Variable P : platform.
Variable E : env.
Hypothesis every_line : takes_every_line P.

Lemma silent_say {R} (msg : message) : silent (@say P R msg).
Proof.
  intros w. rewrite say_is_print by apply every_line. repeat split.
Qed.

Lemma silent_cverbose {R} (debug : bool) (line : nat) :
  silent (@verbose P R debug line).
Proof. destruct debug; [apply silent_say | apply silent_ret]. Qed.

Lemma silent_cprint_details {R} (ds : list Readiness.detail) :
  silent (@print_details P R ds).
Proof.
  induction ds as [|x ds IH]; simpl.
  - apply silent_ret.
  - apply silent_bind; [apply silent_say | exact IH].
Qed.

Lemma silent_print_exc {R} : silent (@print_exc P R).
Proof.
  intros w. unfold print_exc. destruct every_line as (_ & ->).
  split; [reflexivity | apply same_but_stdout_refl].
Qed.

Lemma agree_raise {R A} (e : exc) : agree (@raise R A e) (raise e).
Proof. intros w1 w2 H. split; [reflexivity | exact H]. Qed.

Lemma agree_relpath {R} (html_file : string) :
  agree (@os_path_relpath P E R html_file) (os_path_relpath P E html_file).
Proof.
  unfold os_path_relpath.
  destruct (_ || _); [apply agree_raise | apply agree_ret].
Qed.

Lemma agree_same {R A} (m1 m2 m1' m2' : M R A) :
  same m1 m1' -> same m2 m2' -> agree m1' m2' -> agree m1 m2.
Proof. intros H1 H2 H w1 w2 Hw. rewrite H1, H2. now apply H. Qed.

Lemma console_start_agree {R} (root : path) (port : Z) :
  agree (@invoke R _ (start_http_server P E root port))
        (invoke (start_http_server P E root port)).
Proof.
  eapply agree_same;
    [ apply same_invoke, same_start_http_server, every_line
    | apply same_invoke, same_start_http_server, every_line
    | apply agree_start_http_server ].
Qed.

Lemma console_close_agree (debug1 debug2 : bool) :
  agree (close_server P E debug1) (close_server P E debug2).
Proof.
  eapply agree_same;
    [ apply same_close_server, every_line
    | apply same_close_server, every_line
    | apply agree_close_server ].
Qed.

End ConsoleAgreement.

Ltac step_csilent H :=
  first
    [ apply (silent_say _ H)
    | apply (silent_cverbose _ H)
    | apply (silent_cprint_details _ H)
    | apply (silent_print_exc _ H)
    | step_silent ].

Ltac step_cagree H :=
  first
    [ apply agree_silent;
        [solve [repeat step_csilent H] | solve [repeat step_csilent H]]
    | apply agree_relpath
    | apply agree_raise
    | step_agree ].

Section ConsolePrintingOnly.

Variable P : platform.
Variable E : env.
Hypothesis every_line : takes_every_line P.

Lemma console_capture_agree (port : Z) (html_file out : string)
    (debug1 debug2 : bool) :
  agree (capture_through P E port html_file out debug1)
        (capture_through P E port html_file out debug2).
Proof. unfold_capture. cbv zeta. repeat step_cagree every_line. Qed.

Lemma console_convert_agree (html_file : string)
    (output_path : option string) (debug1 debug2 : bool) :
  agree (convert_html_file_to_image P E html_file output_path debug1)
        (convert_html_file_to_image P E html_file output_path debug2).
Proof.
  unfold convert_html_file_to_image, serve_and_capture. cbv zeta.
  repeat first
    [ apply agree_set_httpd
    | apply console_start_agree; exact every_line
    | apply console_close_agree; exact every_line
    | apply console_capture_agree
    | step_cagree every_line ].
Qed.

End ConsolePrintingOnly.

(** ** Forced re-rendering *)

Section Forced.

Lemma filter_within (f g : site -> bool) (d : list site) :
  (forall s, f s = true -> g s = true) ->
  filter f (filter g d) = filter f d.
Proof.
  intros Hfg. induction d as [|s d IH]; simpl; [reflexivity|].
  destruct (g s) eqn:Hg; simpl.
  - now rewrite IH.
  - destruct (f s) eqn:Hf; [|exact IH].
    rewrite (Hfg s Hf) in Hg. discriminate.
Qed.

Lemma forces_are_chart_steps (s : site) :
  is_forceRenderCharts s = true -> is_chart_step s = true.
Proof. now destruct s. Qed.

Lemma charts_calls_forces (E : env) :
  count_sites is_forceRenderCharts (charts_calls E) =
  if Readiness.allRendered
       (Readiness.checkVegaRenderStatus (page_at E L314_checkVegaRenderStatus))
  then 1 else 2.
Proof.
  unfold charts_calls. now destruct (Readiness.allRendered _).
Qed.

Lemma begins_charts_forces (E : env) (d : list site) :
  begins_charts E (filter is_chart_step d) ->
  count_sites is_forceRenderCharts d <= 2.
Proof.
  intros (rest & Hrest).
  pose proof (charts_calls_forces E) as Hc.
  rewrite Hrest, count_sites_app in Hc.
  unfold count_sites in Hc at 1.
  rewrite (filter_within _ _ d forces_are_chart_steps) in Hc.
  fold (count_sites is_forceRenderCharts d) in Hc.
  destruct (Readiness.allRendered _); lia.
Qed.

End Forced.

(** C1, as stated, fails: on a page whose container never renders,
    window.forceRenderCharts() runs twice in one call. *)
Lemma forceRenderCharts_can_run_twice :
  ~ (forall (P : platform) (E : env) (html_file : string)
            (output_path : option string) (debug : bool) (t : Net.table),
       Readiness.allRendered
         (Readiness.checkVegaRenderStatus
            (page_at E L294_checkVegaRenderStatus)) = false ->
       count_sites is_forceRenderCharts
         (trace (snd (convert P E html_file output_path debug (initial t))))
       <= 1).
Proof.
  intros H.
  specialize (H terminal Examples.quiet_env Examples.report None false []
                eq_refl).
  vm_compute in H. lia.
Qed.

(** C1. In every call, whatever raises, the calls of lines 206-323 that
    are made are the first of
      wait_for_function, wait_for_selector, add_script_tag, the 3 s wait,
      the first check, forceRenderCharts, the 8 s wait, the second check,
    followed, only when that second check reports containers without a
    signal, by forceRenderCharts and the 5 s wait; they are made in this
    order. So window.forceRenderCharts() runs at most twice, the first
    time only after the 3 s wait and the first check (whatever it
    reported), the second time only after a second check that still
    reports unrendered containers. When the library is detected, no call
    raises, every line can be printed and relpath has a value, all of
    these calls are made: one forced render when the second check reports
    all containers rendered, two when it does not. *)
Theorem forceRenderCharts_twice_in_order (P : platform) (E : env)
    (html_file : string) (output_path : option string) (debug : bool)
    (w : world) :
  exists d,
    trace (snd (convert P E html_file output_path debug w)) = trace w ++ d /\
    begins_charts E (filter is_chart_step d) /\
    count_sites is_forceRenderCharts d <= 2 /\
    (takes_every_line P -> relpath_defined P html_file -> no_faults E ->
     has_vega_script (page_at E L196_evaluate_has_vega) = true ->
     filter is_chart_step d = charts_calls E /\
     count_sites is_forceRenderCharts d =
     if Readiness.allRendered
          (Readiness.checkVegaRenderStatus
             (page_at E L314_checkVegaRenderStatus))
     then 1 else 2).
Proof.
  destruct (convert_chart_steps P E html_file output_path debug w)
    as (d & Ht & Hb).
  exists d. split; [exact Ht|]. split; [exact Hb|].
  split; [now apply (begins_charts_forces E)|].
  intros Hall Hrel Hq Hvega.
  rewrite (convert_on_a_terminal P E Hall html_file output_path debug w Hrel)
    in Ht.
  destruct (convert_quiet E Hq html_file output_path debug w) as (_ & _ & Ht').
  cbv zeta in Ht'. rewrite Ht' in Ht. apply app_inv_head in Ht. subst d.
  assert (Hsteps :
            filter is_chart_step
              (calls_when_quiet E (Net.ephemeral_port (sockets w)) html_file
                 (resolved_output E html_file output_path))
            = charts_calls E).
  { unfold calls_when_quiet, capture_calls, charts_calls. rewrite Hvega.
    destruct (Readiness.allRendered _);
      destruct (has_images_script _); reflexivity. }
  split; [exact Hsteps|].
  unfold count_sites.
  rewrite <- (filter_within _ _ _ forces_are_chart_steps), Hsteps.
  apply charts_calls_forces.
Qed.

Lemma forceRenderCharts_twice_in_order_witness :
  exists d,
    trace (snd (convert terminal Examples.quiet_env Examples.report None false
                  (initial []))) = trace (initial []) ++ d /\
    begins_charts Examples.quiet_env (filter is_chart_step d) /\
    count_sites is_forceRenderCharts d <= 2 /\
    filter is_chart_step d = charts_calls Examples.quiet_env /\
    count_sites is_forceRenderCharts d = 2.
Proof.
  destruct (forceRenderCharts_twice_in_order terminal Examples.quiet_env
              Examples.report None false (initial []))
    as (d & Ht & Hb & Hle & Hexact).
  exists d. split; [exact Ht|]. split; [exact Hb|]. split; [exact Hle|].
  apply Hexact.
  - split; [intros out m|]; reflexivity.
  - split; [discriminate | reflexivity].
  - intros s. reflexivity.
  - reflexivity.
Defined.

(** ** Documents outside the served root *)

Section WithoutRelpath.

Variable P : platform.
Variable E : env.






End WithoutRelpath.




(** ** Release in reverse order *)




(** ** Readiness that never comes *)

Section Segments.

Lemma if_same {A : Type} (b : bool) (x : A) : (if b then x else x) = x.
Proof. now destruct b. Qed.

Lemma seg_here (x y z : site) (rest : list site) (Q : list site -> Prop) :
  Q rest ->
  exists before after,
    x :: y :: z :: rest = before ++ x :: y :: z :: after /\ Q after.
Proof. intros H. now exists [], rest. Qed.

Lemma seg_later (s x y z : site) (d : list site) (Q : list site -> Prop) :
  (exists before after, d = before ++ x :: y :: z :: after /\ Q after) ->
  exists before after, s :: d = before ++ x :: y :: z :: after /\ Q after.
Proof. intros (b & a & -> & H). now exists (s :: b), a. Qed.

End Segments.

(** Finds three consecutive calls in a trace, and a call after them. *)
Ltac find_segment :=
  repeat (cbn [app]; rewrite ?if_same);
  repeat first [ apply seg_here; simpl; auto 20 | apply seg_later ].

(** C4, as stated, fails: on a page whose container never renders, a
    screenshot that cannot be written makes the call return None. *)
Lemma stalled_capture_can_fail :
  Readiness.allRendered
    (Readiness.checkVegaRenderStatus
       (page_at stalled_unwritable_env L314_checkVegaRenderStatus)) = false
  /\
  fst (convert terminal stalled_unwritable_env Examples.report None false
         (initial [])) = Value None.
Proof. split; vm_compute; reflexivity. Qed.

(** C4. When the check after the forced re-render still reports
    containers without a signal, that alone does not stop the call: it
    forces a render once more and waits five seconds, then goes on to the
    full-page screenshot and returns the output image path. This holds
    provided nothing else fails: every line can be printed, relpath has a
    value, and the calls outside the tolerated waits of lines 217, 327 and
    331 come back; a timeout of those waits changes nothing. *)
Theorem stalled_charts_are_still_captured (P : platform) (E : env)
    (html_file : string) (output_path : option string) (debug : bool)
    (w : world) :
  takes_every_line P ->
  relpath_defined P html_file ->
  capture_goes_through E ->
  has_vega_script (page_at E L196_evaluate_has_vega) = true ->
  Readiness.allRendered
    (Readiness.checkVegaRenderStatus (page_at E L314_checkVegaRenderStatus))
  = false ->
  let out := resolved_output E html_file output_path in
  let r := convert P E html_file output_path debug w in
  fst r = Value (Some out) /\
  exists before after,
    trace (snd r) =
      trace w ++ before
      ++ [L314_checkVegaRenderStatus; L322_forceRenderCharts;
          L323_wait_for_timeout]
      ++ after /\
    In (L346_screenshot out) after.
Proof.
  intros Hall Hrel (Hcrit & Hexc) Hvega Hstall out r. subst r.
  rewrite (convert_on_a_terminal P E Hall html_file output_path debug w Hrel).
  assert (Hstall' :
            negb (Readiness.allRendered
                    (Readiness.checkVegaRenderStatus
                       (page_at E L314_checkVegaRenderStatus))) = true)
    by now rewrite Hstall.
  assert (Hcap : exists d,
             quietly (Program.capture_through E
                        (Net.ephemeral_port (sockets w)) html_file out debug)
               (Returned (Some out)) d /\
             exists before after,
               d = before
                   ++ [L314_checkVegaRenderStatus; L322_forceRenderCharts;
                       L323_wait_for_timeout] ++ after /\
               In (L346_screenshot out) after).
  { unfold Program.capture_through, Program.check_server,
      Program.with_browser, Program.load_and_capture,
      Program.wait_for_charts.
    destruct (raises E L217_wait_for_selector) eqn:H217;
      destruct (raises E L327_evaluate_has_images) eqn:H327;
      destruct (raises E L331_wait_for_selector) eqn:H331;
      destruct (has_images_script (page_at E L327_evaluate_has_images))
        eqn:Himg;
      (eexists; split;
       [ run ltac:(first [assumption | apply Hcrit; reflexivity])
             ltac:(eapply Hexc; [|eassumption]; simpl; auto)
       | find_segment ]). }
  destruct Hcap as (d & Hcap & before & after & -> & Hin).
  destruct (convert_around E html_file output_path debug w _ _
              (Hcrit L45_TCPServer eq_refl) (Hcrit L53_thread_start eq_refl)
              (Hcrit L56_sleep eq_refl) Hcap) as (Hr & _ & Ht).
  split; [exact Hr|].
  exists ([L45_TCPServer; L53_thread_start; L56_sleep] ++ before),
         (after ++ teardown_calls E).
  split.
  - rewrite Ht, <- !app_assoc. reflexivity.
  - apply in_or_app. now left.
Qed.

Lemma stalled_charts_are_still_captured_witness :
  let r := convert terminal impatient_stalled_env Examples.report None false
             (initial []) in
  fst r = Value (Some "output/report.png") /\
  exists before after,
    trace (snd r) =
      trace (initial []) ++ before
      ++ [L314_checkVegaRenderStatus; L322_forceRenderCharts;
          L323_wait_for_timeout]
      ++ after /\
    In (L346_screenshot "output/report.png") after.
Proof.
  apply (stalled_charts_are_still_captured terminal impatient_stalled_env
           Examples.report None false (initial [])).
  - split; [intros out m|]; reflexivity.
  - split; [discriminate | reflexivity].
  - split.
    + intros s Hs. destruct s; try reflexivity; discriminate Hs.
    + intros s e _ He. destruct s; try discriminate He;
        injection He as <-; reflexivity.
  - reflexivity.
  - reflexivity.
Defined.

(** ** Failures and the value that comes back *)


Section WhatComesBack.

Variable P : platform.
Variable E : env.



End WhatComesBack.



(** ** Requested ports, and port 0 *)

(** C8, as stated, fails: serve_directory asked for port 0, which is not
    None, lets the kernel pick the port; and start_http_server asked for
    port 8000 is not refused when 8000 is bound on another interface
    only. *)
Lemma ports_are_chosen_and_shared :
  fst (run (serve_directory Examples.quiet_env None (Some 0%Z) true
              look_around) (initial Examples.busy_table)) =
    Value ({| url_port := 0; url_path := [] |},
           directory_socket 49152 :: Examples.busy_table)
  /\
  (let r := run (start_http_server terminal Examples.quiet_env
                   ["srv"; "project"] 8000) (initial elsewhere_table) in
   (exists h, fst r = Value (8000%Z, h)) /\
   sockets (snd r) =
     {| Net.s_addr := Net.Loopback; Net.s_port := 8000;
        Net.s_listening := true |} :: elsewhere_table).
Proof.
  split; [vm_compute; reflexivity|].
  split; [eexists; vm_compute; reflexivity | vm_compute; reflexivity].
Qed.

(** C8. A requested port other than 0 that is in use for the address
    being bound makes both start operations fail with an exception that
    reports the occupied port (OSError with EADDRINUSE from the bind, or
    the RuntimeError of line 70), unless the call raised for another
    reason first; no socket is bound, on that port or on any other. For
    start_http_server, which binds localhost, a port bound on another
    interface only is not in use: the server is bound to it. Port 0 makes
    the kernel choose a free port, in start_http_server and in
    serve_directory alike, although 0 is not the None that serve_directory
    documents; with None serve_directory picks the port itself, through
    find_free_port. *)
Theorem requested_ports_and_port_zero :
  (forall (P : platform) (E : env) (root : path) (port : Z) (w : world),
     port <> 0%Z ->
     Net.in_use Net.Loopback port (sockets w) = true ->
     let r := run (start_http_server P E root port) w in
     sockets (snd r) = sockets w /\
     trace (snd r) = trace w ++ [L45_TCPServer] /\
     exists e, fst r = Uncaught e /\
       (raises E L45_TCPServer = None -> reports_port_in_use e = true))
  /\
  (forall (E : env) (R : Type) (directory : option string) (port : Z)
          (quiet : bool) (body : url -> M R Empty_set) (w : world),
     port <> 0%Z ->
     Net.in_use Net.AnyInterface port (sockets w) = true ->
     let r := run (serve_directory E directory (Some port) quiet body) w in
     sockets (snd r) = sockets w /\
     (trace (snd r) = trace w ++ [H47_connect_ex port] \/
      trace (snd r) = trace w ++ [H47_connect_ex port; H74_TCPServer]) /\
     exists e, fst r = Uncaught e /\
       (raises E (H47_connect_ex port) = None ->
        raises E H74_TCPServer = None -> reports_port_in_use e = true))
  /\
  (forall (P : platform) (E : env) (root : path) (port : Z) (w : world),
     raises E L45_TCPServer = None ->
     raises E L53_thread_start = None ->
     raises E L56_sleep = None ->
     port = 0%Z \/ Net.in_use Net.Loopback port (sockets w) = false ->
     let q := if Z.eqb port 0 then Net.ephemeral_port (sockets w) else port in
     refuses P (stdout w) (Started_on_port q) = None ->
     let r := run (start_http_server P E root port) w in
     q <> 0%Z /\
     (exists h, fst r = Value (q, h) /\ Net.server_port h = q) /\
     sockets (snd r) =
       {| Net.s_addr := Net.Loopback; Net.s_port := q;
          Net.s_listening := true |} :: sockets w)
  /\
  (forall (E : env) (directory : option string) (port : option Z)
          (w : world),
     port = None \/ port = Some 0%Z ->
     Net.accepts_on_localhost 0 (sockets w) = false ->
     (forall s, is_probe s = false -> raises E s = None) ->
     (forall j e, raises E (H91_urlopen j) = Some e -> is_Exception e = true) ->
     let q := Net.ephemeral_port (sockets w) in
     q <> 0%Z /\
     fst (run (serve_directory E directory port true look_around) w) =
       Value ({| url_port := match port with Some p => p | None => q end;
                 url_path := [] |},
              directory_socket q :: sockets w)).
Proof.
  split; [|split; [|split]].
  - intros P E root port w Hp Hused r. subst r.
    apply Z.eqb_neq in Hp.
    unfold run, start_http_server, TCPServer, bind, Net.bind_listen.
    change (Net.resolve "localhost") with Net.Loopback.
    cbn [sockets log]. rewrite Hp, Hused.
    destruct (raises E L45_TCPServer) as [e|]; simpl.
    + repeat split. exists e. split; [reflexivity | discriminate].
    + repeat split. eexists. split; reflexivity.
  - intros E R directory port quiet body w Hp Hused r. subst r.
    apply Z.eqb_neq in Hp.
    unfold run, serve_directory, is_port_in_use, with_, TCPServer, bind,
      call, raise, ret, Net.bind_listen.
    change (Net.resolve "") with Net.AnyInterface.
    destruct (raises E (H47_connect_ex port)) as [e|];
      cbn -[Net.in_use Net.accepts_on_localhost Z.eqb].
    { repeat split; auto. exists e. split; [reflexivity | discriminate]. }
    destruct (Net.accepts_on_localhost port (sockets w));
      cbn -[Net.in_use Net.accepts_on_localhost Z.eqb].
    { repeat split; auto. eexists. split; reflexivity. }
    destruct (raises E H74_TCPServer) as [e|];
      cbn -[Net.in_use Net.accepts_on_localhost Z.eqb].
    { rewrite <- app_assoc. repeat split; auto.
      exists e. split; [reflexivity | discriminate]. }
    rewrite Hp, Hused. cbn. rewrite <- app_assoc. repeat split; auto.
    eexists. split; reflexivity.
  - intros P E root port w H45 H53 H56 Hfree q Hline r. subst r.
    assert (Hq : q <> 0%Z).
    { subst q. destruct (port =? 0)%Z eqn:Hp.
      - apply Z.eqb_neq, ephemeral_port_nonzero.
      - now apply Z.eqb_neq. }
    split; [exact Hq|].
    assert (Hrun : exists h w',
               run (start_http_server P E root port) w = (Value (q, h), w') /\
               Net.server_port h = q /\
               sockets w' =
                 {| Net.s_addr := Net.Loopback; Net.s_port := q;
                    Net.s_listening := true |} :: sockets w).
    { unfold run, start_http_server, TCPServer, Net.bind_listen, bind, say,
        call, return_, print.
      change (Net.resolve "localhost") with Net.Loopback.
      rewrite H45. cbn [sockets log].
      subst q. destruct (port =? 0)%Z eqn:Hp.
      - cbn -[Net.ephemeral_port]. rewrite Hline, H53, H56.
        cbn -[Net.ephemeral_port]. eauto.
      - destruct Hfree as [-> | Hfree]; [discriminate|]. rewrite Hfree.
        cbn. rewrite Hline, H53, H56. cbn. eauto. }
    destruct Hrun as (h & w' & -> & Hh & Hs). cbn [fst snd]. eauto.
  - intros E directory port w Hport Hfree Hother Hprobe q. subst q.
    split; [apply Z.eqb_neq, ephemeral_port_nonzero|].
    unfold run, serve_directory, with_.
    set (loop := wait_for_server E 0 5).
    assert (Hloop : forall w0,
               fst (loop w0) = Normal tt /\
               sockets (snd (loop w0)) = sockets w0).
    { intros w0. split.
      - apply wait_for_server_completes; [|assumption].
        intros j. now apply Hother.
      - apply (wait_for_server_appends E 5 0 w0). }
    clearbody loop.
    unfold find_free_port, is_port_in_use, TCPServer, server_close,
      try_finally, bind, call, raise, ret, World.verbose, print, look_around,
      Net.bind_listen.
    change (Net.resolve "") with Net.AnyInterface.
    destruct Hport as [-> | ->];
      rewrite !Hother by reflexivity;
      cbn -[Net.in_use Net.accepts_on_localhost Net.ephemeral_port Z.eqb];
      rewrite ?Hfree, ?ephemeral_port_nonzero, ?ephemeral_port_free;
      cbn -[Net.ephemeral_port];
      match goal with
      | |- context [loop ?w0] =>
          destruct (Hloop w0) as (Hc & Hs);
          destruct (loop w0) as [c w1]
      end;
      cbn -[Net.ephemeral_port] in Hc, Hs; subst c;
      cbn -[Net.ephemeral_port]; rewrite Hs; reflexivity.
Qed.

Lemma requested_ports_and_port_zero_witness :
  (let r := run (start_http_server terminal Examples.quiet_env
                   ["srv"; "project"] 8000) (initial Examples.busy_table) in
   sockets (snd r) = Examples.busy_table /\
   fst r = Uncaught (OSError EADDRINUSE))
  /\
  (let r := run (serve_directory Examples.quiet_env None (Some 8000%Z) true
                   (fun u => return_ u)) (initial Examples.busy_table) in
   sockets (snd r) = Examples.busy_table /\
   fst r = Uncaught (RuntimeError 8000))
  /\
  (let r := run (start_http_server terminal Examples.quiet_env
                   ["srv"; "project"] 8000) (initial elsewhere_table) in
   sockets (snd r) =
     {| Net.s_addr := Net.Loopback; Net.s_port := 8000;
        Net.s_listening := true |} :: elsewhere_table)
  /\
  fst (run (serve_directory Examples.never_up_env None (Some 0%Z) true
              look_around) (initial Examples.busy_table)) =
    Value ({| url_port := 0; url_path := [] |},
           directory_socket (Net.ephemeral_port Examples.busy_table)
           :: Examples.busy_table).
Proof.
  destruct requested_ports_and_port_zero
    as (Hstart & Hserve & Hbound & Hzero).
  split; [|split; [|split]].
  - destruct (Hstart terminal Examples.quiet_env ["srv"; "project"] 8000%Z
                (initial Examples.busy_table)) as (Hs & _ & e & He & _).
    + discriminate.
    + reflexivity.
    + split; [exact Hs | reflexivity].
  - destruct (Hserve Examples.quiet_env url None 8000%Z true
                (fun u => return_ u) (initial Examples.busy_table))
      as (Hs & _ & e & He & _).
    + discriminate.
    + reflexivity.
    + split; [exact Hs | reflexivity].
  - destruct (Hbound terminal Examples.quiet_env ["srv"; "project"] 8000%Z
                (initial elsewhere_table)) as (_ & _ & Hs);
      [reflexivity | reflexivity | reflexivity | now right | reflexivity
      | exact Hs].
  - destruct (Hzero Examples.never_up_env None (Some 0%Z)
                (initial Examples.busy_table)) as (_ & Hr).
    + now right.
    + reflexivity.
    + intros s Hs. destruct s; try reflexivity; discriminate.
    + intros j e He. injection He as <-. reflexivity.
    + exact Hr.
Defined.

(** ** The debug flag *)

(** X9. On a stdout that takes every line the debug flag only changes
    what is printed: with it or without, a call returns the same value (or
    lets the same exception through), makes the same library calls in the
    same order and leaves the same socket table. On a stdout that raises
    on the line of 126 the flag changes more: with debug on the call
    raises there, before any library call. *)
Theorem debug_only_changes_the_output (P : platform) (E : env)
    (html_file : string) (output_path : option string)
    (debug1 debug2 : bool) (w : world) :
  (takes_every_line P ->
   let r1 := convert P E html_file output_path debug1 w in
   let r2 := convert P E html_file output_path debug2 w in
   fst r1 = fst r2 /\
   sockets (snd r1) = sockets (snd r2) /\
   trace (snd r1) = trace (snd r2))
  /\
  (forall e,
     refuses P (stdout w) (Verbose 126) = Some e ->
     convert P E html_file output_path true w = (Uncaught e, w)).
Proof.
  split.
  - intros Hall. unfold convert, run.
    destruct (console_convert_agree P E Hall html_file output_path debug1
                debug2 w w (same_but_stdout_refl w)) as (Hc & Hs & Ht & _).
    destruct (convert_html_file_to_image P E html_file output_path debug1 w)
      as [c1 w1].
    destruct (convert_html_file_to_image P E html_file output_path debug2 w)
      as [c2 w2].
    simpl in *. subst c2.
    destruct c1 as [[]|r|e]; simpl; auto.
  - intros e He.
    unfold convert, run, convert_html_file_to_image, verbose.
    rewrite say_then, He. reflexivity.
Qed.

Lemma debug_only_changes_the_output_witness :
  (let r1 := convert terminal Examples.unwritable_env Examples.report None
               true (initial []) in
   let r2 := convert terminal Examples.unwritable_env Examples.report None
               false (initial []) in
   fst r1 = fst r2 /\
   sockets (snd r1) = sockets (snd r2) /\
   trace (snd r1) = trace (snd r2))
  /\
  convert ascii_stdout Examples.unwritable_env Examples.report None true
    (initial []) = (Uncaught (LibraryError "UnicodeEncodeError"), initial []).
Proof.
  destruct (debug_only_changes_the_output terminal Examples.unwritable_env
              Examples.report None true false (initial [])) as (Hsame & _).
  destruct (debug_only_changes_the_output ascii_stdout Examples.unwritable_env
              Examples.report None true false (initial [])) as (_ & Hstop).
  split.
  - apply Hsame. split; [intros out m|]; reflexivity.
  - apply Hstop. reflexivity.
Defined.

(* ================================================================== *)
(** * test_html_to_image                                               *)
(* ================================================================== *)

Section SelftestRuns.

Import Selftest.

Variable H : host.
Variable P : platform.
Variable E : env.

(** X27. test_html_to_image does not look at what the conversion
    returned. When the probe of line 151 raises an Exception, so that the
    conversion returns None, it still prints that the conversion is done,
    with None as the path of the image. On a platform it knows it then
    calls subprocess.call with None where the path should be: the call
    raises TypeError before any command is started, line 407 prints that
    the image cannot be opened, and the function returns normally. The
    server's socket has been released by then. Stated for a stdout that
    takes every line and a path relpath has a value for. *)
Theorem a_failed_conversion_is_announced_as_done (html : string)
    (out : option string) (debug : bool) (w : world) (e : exc) :
  exists_ H html = true ->
  (forall ev, line_refused H ev = None) ->
  takes_every_line P ->
  relpath_defined P html ->
  raises E L45_TCPServer = None ->
  raises E L53_thread_start = None ->
  raises E L56_sleep = None ->
  raises E L147_import_requests = None ->
  raises E (L151_requests_get (Net.ephemeral_port (sockets w))) = Some e ->
  is_Exception e = true ->
  raises E L368_shutdown = None ->
  raises E L369_server_close = None ->
  let r := test_html_to_image H P E html out debug w in
  sockets (snd r) = sockets w /\
  fst r =
    (Print_starting html :: Print_done None
     :: (if known_system H
         then [Print_cannot_open (LibraryError "TypeError")]
         else []),
     Value tt).
Proof.
  intros Hex Hlines Hall Hrel H45 H53 H56 H147 H151 He H368 H369 r. subst r.
  destruct (convert_around E html out debug w (Returned None)
              [L147_import_requests;
               L151_requests_get (Net.ephemeral_port (sockets w))]
              H45 H53 H56) as (Hr & Hs & _).
  { unfold Program.capture_through, Program.check_server.
    eapply quietly_as; [run ltac:(assumption) ltac:(assumption)|].
    reflexivity. }
  rewrite sockets_after_teardown_ok in Hs by assumption.
  rewrite <- (convert_on_a_terminal P E Hall html out debug w Hrel) in Hr, Hs.
  unfold test_html_to_image. rewrite Hex, Hlines. cbn [negb].
  destruct (convert P E html out debug w) as [[p|e'] w']; simpl in Hr, Hs;
    [|discriminate].
  injection Hr as ->.
  unfold line, open_image, attempt, cannot_open, known_system.
  rewrite !Hlines. cbn [fst snd all_strings is_Exception].
  split; [exact Hs|].
  destruct (String.eqb (system H) "Darwin");
    [| destruct (String.eqb (system H) "Windows");
       [| destruct (String.eqb (system H) "Linux")]];
    cbn; unfold line; rewrite ?Hlines; reflexivity.
Qed.

End SelftestRuns.

Lemma a_failed_conversion_is_announced_as_done_witness :
  let r := Selftest.test_html_to_image Selftest.linux_box terminal
             Examples.unreachable_env Examples.report None false (initial [])
  in
  sockets (snd r) = [] /\
  fst r =
    ([Selftest.Print_starting Examples.report; Selftest.Print_done None;
      Selftest.Print_cannot_open (LibraryError "TypeError")],
     Value tt).
Proof.
  apply (a_failed_conversion_is_announced_as_done Selftest.linux_box terminal
           Examples.unreachable_env Examples.report None false (initial [])
           (LibraryError "ConnectionError")); try reflexivity.
  - split; [intros out m|]; reflexivity.
  - split; [discriminate | reflexivity].
Defined.
